(** * GoProject URL shortener: code generator, mapping store, shortening
      service and HTTP handlers

    A shallow embedding of
      - [internal/pkg/utils/random.go]            (module [utils]),
      - [internal/repositories/shortener_repo.go] (module [repositories]),
      - [internal/services/shortener_service.go]  (module [services]),
      - [internal/deliveries/http]: the handlers and their routes
                                                  (module [deliveries]),
    together with the parts of the Go standard library they call
    ([encoding/base64], [crypto/rand], [net/url], [errors], [fmt.Errorf],
    [path.Clean] and the routing of [net/http]'s [ServeMux]) and of SQLite
    (the statements of the repository on the schema of [InitSchema]),
    followed by the properties of the specification. *)

From Stdlib Require Import ZArith NArith List String Ascii Bool Lia.
From Stdlib.Strings Require Import Byte.
Import ListNotations.

Local Open Scope string_scope.
Local Open Scope Z_scope.

(* ===================================================================== *)
(** ** Go runtime: machine integers, panics, slices *)
(* ===================================================================== *)

(** Go's [int] on the 64-bit targets the Dockerfile builds for
    ([golang:1.23-alpine], linux/amd64): two's complement, silent wrap-around. *)
Module GoInt.

Definition intSize : Z := 64.
Definition minInt : Z := - 2 ^ 63.
Definition maxInt : Z := 2 ^ 63 - 1.

Definition in_range (z : Z) : Prop := minInt <= z <= maxInt.

(** Reduction of a mathematical integer to its [int] representative. *)
Definition wrap (z : Z) : Z := (z + 2 ^ 63) mod 2 ^ 64 - 2 ^ 63.

Definition add (a b : Z) : Z := wrap (a + b).
Definition mul (a b : Z) : Z := wrap (a * b).
(** Go's [/] truncates toward zero. *)
Definition quo (a b : Z) : Z := wrap (Z.quot a b).

End GoInt.

(** The two run-time panics the program can raise. *)
Inductive panic : Type :=
| PanicMakeSliceLen      (* runtime error: makeslice: len out of range *)
| PanicSliceBounds.      (* runtime error: slice bounds out of range   *)

(** A Go call either returns its results or panics. *)
Inductive outcome (A : Type) : Type :=
| Returns (a : A)
| Panics (p : panic).
Arguments Returns {A} a.
Arguments Panics {A} p.

(** Largest allocation the runtime accepts (linux/amd64: 48 address bits). *)
Definition maxAlloc : Z := 2 ^ 48.

(** [make([]byte, n)]: the length of the fresh slice, or the panic of
    [runtime.makeslice] for a negative or oversized [n].  An allocation that
    the runtime accepts is taken to succeed. *)
Definition make_bytes (n : Z) : outcome nat :=
  if (n <? 0) || (maxAlloc <? n) then Panics PanicMakeSliceLen
  else Returns (Z.to_nat n).

(** [s[:hi]] on a string: bounds-checked. *)
Definition slice_to (s : string) (hi : Z) : outcome string :=
  if (hi <? 0) || (Z.of_nat (String.length s) <? hi) then Panics PanicSliceBounds
  else Returns (substring 0 (Z.to_nat hi) s).

(* ===================================================================== *)
(** ** Go errors *)
(* ===================================================================== *)

(** Error values.  Sentinels are compared by identity in Go, so each one is a
    constructor of its own; [fmtErrorf] is [fmt.Errorf("<msg>: %w", err)]. *)
Inductive error : Type :=
| ErrNotFound                  (* repositories.ErrNotFound            *)
| sqlErrNoRows                 (* database/sql.ErrNoRows              *)
| sqliteErrConstraintUnique    (* sqlite3: UNIQUE constraint failed   *)
| sqliteErrFull                (* sqlite3: database or disk is full   *)
| randErr                      (* failure of the entropy source       *)
| errorsNew (msg : string)
| fmtErrorf (msg : string) (wrapped : error).

(** [errors.Is(err, repositories.ErrNotFound)]: walks the [%w] chain. *)
Fixpoint errors_Is_ErrNotFound (err : error) : bool :=
  match err with
  | ErrNotFound => true
  | fmtErrorf _ inner => errors_Is_ErrNotFound inner
  | _ => false
  end.

(** [errors.Is(err, sql.ErrNoRows)]. *)
Fixpoint errors_Is_ErrNoRows (err : error) : bool :=
  match err with
  | sqlErrNoRows => true
  | fmtErrorf _ inner => errors_Is_ErrNoRows inner
  | _ => false
  end.

(* ===================================================================== *)
(** ** encoding/base64: [RawURLEncoding] *)
(* ===================================================================== *)

Module base64.

(** [encodeURL], the alphabet of [URLEncoding] and [RawURLEncoding]. *)
Definition encodeURL : string :=
  "ABCDEFGHIJKLMNOPQRSTUVWXYZabcdefghijklmnopqrstuvwxyz0123456789-_".

(** [enc.encode[i]]; every index the encoder uses is masked with [0x3F]. *)
Definition encode (i : N) : ascii :=
  match String.get (N.to_nat i) encodeURL with
  | Some c => c
  | None => "A"%char
  end.

(** [RawURLEncoding.EncodeToString]: three source bytes give four symbols;
    a remainder of one or two bytes gives two or three symbols, and no
    padding is written ([NoPadding]). *)
Fixpoint EncodeToString (src : list byte) : string :=
  match src with
  | b0 :: b1 :: b2 :: rest =>
      let val := N.lor (N.lor (N.shiftl (Byte.to_N b0) 16)
                              (N.shiftl (Byte.to_N b1) 8))
                       (Byte.to_N b2) in
      String (encode (N.land (N.shiftr val 18) 63))
     (String (encode (N.land (N.shiftr val 12) 63))
     (String (encode (N.land (N.shiftr val 6) 63))
     (String (encode (N.land val 63))
             (EncodeToString rest))))
  | [b0; b1] =>
      let val := N.lor (N.shiftl (Byte.to_N b0) 16)
                       (N.shiftl (Byte.to_N b1) 8) in
      String (encode (N.land (N.shiftr val 18) 63))
     (String (encode (N.land (N.shiftr val 12) 63))
     (String (encode (N.land (N.shiftr val 6) 63)) ""))
  | [b0] =>
      let val := N.shiftl (Byte.to_N b0) 16 in
      String (encode (N.land (N.shiftr val 18) 63))
     (String (encode (N.land (N.shiftr val 12) 63)) "")
  | [] => ""
  end.

(** [RawURLEncoding.EncodedLen]. *)
Definition EncodedLen (n : nat) : nat :=
  (n / 3 * 4 + (n mod 3 * 8 + 5) / 6)%nat.

(** Membership in the URL-safe alphabet: [A-Z], [a-z], [0-9], [-], [_]. *)
Definition urlsafe (c : ascii) : bool :=
  let n := N_of_ascii c in
  ((65 <=? n) && (n <=? 90) || (97 <=? n) && (n <=? 122) ||
   (48 <=? n) && (n <=? 57) || (n =? 45) || (n =? 95))%N.

Fixpoint all_urlsafe (s : string) : bool :=
  match s with
  | EmptyString => true
  | String c rest => urlsafe c && all_urlsafe rest
  end.

End base64.

(* ===================================================================== *)
(** ** crypto/rand *)
(* ===================================================================== *)

Module rand.

(** The entropy source: the bytes it will still deliver.  A read of more
    bytes than are left is the failure of the source. *)
Definition Source : Type := list byte.

(** [rand.Read(b)] for a slice of [n] bytes: the bytes written to [b], or
    the error, and the source afterwards. *)
Definition Read (n : nat) (src : Source) : (list byte + error) * Source :=
  if (List.length src <? n)%nat then (inr randErr, src)
  else (inl (firstn n src), skipn n src).

End rand.

(* ===================================================================== *)
(** ** internal/pkg/utils/random.go *)
(* ===================================================================== *)

Module utils.

(** [func GenerateRandomString(length int) (string, error)] *)
Definition GenerateRandomString (length : Z) (src : rand.Source)
  : outcome (string * option error) * rand.Source :=
  let numBytes := GoInt.add (GoInt.quo (GoInt.mul length 6) 8) 1 in
  match make_bytes numBytes with
  | Panics p => (Panics p, src)
  | Returns n =>
      match rand.Read n src with
      | (inr err, src') => (Returns ("", Some err), src')
      | (inl b, src') =>
          let randomString := base64.EncodeToString b in
          if Z.of_nat (String.length randomString) >? length then
            match slice_to randomString length with
            | Panics p => (Panics p, src')
            | Returns s => (Returns (s, None), src')
            end
          else (Returns (randomString, None), src')
      end
  end.

(** The byte count of the specification's prose: [ceil(length*6/8)+1]. *)
Definition spec_numBytes (length : Z) : Z := (length * 6 + 7) / 8 + 1.

End utils.

(* ===================================================================== *)
(** ** strings: the helpers [net/url] uses *)
(* ===================================================================== *)

Module strings.

Definition HasPrefix (s pre : string) : bool := String.prefix pre s.

(** [strings.Index(s, sep)]; [None] is Go's [-1]. *)
Definition Index (s sep : string) : option nat := String.index 0 sep s.

(** [strings.IndexByte(s, c)], also [strings.Index] with a one-byte needle. *)
Fixpoint IndexByte (s : string) (c : ascii) : option nat :=
  match s with
  | EmptyString => None
  | String a rest =>
      if Ascii.eqb a c then Some O
      else match IndexByte rest c with
           | Some i => Some (S i)
           | None => None
           end
  end.

(** [strings.LastIndex(s, sep)] with a one-byte needle. *)
Fixpoint LastIndexByte (s : string) (c : ascii) : option nat :=
  match s with
  | EmptyString => None
  | String a rest =>
      match LastIndexByte rest c with
      | Some i => Some (S i)
      | None => if Ascii.eqb a c then Some O else None
      end
  end.

(** [strings.Count(s, sep)] with a one-byte needle. *)
Fixpoint CountByte (s : string) (c : ascii) : nat :=
  match s with
  | EmptyString => O
  | String a rest => ((if Ascii.eqb a c then 1 else 0) + CountByte rest c)%nat
  end.

(** [s[lo:]] and [s[:hi]] for indices known to be in range. *)
Definition from (s : string) (lo : nat) : string :=
  substring lo (String.length s - lo) s.
Definition upto (s : string) (hi : nat) : string := substring 0 hi s.

(** [strings.HasSuffix(s, suf)] with a one-byte suffix. *)
Definition HasSuffixByte (s : string) (c : ascii) : bool :=
  match String.length s with
  | O => false
  | S n => match String.get n s with
           | Some a => Ascii.eqb a c
           | None => false
           end
  end.

(** [strings.Cut(s, sep)] with a one-byte separator. *)
Definition Cut (s : string) (c : ascii) : string * string * bool :=
  match IndexByte s c with
  | Some i => (upto s i, from s (S i), true)
  | None => (s, "", false)
  end.

Definition Contains (s : string) (c : ascii) : bool :=
  match IndexByte s c with Some _ => true | None => false end.

Definition lower (c : ascii) : ascii :=
  let n := N_of_ascii c in
  if ((65 <=? n) && (n <=? 90))%N then ascii_of_N (n + 32) else c.

(** [strings.ToLower] on ASCII text (a URL scheme is ASCII, see
    [url.getScheme]). *)
Fixpoint ToLower (s : string) : string :=
  match s with
  | EmptyString => EmptyString
  | String c rest => String (lower c) (ToLower rest)
  end.

(** [strings.Contains(s, substr)] for any needle. *)
Definition ContainsStr (s substr : string) : bool :=
  match Index s substr with Some _ => true | None => false end.

(** [strings.TrimPrefix(s, prefix)] *)
Definition TrimPrefix (s pre : string) : string :=
  if HasPrefix s pre then from s (String.length pre) else s.

(** [strings.HasSuffix(s, suffix)] *)
Definition HasSuffix (s suf : string) : bool :=
  (String.length suf <=? String.length s)%nat
  && String.eqb (from s (String.length s - String.length suf)) suf.

(** [strings.TrimSuffix(s, suffix)] *)
Definition TrimSuffix (s suf : string) : string :=
  if HasSuffix s suf then upto s (String.length s - String.length suf) else s.

End strings.

(* ===================================================================== *)
(** ** net/url (go1.23): [ParseRequestURI] *)
(* ===================================================================== *)

Module url.

(** The fields of [url.URL] that [parse] fills from the text.  The
    userinfo is validated by [parseAuthority] but not kept here. *)
Record URL : Type := mkURL {
  Scheme : string;
  Opaque : string;
  Host : string;
  Path : string;
  RawQuery : string
}.

Inductive encoding : Type :=
| encodePath | encodeHost | encodeZone | encodeUserPassword.

Definition is_host_mode (mode : encoding) : bool :=
  match mode with encodeHost | encodeZone => true | _ => false end.

Definition code (c : ascii) : N := N_of_ascii c.

Definition isalpha (c : ascii) : bool :=
  ((97 <=? code c) && (code c <=? 122) || (65 <=? code c) && (code c <=? 90))%N.
Definition isdigit (c : ascii) : bool :=
  ((48 <=? code c) && (code c <=? 57))%N.

Definition one_of (c : ascii) (set : string) : bool :=
  strings.Contains set c.

Definition ishex (c : ascii) : bool :=
  (isdigit c || (97 <=? code c) && (code c <=? 102)
             || (65 <=? code c) && (code c <=? 70))%N.

Definition unhex (c : ascii) : N :=
  (if isdigit c then code c - 48
   else if (97 <=? code c) && (code c <=? 102) then code c - 97 + 10
   else if (65 <=? code c) && (code c <=? 70) then code c - 65 + 10
   else 0)%N.

(** [shouldEscape(c, encodeHost)]: alphanumerics, the sub-delimiters the
    host may carry (the last of them the double quote, byte 34), and the
    unreserved marks need no escape. *)
Definition shouldEscape_encodeHost (c : ascii) : bool :=
  if isalpha c || isdigit c then false
  else if one_of c "!$&'()*+,;=:[]<>" || (code c =? 34)%N then false
  else if one_of c "-_.~" then false
  else true.

(** [stringContainsCTLByte] *)
Fixpoint stringContainsCTLByte (s : string) : bool :=
  match s with
  | EmptyString => false
  | String b rest =>
      if ((code b <? 32) || (code b =? 127))%N then true
      else stringContainsCTLByte rest
  end.

(** [unescape(s, mode)]: the first malformed or forbidden escape, scanning
    from the left, is the error; otherwise [%XX] is decoded. *)
Fixpoint unescape (s : string) (mode : encoding) : string + error :=
  match s with
  | EmptyString => inl EmptyString
  | String c rest =>
      if Ascii.eqb c "%" then
        match rest with
        | String h1 (String h2 rest') =>
            if negb (ishex h1 && ishex h2) then
              inr (errorsNew "invalid URL escape")
            else
              let is25 := Ascii.eqb h1 "2" && Ascii.eqb h2 "5" in
              let v := ascii_of_N (N.lor (N.shiftl (unhex h1) 4) (unhex h2)) in
              if match mode with encodeHost => true | _ => false end
                 && (unhex h1 <? 8)%N && negb is25 then
                inr (errorsNew "invalid URL escape")
              else if match mode with encodeZone => true | _ => false end
                      && negb is25 && negb (Ascii.eqb v " ")
                      && shouldEscape_encodeHost v then
                inr (errorsNew "invalid URL escape")
              else
                match unescape rest' mode with
                | inl t => inl (String v t)
                | inr e => inr e
                end
        | _ => inr (errorsNew "invalid URL escape")
        end
      else if is_host_mode mode && (code c <? 128)%N
              && shouldEscape_encodeHost c then
        inr (errorsNew "invalid character in host name")
      else
        match unescape rest mode with
        | inl t => inl (String c t)
        | inr e => inr e
        end
  end.

(** [getScheme]: [(scheme, rest)] or the error of a leading colon. *)
Fixpoint getScheme_from (rawURL : string) (i : nat) (s : string)
  : (string * string) + error :=
  match s with
  | EmptyString => inl ("", rawURL)
  | String c rest =>
      if isalpha c then getScheme_from rawURL (S i) rest
      else if isdigit c || one_of c "+-." then
        match i with
        | O => inl ("", rawURL)
        | _ => getScheme_from rawURL (S i) rest
        end
      else if Ascii.eqb c ":" then
        match i with
        | O => inr (errorsNew "missing protocol scheme")
        | _ => inl (strings.upto rawURL i, rest)
        end
      else inl ("", rawURL)
  end.

Definition getScheme (rawURL : string) : (string * string) + error :=
  getScheme_from rawURL O rawURL.

(** [validOptionalPort] *)
Fixpoint all_digits (s : string) : bool :=
  match s with
  | EmptyString => true
  | String b rest => isdigit b && all_digits rest
  end.

Definition validOptionalPort (port : string) : bool :=
  match port with
  | EmptyString => true
  | String c rest => Ascii.eqb c ":" && all_digits rest
  end.

(** [validUserinfo] *)
Fixpoint validUserinfo (s : string) : bool :=
  match s with
  | EmptyString => true
  | String r rest =>
      (isalpha r || isdigit r || one_of r "-._:~!$&'()*+,;=%@")
      && validUserinfo rest
  end.

(** [parseHost] *)
Definition parseHost (host : string) : string + error :=
  if strings.HasPrefix host "[" then
    match strings.LastIndexByte host "]" with
    | None => inr (errorsNew "missing ']' in host")
    | Some i =>
        let colonPort := strings.from host (S i) in
        if negb (validOptionalPort colonPort) then
          inr (errorsNew "invalid port after host")
        else
          match strings.Index (strings.upto host i) "%25" with
          | Some zone =>
              match unescape (strings.upto host zone) encodeHost with
              | inr e => inr e
              | inl host1 =>
                  match unescape (substring zone (i - zone) host) encodeZone with
                  | inr e => inr e
                  | inl host2 =>
                      match unescape (strings.from host i) encodeHost with
                      | inr e => inr e
                      | inl host3 => inl (host1 ++ host2 ++ host3)
                      end
                  end
              end
          | None => unescape host encodeHost
          end
    end
  else
    match strings.LastIndexByte host ":" with
    | Some i =>
        if negb (validOptionalPort (strings.from host i)) then
          inr (errorsNew "invalid port after host")
        else unescape host encodeHost
    | None => unescape host encodeHost
    end.

(** [parseAuthority]: the host, once the userinfo before the last [@] has
    been checked. *)
Definition parseAuthority (authority : string) : string + error :=
  match strings.LastIndexByte authority "@" with
  | None => parseHost authority
  | Some i =>
      match parseHost (strings.from authority (S i)) with
      | inr e => inr e
      | inl host =>
          let userinfo := strings.upto authority i in
          if negb (validUserinfo userinfo) then
            inr (errorsNew "net/url: invalid userinfo")
          else if negb (strings.Contains userinfo ":") then
            match unescape userinfo encodeUserPassword with
            | inr e => inr e
            | inl _ => inl host
            end
          else
            let '(username, password, _) := strings.Cut userinfo ":" in
            match unescape username encodeUserPassword with
            | inr e => inr e
            | inl _ =>
                match unescape password encodeUserPassword with
                | inr e => inr e
                | inl _ => inl host
                end
            end
      end
  end.

(** [parse(rawURL, viaRequest)] with [viaRequest = true]. *)
Definition parse (rawURL : string) : URL + error :=
  if stringContainsCTLByte rawURL then
    inr (errorsNew "net/url: invalid control character in URL")
  else if String.eqb rawURL "" then inr (errorsNew "empty url")
  else if String.eqb rawURL "*" then inl (mkURL "" "" "" "*" "")
  else
    match getScheme rawURL with
    | inr e => inr e
    | inl (scheme0, rest0) =>
        let scheme := strings.ToLower scheme0 in
        let '(rest, rawQuery) :=
          if strings.HasSuffixByte rest0 "?"
             && Nat.eqb (strings.CountByte rest0 "?") 1
          then (strings.upto rest0 (String.length rest0 - 1), "")
          else let '(before, after, _) := strings.Cut rest0 "?" in
               (before, after) in
        if negb (strings.HasPrefix rest "/") then
          if negb (String.eqb scheme "") then
            (* rootless path: opaque *)
            inl (mkURL scheme rest "" "" rawQuery)
          else inr (errorsNew "invalid URI for request")
        else
          let with_path (host path : string) : URL + error :=
            match unescape path encodePath with
            | inr e => inr e
            | inl p => inl (mkURL scheme "" host p rawQuery)
            end in
          if negb (String.eqb scheme "") && strings.HasPrefix rest "//" then
            let authority0 := strings.from rest 2 in
            let '(authority, rest') :=
              match strings.IndexByte authority0 "/" with
              | Some i => (strings.upto authority0 i, strings.from authority0 i)
              | None => (authority0, "")
              end in
            match parseAuthority authority with
            | inr e => inr e
            | inl host => with_path host rest'
            end
          else with_path "" rest
    end.

(** [func ParseRequestURI(rawURL string)]: the parsed URL or a wrapped error. *)
Definition ParseRequestURI (rawURL : string) : URL + error :=
  match parse rawURL with
  | inl u => inl u
  | inr e => inr (fmtErrorf "parse" e)
  end.

End url.

(* ===================================================================== *)
(** ** path and net/http (go1.23): [path.Clean] and the routing of [ServeMux] *)
(* ===================================================================== *)

Module nethttp.

(** [strings.Split(s, "/")] *)
Fixpoint Split (s : string) : list string :=
  match s with
  | EmptyString => [""]
  | String c rest =>
      if Ascii.eqb c "/" then "" :: Split rest
      else match Split rest with
           | elem :: elems => String c elem :: elems
           | [] => [String c ""]
           end
  end.

(** [strings.Join(elems, "/")] *)
Fixpoint Join (elems : list string) : string :=
  match elems with
  | [] => ""
  | [elem] => elem
  | elem :: rest => elem ++ "/" ++ Join rest
  end.

(** One step of [path.Clean] on a rooted path, on the elements written so
    far (the last one first): an empty element and [.] are dropped, [..]
    takes back the element before it, if there is one. *)
Definition Clean_element (out : list string) (elem : string) : list string :=
  if String.eqb elem "" || String.eqb elem "." then out
  else if String.eqb elem ".." then tl out
  else elem :: out.

(** [path.Clean(path)] for a rooted path, the only kind [cleanPath] passes. *)
Definition Clean (path : string) : string :=
  "/" ++ Join (rev (fold_left Clean_element (Split (strings.from path 1)) [])).

(** [cleanPath(p)]: the canonical path, with the trailing slash kept. *)
Definition cleanPath (p : string) : string :=
  if String.eqb p "" then "/"
  else
    let p := if strings.HasPrefix p "/" then p else "/" ++ p in
    let np := Clean p in
    if strings.HasSuffixByte p "/" && negb (String.eqb np "/") then
      if Nat.eqb (String.length p) (String.length np + 1) && strings.HasPrefix p np
      then p
      else np ++ "/"
    else np.

(** A segment of a parsed pattern. *)
Inductive segment : Type :=
| literal (s : string)     (* a path element, matched as it is           *)
| multi.                   (* the rest of the path: the trailing slash   *)

Fixpoint segments_of (elems : list string) : list segment :=
  match elems with
  | [] => []
  | [elem] => if String.eqb elem "" then [multi] else [literal elem]
  | elem :: rest => literal elem :: segments_of rest
  end.

(** [parsePattern(s)] for a pattern that names a rooted path or a rooted
    subtree, as those of [RegisterRoutes] do: no method, no host, no
    wildcard in braces. *)
Definition parsePattern (s : string) : list segment :=
  segments_of (Split (strings.from s 1)).

(** [firstSegment(path)]: the first path element and what follows it; the
    element of a trailing slash is the slash. *)
Definition firstSegment (path : string) : string * string :=
  if String.eqb path "/" then ("/", "")
  else
    let path := strings.from path 1 in
    match strings.IndexByte path "/" with
    | Some i => (strings.upto path i, strings.from path i)
    | None => (path, "")
    end.

Section Routing.

(** The handlers. *)
Variable H : Type.

(** A registered pattern with its handler. *)
Definition route : Type := list segment * H.

(** A node of the routing tree: the routes that pass through it, each with
    the segments it has still to match. *)
Definition routingNode : Type := list (list segment * route).

(** [n.findChild(seg)]: the routes that go on with the literal [seg]. *)
Definition findChild (seg : string) (n : routingNode) : routingNode :=
  flat_map (fun e => match fst e with
                     | literal s :: rest =>
                         if String.eqb s seg then [(rest, snd e)] else []
                     | _ => []
                     end) n.

(** [n.pattern]: the route that ends at the node. *)
Definition pattern_of (n : routingNode) : option route :=
  option_map snd (find (fun e => match fst e with [] => true | _ => false end) n).

(** [n.multiChild]: the route that takes the rest of the path from here. *)
Definition multiChild (n : routingNode) : option route :=
  option_map snd (find (fun e => match fst e with [multi] => true | _ => false end) n).

(** [n.matchPath(path, matches)]: literal segments are tried before the
    trailing slash of a subtree.  Every step shortens the path, which
    bounds the recursion. *)
Fixpoint matchPath (fuel : nat) (n : routingNode) (path : string) : option route :=
  match fuel with
  | O => None
  | S fuel' =>
      if String.eqb path "" then pattern_of n
      else
        let '(seg, rest) := firstSegment path in
        match matchPath fuel' (findChild seg n) rest with
        | Some r => Some r
        | None => multiChild n
        end
  end.

(** [mux.tree.match(host, method, path)], for routes without host and
    method. *)
Definition tree_match (routes : list route) (path : string) : option route :=
  matchPath (S (String.length path)) (map (fun r => (fst r, r)) routes) path.

(** [exactMatch(n, path)] *)
Definition exactMatch (n : option route) (path : string) : bool :=
  match n with
  | None => false
  | Some r =>
      match last (fst r) (literal "") with
      | literal _ => true
      | multi =>
          if negb (String.eqb path "") && negb (strings.HasSuffixByte path "/")
          then false
          else Nat.eqb (List.length (fst r)) (strings.CountByte path "/")
      end
  end.

(** [mux.matchOrRedirect(host, method, path, u)]: the match, or the path to
    redirect to when only the path with a slash added is registered;
    [u] is [None] for Go's [nil]. *)
Definition matchOrRedirect (routes : list route) (path : string) (u : option string)
  : option route * option string :=
  let n := tree_match routes path in
  match u with
  | Some uPath =>
      if negb (exactMatch n path) && negb (strings.HasSuffixByte path "/")
         && exactMatch (tree_match routes (path ++ "/")) (path ++ "/")
      then (None, Some (cleanPath uPath ++ "/"))
      else (n, None)
  | None => (n, None)
  end.

(** What [mux.findHandler(r)] hands back. *)
Inductive Found : Type :=
| Handler (h : H)
| RedirectHandler (url : string)   (* with [StatusMovedPermanently] *)
| NotFoundHandler.

(** [mux.findHandler(r)], on the method and the path of the request.  The
    request target is taken to carry no percent-escape and to need none, so
    that [r.URL.EscapedPath()] is [r.URL.Path]; the query string, which a
    redirect carries over, is not kept. *)
Definition findHandler (routes : list route) (method path : string) : Found :=
  let found (n : option route) : Found :=
    match n with
    | Some r => Handler (snd r)
    | None => NotFoundHandler
    end in
  if String.eqb method "CONNECT" then
    match matchOrRedirect routes path (Some path) with
    | (_, Some u) => RedirectHandler u
    | (_, None) => found (fst (matchOrRedirect routes path None))
    end
  else
    let cleaned := cleanPath path in
    match matchOrRedirect routes cleaned (Some path) with
    | (_, Some u) => RedirectHandler u
    | (n, None) =>
        if negb (String.eqb cleaned path) then RedirectHandler cleaned
        else found n
    end.

End Routing.

Arguments Handler {H} h.
Arguments RedirectHandler {H} url.
Arguments NotFoundHandler {H}.

End nethttp.

(* ===================================================================== *)
(** ** internal/repositories/shortener_repo.go *)
(* ===================================================================== *)

Module repositories.

(** A row of the table [urls] ([URLMapping] in the use-case models). *)
Record URLMapping : Type := mkURLMapping {
  ID : Z;
  ShortCode : string;
  LongURL : string;
  CreatedAt : Z
}.

(** The database behind [*sql.DB]: the rows of [urls] in the order in which
    a query visits them (rowid order), the AUTOINCREMENT counter of the
    table, and the reading of the clock that [time.Now()] returns. *)
Record DB : Type := mkDB {
  urls : list URLMapping;
  sqlite_sequence : Z;
  now : Z
}.

(** [type ShortenerRepository interface]; a method takes the state of the
    repository and returns its results with the state afterwards. *)
Class ShortenerRepository (R : Type) : Type := {
  SaveMapping : string -> string -> R -> (Z * option error) * R;
  FindByShortCode : string -> R -> (string * option error) * R;
  FindByLongURL : string -> R -> (string * option error) * R;
  UpdateLongURL : string -> string -> R -> option error * R;
  DeleteMapping : string -> R -> option error * R
}.

(** *** The SQL statements, on the schema of [InitSchema]:
    [short_code TEXT NOT NULL UNIQUE], [id INTEGER PRIMARY KEY AUTOINCREMENT].

    Text is compared byte by byte (SQLite's BINARY collation).  A statement
    fails only for the table's constraint, for the exhaustion of the rowids
    or for want of a row: failures of the driver itself (I/O, a closed
    handle), which the methods hand on as they are, are outside this model
    of the database; the service's handling of such errors is covered by
    the properties that hold for every [ShortenerRepository]. *)

Definition has_code (shortCode : string) (m : URLMapping) : bool :=
  String.eqb (ShortCode m) shortCode.

Definition has_url (longURL : string) (m : URLMapping) : bool :=
  String.eqb (LongURL m) longURL.

Definition max_rowid (rows : list URLMapping) : Z :=
  fold_right (fun m acc => Z.max (ID m) acc) 0 rows.

(** The largest rowid of SQLite, a signed 64-bit integer. *)
Definition MAX_ROWID : Z := 9223372036854775807.

(** The rowid that AUTOINCREMENT has reached: the larger of the table's
    counter and of the rowids in use. *)
Definition largest_rowid (d : DB) : Z :=
  Z.max (sqlite_sequence d) (max_rowid (urls d)).

(** [INSERT INTO urls(short_code, long_url, created_at) VALUES(?, ?, ?)]:
    the statement first takes the next rowid, and fails with SQLITE_FULL
    when AUTOINCREMENT has used the largest one; it is then refused when the
    short code is already in the table; else the row is added under the new
    rowid, which is the result's [LastInsertId]. *)
Definition exec_insert (shortCode longURL : string) (d : DB) : (Z + error) * DB :=
  if MAX_ROWID <=? largest_rowid d then (inr sqliteErrFull, d)
  else if existsb (has_code shortCode) (urls d) then (inr sqliteErrConstraintUnique, d)
  else
    let id := Z.max (sqlite_sequence d) (max_rowid (urls d)) + 1 in
    (inl id,
     mkDB (urls d ++ [mkURLMapping id shortCode longURL (now d)]) id (now d)).

(** [QueryRow(SELECT long_url FROM urls WHERE short_code = ?).Scan] *)
Definition query_long_url (shortCode : string) (d : DB) : string + error :=
  match find (has_code shortCode) (urls d) with
  | Some m => inl (LongURL m)
  | None => inr sqlErrNoRows
  end.

(** [QueryRow(SELECT short_code FROM urls WHERE long_url = ? LIMIT 1).Scan] *)
Definition query_short_code (longURL : string) (d : DB) : string + error :=
  match find (has_url longURL) (urls d) with
  | Some m => inl (ShortCode m)
  | None => inr sqlErrNoRows
  end.

(** [UPDATE urls SET long_url = ? WHERE short_code = ?], with [RowsAffected]. *)
Definition exec_update (newLongURL shortCode : string) (d : DB) : Z * DB :=
  (Z.of_nat (List.length (filter (has_code shortCode) (urls d))),
   mkDB (map (fun m => if has_code shortCode m
                       then mkURLMapping (ID m) (ShortCode m) newLongURL (CreatedAt m)
                       else m) (urls d))
        (sqlite_sequence d) (now d)).

(** [DELETE FROM urls WHERE short_code = ?], with [RowsAffected]. *)
Definition exec_delete (shortCode : string) (d : DB) : Z * DB :=
  (Z.of_nat (List.length (filter (has_code shortCode) (urls d))),
   mkDB (filter (fun m => negb (has_code shortCode m)) (urls d))
        (sqlite_sequence d) (now d)).

(** [type SQLiteShortenerRepo struct { db *sql.DB }] *)
Record SQLiteShortenerRepo : Type := NewSQLiteShortenerRepo { db : DB }.

Definition SQLite_SaveMapping (shortCode longURL : string) (r : SQLiteShortenerRepo)
  : (Z * option error) * SQLiteShortenerRepo :=
  match exec_insert shortCode longURL (db r) with
  | (inr err, d) => ((0, Some err), NewSQLiteShortenerRepo d)
  | (inl id, d) => ((id, None), NewSQLiteShortenerRepo d)
  end.

Definition SQLite_FindByShortCode (shortCode : string) (r : SQLiteShortenerRepo)
  : (string * option error) * SQLiteShortenerRepo :=
  match query_long_url shortCode (db r) with
  | inr err =>
      if errors_Is_ErrNoRows err then (("", Some ErrNotFound), r)
      else (("", Some err), r)
  | inl longURL => ((longURL, None), r)
  end.

Definition SQLite_FindByLongURL (longURL : string) (r : SQLiteShortenerRepo)
  : (string * option error) * SQLiteShortenerRepo :=
  match query_short_code longURL (db r) with
  | inr err =>
      if errors_Is_ErrNoRows err then (("", None), r)
      else (("", Some err), r)
  | inl shortCode => ((shortCode, None), r)
  end.

Definition SQLite_UpdateLongURL (shortCode newLongURL : string) (r : SQLiteShortenerRepo)
  : option error * SQLiteShortenerRepo :=
  let '(rowsAffected, d) := exec_update newLongURL shortCode (db r) in
  if rowsAffected =? 0 then (Some ErrNotFound, NewSQLiteShortenerRepo d)
  else (None, NewSQLiteShortenerRepo d).

Definition SQLite_DeleteMapping (shortCode : string) (r : SQLiteShortenerRepo)
  : option error * SQLiteShortenerRepo :=
  let '(rowsAffected, d) := exec_delete shortCode (db r) in
  if rowsAffected =? 0 then (Some ErrNotFound, NewSQLiteShortenerRepo d)
  else (None, NewSQLiteShortenerRepo d).

#[global] Instance SQLiteShortenerRepo_is_repository
  : ShortenerRepository SQLiteShortenerRepo := {
  SaveMapping := SQLite_SaveMapping;
  FindByShortCode := SQLite_FindByShortCode;
  FindByLongURL := SQLite_FindByLongURL;
  UpdateLongURL := SQLite_UpdateLongURL;
  DeleteMapping := SQLite_DeleteMapping
}.

(** *** The same database, shared with other requests.

    Every HTTP request runs on its own goroutine against the one database.
    [rivals] lists, for each of the next store calls of the request under
    study, the insert that another request commits just before that call. *)
Record SharedRepo : Type := mkSharedRepo {
  own : SQLiteShortenerRepo;
  rivals : list (option (string * string))
}.

Definition rival_step (s : SharedRepo) : SharedRepo :=
  match rivals s with
  | [] => s
  | None :: later => mkSharedRepo (own s) later
  | Some (shortCode, longURL) :: later =>
      mkSharedRepo (snd (SQLite_SaveMapping shortCode longURL (own s))) later
  end.

Definition shared {A : Type}
  (call : SQLiteShortenerRepo -> A * SQLiteShortenerRepo) (s : SharedRepo)
  : A * SharedRepo :=
  let s1 := rival_step s in
  let '(res, r) := call (own s1) in
  (res, mkSharedRepo r (rivals s1)).

#[global] Instance SharedRepo_is_repository : ShortenerRepository SharedRepo := {
  SaveMapping := fun c u => shared (SQLite_SaveMapping c u);
  FindByShortCode := fun c => shared (SQLite_FindByShortCode c);
  FindByLongURL := fun u => shared (SQLite_FindByLongURL u);
  UpdateLongURL := fun c u => shared (SQLite_UpdateLongURL c u);
  DeleteMapping := fun c => shared (SQLite_DeleteMapping c)
}.

(** The row that an accepted insert appends. *)
Definition inserted (shortCode longURL : string) (d : DB) : DB :=
  let id := Z.max (sqlite_sequence d) (max_rowid (urls d)) + 1 in
  mkDB (urls d ++ [mkURLMapping id shortCode longURL (now d)]) id (now d).

(** The store keeps at most one row per short code. *)
Definition unique_codes (d : DB) : Prop := NoDup (map ShortCode (urls d)).

(** Number of rows that map to [longURL]. *)
Definition mappings_of (longURL : string) (d : DB) : nat :=
  List.length (filter (has_url longURL) (urls d)).

End repositories.

(* ===================================================================== *)
(** ** internal/services/shortener_service.go *)
(* ===================================================================== *)

Module services.
Import repositories.

Definition shortCodeLength : Z := 7.
Definition maxGenerationRetries : nat := 5.

(** A call the service makes to one of its collaborators, with what came
    back.  The trace of a request is kept newest first. *)
Inductive Call : Type :=
| CallGenerateRandomString (length : Z) (res : outcome (string * option error))
| CallFindByLongURL (longURL : string) (res : string * option error)
| CallFindByShortCode (shortCode : string) (res : string * option error)
| CallSaveMapping (shortCode longURL : string) (res : Z * option error)
| CallUpdateLongURL (shortCode newLongURL : string) (res : option error)
| CallDeleteMapping (shortCode : string) (res : option error).

Section Service.

Context {R : Type} `{ShortenerRepository R}.

(** What a request runs against: [shortenerSvc.repo], the process-wide
    entropy source, and the trace of collaborator calls made so far. *)
Record World : Type := mkWorld {
  repo : R;
  entropy : rand.Source;
  trace : list Call
}.

(** Computations of the service: state passing over [World]; a panic ends
    the computation. *)
Definition M (A : Type) : Type := World -> outcome A * World.

Definition ret {A : Type} (a : A) : M A := fun w => (Returns a, w).

Definition bind {A B : Type} (m : M A) (k : A -> M B) : M B :=
  fun w =>
    match m w with
    | (Returns a, w') => k a w'
    | (Panics p, w') => (Panics p, w')
    end.

Notation "' pat <- m ;; k" :=
  (bind m (fun x => match x with pat => k end))
  (at level 61, pat pattern, m at next level, right associativity).

(** The collaborator calls, recorded in the trace. *)
Definition callGenerateRandomString (length : Z) : M (string * option error) :=
  fun w =>
    let '(res, src) := utils.GenerateRandomString length (entropy w) in
    (res, mkWorld (repo w) src (CallGenerateRandomString length res :: trace w)).

Definition callFindByLongURL (longURL : string) : M (string * option error) :=
  fun w =>
    let '(res, r) := FindByLongURL longURL (repo w) in
    (Returns res, mkWorld r (entropy w) (CallFindByLongURL longURL res :: trace w)).

Definition callFindByShortCode (shortCode : string) : M (string * option error) :=
  fun w =>
    let '(res, r) := FindByShortCode shortCode (repo w) in
    (Returns res, mkWorld r (entropy w) (CallFindByShortCode shortCode res :: trace w)).

Definition callSaveMapping (shortCode longURL : string) : M (Z * option error) :=
  fun w =>
    let '(res, r) := SaveMapping shortCode longURL (repo w) in
    (Returns res,
     mkWorld r (entropy w) (CallSaveMapping shortCode longURL res :: trace w)).

Definition callUpdateLongURL (shortCode newLongURL : string) : M (option error) :=
  fun w =>
    let '(res, r) := repositories.UpdateLongURL shortCode newLongURL (repo w) in
    (Returns res,
     mkWorld r (entropy w) (CallUpdateLongURL shortCode newLongURL res :: trace w)).

Definition callDeleteMapping (shortCode : string) : M (option error) :=
  fun w =>
    let '(res, r) := repositories.DeleteMapping shortCode (repo w) in
    (Returns res, mkWorld r (entropy w) (CallDeleteMapping shortCode res :: trace w)).

(** The body of [ValidateURL], whatever [url.ParseRequestURI] computes. *)
Definition ValidateURL_with (ParseRequestURI : string -> url.URL + error)
  (inputURL : string) : bool :=
  match ParseRequestURI inputURL with
  | inr _ => false
  | inl u =>
      (String.eqb (url.Scheme u) "http" || String.eqb (url.Scheme u) "https")
      && negb (String.eqb (url.Host u) "")
  end.

(** [func (s *shortenerSvc) ValidateURL(inputURL string) bool] *)
Definition ValidateURL (inputURL : string) : bool :=
  ValidateURL_with url.ParseRequestURI inputURL.

(** The error kinds of the specification, as the values the code returns. *)
Definition InvalidURLError : error := errorsNew "invalid URL format provided".
Definition ExhaustedRetriesError : error :=
  errorsNew "service could not generate unique short code after 5 retries".
Definition GenerationError (cause : error) : error :=
  fmtErrorf "service failed to generate random string" cause.
Definition SaveStorageError (cause : error) : error :=
  fmtErrorf "service failed to save mapping" cause.
Definition ProbeStorageError (cause : error) : error :=
  fmtErrorf "service failed to check code uniqueness" cause.
Definition LookupStorageError (cause : error) : error :=
  fmtErrorf "failed to check for existing URL" cause.

(** The loop [for i := 0; i < maxGenerationRetries; i++] of [CreateShortURL]
    with [remaining = maxGenerationRetries - i] iterations to go, and the
    statements after it. *)
Fixpoint generationLoop (remaining : nat) (longURL : string)
  : M (string * option error) :=
  match remaining with
  | O => ret ("", Some ExhaustedRetriesError)
  | S remaining' =>
      '(code, err) <- callGenerateRandomString shortCodeLength ;;
      match err with
      | Some e => ret ("", Some (GenerationError e))
      | None =>
          '(_, repoErr) <- callFindByShortCode code ;;
          match repoErr with
          | Some re =>
              if errors_Is_ErrNotFound re then
                '(_, saveErr) <- callSaveMapping code longURL ;;
                match saveErr with
                | Some se => ret ("", Some (SaveStorageError se))
                | None => ret (code, None)
                end
              else ret ("", Some (ProbeStorageError re))
          | None => generationLoop remaining' longURL
          end
      end
  end.

(** [func (s *shortenerSvc) CreateShortURL(longURL string) (string, error)] *)
Definition CreateShortURL (longURL : string) : M (string * option error) :=
  if negb (ValidateURL longURL) then ret ("", Some InvalidURLError)
  else
    '(existingCode, err) <- callFindByLongURL longURL ;;
    match err with
    | Some e =>
        if negb (errors_Is_ErrNotFound e) then ret ("", Some (LookupStorageError e))
        else if negb (String.eqb existingCode "") then ret (existingCode, None)
        else generationLoop maxGenerationRetries longURL
    | None =>
        if negb (String.eqb existingCode "") then ret (existingCode, None)
        else generationLoop maxGenerationRetries longURL
    end.

(** [func (s *shortenerSvc) UpdateLongURL(shortCode, newLongURL string) error] *)
Definition UpdateLongURL (shortCode newLongURL : string) : M (option error) :=
  if negb (ValidateURL newLongURL) then
    ret (Some (errorsNew "invalid new URL format provided"))
  else
    'err <- callUpdateLongURL shortCode newLongURL ;;
    match err with
    | Some e =>
        if errors_Is_ErrNotFound e then ret (Some e)
        else ret (Some (fmtErrorf "service failed to update mapping" e))
    | None => ret None
    end.

(** [func (s *shortenerSvc) DeleteMapping(shortCode string) error] *)
Definition DeleteMapping (shortCode : string) : M (option error) :=
  'err <- callDeleteMapping shortCode ;;
  match err with
  | Some e =>
      if errors_Is_ErrNotFound e then ret (Some e)
      else ret (Some (fmtErrorf "service failed to delete mapping" e))
  | None => ret None
  end.

(** Trace observers. *)
Definition is_generate (c : Call) : bool :=
  match c with CallGenerateRandomString _ _ => true | _ => false end.
Definition is_save (c : Call) : bool :=
  match c with CallSaveMapping _ _ _ => true | _ => false end.
Definition is_store_call (c : Call) : bool := negb (is_generate c).

Definition generations (t : list Call) : nat := List.length (filter is_generate t).
Definition saves (t : list Call) : nat := List.length (filter is_save t).
Definition store_calls (t : list Call) : nat := List.length (filter is_store_call t).

(** The operations of the service that the HTTP handlers invoke, one per
    request ([handleShorten], [handleUpdate], [handleDelete]). *)
Inductive Operation : Type :=
| OpCreateShortURL (longURL : string)
| OpUpdateLongURL (shortCode newLongURL : string)
| OpDeleteMapping (shortCode : string).

(** The world after one operation has run to its end. *)
Definition serve (op : Operation) (w : World) : World :=
  match op with
  | OpCreateShortURL longURL => snd (CreateShortURL longURL w)
  | OpUpdateLongURL shortCode newLongURL => snd (UpdateLongURL shortCode newLongURL w)
  | OpDeleteMapping shortCode => snd (DeleteMapping shortCode w)
  end.

(** A sequential execution: the operations run one after the other. *)
Definition serve_all (ops : list Operation) (w : World) : World :=
  fold_left (fun w op => serve op w) ops w.

End Service.

(** The codes that the next [n] generator calls of the service return, for as
    long as the entropy source delivers. *)
Fixpoint candidates (n : nat) (src : rand.Source) : list string :=
  match n with
  | O => []
  | S n' =>
      match utils.GenerateRandomString shortCodeLength src with
      | (Returns (code, None), src') => code :: candidates n' src'
      | _ => []
      end
  end.

Arguments World R : clear implicits.
Arguments M R A : clear implicits.

End services.

(* ===================================================================== *)
(** ** internal/deliveries/http: the handlers of [ShortenerHandler] *)
(* ===================================================================== *)

Module deliveries.
Import repositories services.

(** What a handler reads of [*http.Request]: the method, [r.URL.Path], and
    the outcome of [json.NewDecoder(r.Body).Decode(&req)] into the request
    struct, whose one field is a string ([ShortenRequest.URL],
    [UpdateRequest.NewURL]); [None] is a decoding error. *)
Record Request : Type := mkRequest {
  Method : string;
  Path : string;
  Decoded : option string
}.

(** What a handler writes: the value handed to [respondWithJSON] (before
    [json.Marshal], which does not fail on these values), or the call of
    [http.NotFound], [http.Redirect] or a bare [WriteHeader].  How
    [net/http] renders them (headers, the Location of a redirect, the bytes
    of the body) is not part of the model. *)
Inductive Payload : Type :=
| ShortenResponse (ShortURL OriginalURL : string)
| ErrorResponse (Error : string)
| MessageResponse (message : string)
| NotFoundPage                       (* http.NotFound(w, r) *)
| RedirectTo (location : string)     (* http.Redirect(w, r, location, code) *)
| NoBody.                            (* w.WriteHeader(code) alone *)

Record Response : Type := mkResponse {
  StatusCode : Z;
  Body : Payload
}.

Definition StatusOK : Z := 200.
Definition StatusCreated : Z := 201.
Definition StatusNoContent : Z := 204.
Definition StatusMovedPermanently : Z := 301.
Definition StatusFound : Z := 302.
Definition StatusBadRequest : Z := 400.
Definition StatusNotFound : Z := 404.
Definition StatusMethodNotAllowed : Z := 405.
Definition StatusInternalServerError : Z := 500.

(** [err.Error()].  The text of the entropy source's error comes from the
    operating system and is a parameter. *)
Fixpoint Error (entropyErrorText : string) (err : error) : string :=
  match err with
  | ErrNotFound => "record not found"
  | sqlErrNoRows => "sql: no rows in result set"
  | sqliteErrConstraintUnique => "UNIQUE constraint failed: urls.short_code"
  | sqliteErrFull => "database or disk is full"
  | randErr => entropyErrorText
  | errorsNew msg => msg
  | fmtErrorf msg wrapped => msg ++ ": " ++ Error entropyErrorText wrapped
  end.

Definition respondWithJSON (code : Z) (payload : Payload) : Response :=
  mkResponse code payload.

Definition respondWithError (code : Z) (message : string) : Response :=
  respondWithJSON code (ErrorResponse message).

Section Handler.

Context {R : Type} `{ShortenerRepository R}.

(** [ShortenerHandler.baseURL]; [service] and [repo] are the service and
    the repository of the world the handler runs in. *)
Variable baseURL : string.
Variable entropyErrorText : string.

Notation "' pat <- m ;; k" :=
  (bind m (fun x => match x with pat => k end))
  (at level 61, pat pattern, m at next level, right associativity).

(** [h.repo.FindByShortCode], called by the handler itself. *)
Definition repoFindByShortCode (shortCode : string) : M R (string * option error) :=
  fun w =>
    let '(res, r) := FindByShortCode shortCode (repo w) in
    (Returns res, mkWorld r (entropy w) (trace w)).

(** [func (h *ShortenerHandler) handleShorten(w, r)] *)
Definition handleShorten (r : Request) : M R Response :=
  if negb (String.eqb (Method r) "POST") then
    ret (respondWithError StatusMethodNotAllowed "Method Not Allowed")
  else
    match Decoded r with
    | None => ret (respondWithError StatusBadRequest "Invalid request body")
    | Some reqURL =>
        '(shortCode, err) <- CreateShortURL reqURL ;;
        match err with
        | Some e =>
            if strings.ContainsStr (Error entropyErrorText e) "invalid URL format" then
              ret (respondWithError StatusBadRequest (Error entropyErrorText e))
            else
              ret (respondWithError StatusInternalServerError "Failed to create short URL")
        | None =>
            let fullShortURL := strings.TrimSuffix baseURL "/" ++ "/" ++ shortCode in
            ret (respondWithJSON StatusCreated (ShortenResponse fullShortURL reqURL))
        end
    end.

(** [func (h *ShortenerHandler) handleUpdate(w, r)] *)
Definition handleUpdate (r : Request) : M R Response :=
  if negb (String.eqb (Method r) "PUT") then
    ret (respondWithError StatusMethodNotAllowed "Method Not Allowed")
  else
    let shortCode := strings.TrimPrefix (Path r) "/update/" in
    if String.eqb shortCode "" || strings.Contains shortCode "/" then
      ret (respondWithError StatusBadRequest "Invalid short code in URL path")
    else
      match Decoded r with
      | None => ret (respondWithError StatusBadRequest "Invalid request body")
      | Some newURL =>
          if String.eqb newURL "" then
            ret (respondWithError StatusBadRequest "Missing 'new_url' in request body")
          else
            'err <- services.UpdateLongURL shortCode newURL ;;
            match err with
            | Some e =>
                if errors_Is_ErrNotFound e then
                  ret (respondWithError StatusNotFound "Short code not found")
                else if strings.ContainsStr (Error entropyErrorText e)
                          "invalid new URL format" then
                  ret (respondWithError StatusBadRequest (Error entropyErrorText e))
                else
                  ret (respondWithError StatusInternalServerError
                         "Failed to update mapping")
            | None =>
                ret (respondWithJSON StatusOK
                       (MessageResponse "URL updated successfully"))
            end
      end.

(** [func (h *ShortenerHandler) handleDelete(w, r)] *)
Definition handleDelete (r : Request) : M R Response :=
  if negb (String.eqb (Method r) "DELETE") then
    ret (respondWithError StatusMethodNotAllowed "Method Not Allowed")
  else
    let shortCode := strings.TrimPrefix (Path r) "/delete/" in
    if String.eqb shortCode "" || strings.Contains shortCode "/" then
      ret (respondWithError StatusBadRequest "Invalid short code in URL path")
    else
      'err <- services.DeleteMapping shortCode ;;
      match err with
      | Some e =>
          if errors_Is_ErrNotFound e then
            ret (respondWithError StatusNotFound "Short code not found")
          else
            ret (respondWithError StatusInternalServerError "Failed to delete mapping")
      | None => ret (mkResponse StatusNoContent NoBody)
      end.

(** [func (h *ShortenerHandler) handleRedirectOrRoot(w, r)] *)
Definition handleRedirectOrRoot (r : Request) : M R Response :=
  if negb (String.eqb (Method r) "GET") then
    ret (respondWithError StatusMethodNotAllowed "Method Not Allowed")
  else if String.eqb (Path r) "/" then
    ret (respondWithJSON StatusOK
           (MessageResponse
              "URL Shortener API. Use POST /shorten, PUT /update/{code}, DELETE /delete/{code}, or GET /{code}"))
  else
    let shortCode := strings.TrimPrefix (Path r) "/" in
    if String.eqb shortCode "" then ret (mkResponse StatusNotFound NotFoundPage)
    else if strings.HasPrefix (Path r) "/update/"
            || strings.HasPrefix (Path r) "/delete/" then
      ret (mkResponse StatusNotFound NotFoundPage)
    else
      '(longURL, err) <- repoFindByShortCode shortCode ;;
      match err with
      | Some e =>
          if errors_Is_ErrNotFound e then
            ret (respondWithError StatusNotFound "Short code not found")
          else
            ret (respondWithError StatusInternalServerError
                   "Error looking up short code")
      | None => ret (mkResponse StatusFound (RedirectTo longURL))
      end.

(** [func (h *ShortenerHandler) RegisterRoutes(mux *http.ServeMux)]: the
    patterns, as [mux.HandleFunc] parses them, with their handlers. *)
Definition RegisterRoutes : list (nethttp.route (Request -> M R Response)) :=
  [ (nethttp.parsePattern "/shorten", handleShorten);
    (nethttp.parsePattern "/update/", handleUpdate);
    (nethttp.parsePattern "/delete/", handleDelete);
    (nethttp.parsePattern "/", handleRedirectOrRoot) ].

(** [mux.ServeHTTP(w, r)] for the mux of [RegisterRoutes]: the request
    target [*] is refused, and any other request goes to the handler that
    [findHandler] picks, which may be a redirect or the not-found page of
    the mux itself.  [App.Run] serves this mux behind the CORS middleware,
    which answers the preflight requests (OPTIONS) itself and hands every
    other request on to the mux; the headers it adds are not part of the
    model. *)
Definition ServeHTTP (r : Request) : M R Response :=
  if String.eqb (Path r) "*" then ret (mkResponse StatusBadRequest NoBody)
  else
    match nethttp.findHandler _ RegisterRoutes (Method r) (Path r) with
    | nethttp.Handler h => h r
    | nethttp.RedirectHandler url =>
        ret (mkResponse StatusMovedPermanently (RedirectTo url))
    | nethttp.NotFoundHandler => ret (mkResponse StatusNotFound NotFoundPage)
    end.

End Handler.

End deliveries.

(* ===================================================================== *)
(** ** Vocabulary of the statements *)
(* ===================================================================== *)

Section Vocabulary.

Import repositories services.

Context {R : Type} `{ShortenerRepository R}.

(** A Hoare-style reading of a service computation: [Q] holds of what the
    computation run from [w] returns and of the world it leaves. *)
Definition post {A : Type} (m : M R A) (w : World R)
  (Q : outcome A -> World R -> Prop) : Prop :=
  Q (fst (m w)) (snd (m w)).

(** What a request adds to the trace, newest first. *)
Definition extends (w w' : World R) (new : list Call) : Prop :=
  trace w' = (new ++ trace w)%list.

(** What [CreateShortURL] guarantees once the reverse lookup has answered
    [(existing, err)]. *)
Definition create_post (longURL : string) (w : World R)
  (existing : string) (err : option error)
  (res : outcome (string * option error)) (w' : World R) : Prop :=
  exists new,
    extends w w' (new ++ [CallFindByLongURL longURL (existing, err)]) /\
    (existing = "" -> forall c, res = Returns (c, None) ->
       String.length c = 7%nat /\ base64.all_urlsafe c = true) /\
    (forall c u id e, In (CallSaveMapping c u (id, Some e)) new ->
       res = Returns ("", Some (SaveStorageError e)) /\
       exists older, new = CallSaveMapping c u (id, Some e) :: older) /\
    (generations new <= maxGenerationRetries)%nat.

End Vocabulary.

Section SQLiteVocabulary.

Import repositories services.

(** What the retry loop does to the SQLite store: a returned code was absent
    and is now the last row; any failure leaves the store as it was, and an
    insert fails only when the rowids are used up; the loop does not panic. *)
Definition loop_outcome (longURL : string) (w : World SQLiteShortenerRepo)
  (res : outcome (string * option error)) (w' : World SQLiteShortenerRepo)
  (new : list Call) : Prop :=
  match res with
  | Returns (c, None) =>
      String.length c = 7%nat /\
      find (has_code c) (urls (db (repo w))) = None /\
      repo w' = NewSQLiteShortenerRepo (inserted c longURL (db (repo w))) /\
      saves new = 1%nat
  | Returns (c, Some e) =>
      c = "" /\ repo w' = repo w /\
      ((saves new = 0%nat /\
        (e = ExhaustedRetriesError \/ e = GenerationError randErr)) \/
       (saves new = 1%nat /\ e = SaveStorageError sqliteErrFull /\
        MAX_ROWID <= largest_rowid (db (repo w))))
  | Panics _ => False
  end.

(** What [CreateShortURL] does to the SQLite store. *)
Definition create_outcome (longURL : string) (w : World SQLiteShortenerRepo)
  (res : outcome (string * option error)) (w' : World SQLiteShortenerRepo) : Prop :=
  match res with
  | Returns (c, None) =>
      c <> "" /\
      ((* the reverse lookup found the code *)
       (exists m, find (has_url longURL) (urls (db (repo w))) = Some m /\
                  ShortCode m = c /\ repo w' = repo w /\
                  entropy w' = entropy w /\
                  trace w' = CallFindByLongURL longURL (c, None) :: trace w)
       \/
       (* a fresh code was inserted *)
       (fst (fst (FindByLongURL longURL (repo w))) = "" /\
        find (has_code c) (urls (db (repo w))) = None /\
        repo w' = NewSQLiteShortenerRepo (inserted c longURL (db (repo w)))))
  | Returns (c, Some e) =>
      c = "" /\ repo w' = repo w /\
      (e = InvalidURLError \/ e = ExhaustedRetriesError \/
       e = GenerationError randErr \/
       (e = SaveStorageError sqliteErrFull /\
        MAX_ROWID <= largest_rowid (db (repo w))))
  | Panics _ => False
  end.

(** The short codes in the store of a world. *)
Definition codes (w : World SQLiteShortenerRepo) : list string :=
  map ShortCode (urls (db (repo w))).

End SQLiteVocabulary.

Section CallVocabulary.

Import repositories services.

(** A code as the generator makes them for the service. *)
Definition wellformed_code (c : string) : Prop :=
  String.length c = 7%nat /\ base64.all_urlsafe c = true.

(** Within the calls [new] of one request (newest first), an insert comes
    last, is for [longURL], and follows the generation of its well-formed
    code and a probe of that code which reported not-found. *)
Definition insert_follows_probe (longURL : string) (new : list Call) : Prop :=
  forall c u res,
    In (CallSaveMapping c u res) new ->
    u = longURL /\ wellformed_code c /\
    exists found e older,
      errors_Is_ErrNotFound e = true /\
      new = CallSaveMapping c longURL res
              :: CallFindByShortCode c (found, Some e)
              :: CallGenerateRandomString shortCodeLength (Returns (c, None))
              :: older /\
      saves older = 0%nat.

(** The bounds on the calls of one creation request. *)
Definition bounded_calls (longURL : string) (new : list Call) : Prop :=
  (generations new <= 5)%nat /\
  (store_calls new <= 11)%nat /\
  (saves new <= 1)%nat /\
  insert_follows_probe longURL new.

End CallVocabulary.

(** *** Decoding a code into entropy *)

(** Position of a URL-safe character in [encodeURL]. *)
Definition index_of (c : ascii) : N :=
  let n := N_of_ascii c in
  (if (65 <=? n) && (n <=? 90) then n - 65
   else if (97 <=? n) && (n <=? 122) then n - 97 + 26
   else if (48 <=? n) && (n <=? 57) then n - 48 + 52
   else if n =? 45 then 62
   else 63)%N.

Definition byte_of_N (n : N) : byte :=
  match Byte.of_N n with Some b => b | None => x00 end.

(** The three bytes whose encoding is the symbols of indices [i0 i1 i2 i3]. *)
Definition bytes_of_indices (i0 i1 i2 i3 : N) : list byte :=
  [byte_of_N (i0 * 4 + i1 / 16);
   byte_of_N (i1 mod 16 * 16 + i2 / 4);
   byte_of_N (i2 mod 4 * 64 + i3)]%N.

(* ===================================================================== *)
(** ** Sample data for the concrete runs below *)
(* ===================================================================== *)

Module samples.

(** Six bytes of entropy: exactly what one code of seven symbols consumes. *)
Definition six_bytes : rand.Source :=
  [x00; x01; x02; xff; xfe; xfd]%byte.

(** Thirty bytes: five codes. *)
Definition thirty_bytes : rand.Source :=
  [x00; x01; x02; xff; xfe; xfd;  x10; x20; x30; x40; x50; x60;
   x11; x21; x31; x41; x51; x61;  x12; x22; x32; x42; x52; x62;
   x13; x23; x33; x43; x53; x63]%byte.

(** A length whose product with 6 wraps around to 2 on 64-bit integers. *)
Definition wrapping_length : Z := 3074457345618258603.

(** The empty database. *)
Definition empty_db : repositories.DB := repositories.mkDB [] 0 0.

(** A request against the empty SQLite store. *)
Definition fresh_world : services.World repositories.SQLiteShortenerRepo :=
  services.mkWorld (repositories.NewSQLiteShortenerRepo empty_db) thirty_bytes [].

Definition url_a : string := "https://example.com/a".
Definition url_b : string := "https://example.com/b".

(** The code that the first six sample bytes encode to. *)
Definition code_1 : string := "AAEC__7".

(** A request against the empty store while another request inserts the
    very code this one is about to persist, between its probe (second store
    call) and its insert (third store call). *)
Definition raced_world : services.World repositories.SharedRepo :=
  services.mkWorld
    (repositories.mkSharedRepo (repositories.NewSQLiteShortenerRepo empty_db)
       [None; None; Some (code_1, url_b)])
    thirty_bytes [].

Definition code_2 : string := "ECAwQFB".

(** The store after [url_a] and [url_b] were shortened and the code of
    [url_b] was then pointed at [url_a]: two codes for one URL. *)
Definition two_codes_world : services.World repositories.SQLiteShortenerRepo :=
  services.serve_all
    [services.OpCreateShortURL url_a;
     services.OpCreateShortURL url_b;
     services.OpUpdateLongURL code_2 url_a]
    fresh_world.

(** Six bytes of entropy that encode to the code [shorten], the name of a
    route. *)
Definition shorten_bytes : rand.Source :=
  [xb2; x1a; x2b; xb5; xe9; xc0]%byte.

(** A request against the empty store when the entropy source delivers
    those bytes. *)
Definition shorten_world : services.World repositories.SQLiteShortenerRepo :=
  services.mkWorld (repositories.NewSQLiteShortenerRepo empty_db) shorten_bytes [].

(** A store whose AUTOINCREMENT counter has reached the largest rowid. *)
Definition full_world : services.World repositories.SQLiteShortenerRepo :=
  services.mkWorld
    (repositories.NewSQLiteShortenerRepo
       (repositories.mkDB [] repositories.MAX_ROWID 0))
    thirty_bytes [].

(** A store that already holds the five codes the sample entropy yields. *)
Definition saturated_world : services.World repositories.SQLiteShortenerRepo :=
  services.mkWorld
    (repositories.NewSQLiteShortenerRepo
       (repositories.mkDB
          [repositories.mkURLMapping 1 "AAEC__7" url_b 0;
           repositories.mkURLMapping 2 "ECAwQFB" url_b 0;
           repositories.mkURLMapping 3 "ESExQVF" url_b 0;
           repositories.mkURLMapping 4 "EiIyQlJ" url_b 0;
           repositories.mkURLMapping 5 "EyMzQ1N" url_b 0]
          5 0))
    thirty_bytes [].

End samples.

(* ===================================================================== *)
(** * Properties *)
(* ===================================================================== *)

(** ** Machine integers *)

Lemma wrap_in_range (z : Z) : GoInt.in_range z -> GoInt.wrap z = z.
Proof.
  unfold GoInt.in_range, GoInt.wrap, GoInt.minInt, GoInt.maxInt. intros Hz.
  rewrite Z.mod_small; lia.
Qed.

(** Closes a goal [GoInt.in_range z] by linear arithmetic. *)
Ltac int_range := unfold GoInt.in_range, GoInt.minInt, GoInt.maxInt; lia.

(** [(length*6)/8 + 1] on machine integers, while nothing wraps. *)
Lemma numBytes_small (length : Z) :
  0 <= length <= 2 ^ 60 ->
  GoInt.add (GoInt.quo (GoInt.mul length 6) 8) 1 = length * 6 / 8 + 1.
Proof.
  intros Hl. unfold GoInt.add, GoInt.quo, GoInt.mul.
  assert (H6 : GoInt.in_range (length * 6)) by int_range.
  rewrite (wrap_in_range _ H6).
  rewrite Z.quot_div_nonneg by lia.
  assert (Hq : 0 <= length * 6 / 8 <= length * 6)
    by (split; [apply Z.div_pos; lia | apply Z.div_le_upper_bound; lia]).
  rewrite (wrap_in_range (length * 6 / 8)) by int_range.
  apply wrap_in_range. int_range.
Qed.

(** ** base64 *)

Section ThreeAtATime.
Variable A : Type.
Variable P : list A -> Prop.
Hypothesis P0 : P [].
Hypothesis P1 : forall a, P [a].
Hypothesis P2 : forall a b, P [a; b].
Hypothesis P3 : forall a b c l, P l -> P (a :: b :: c :: l).

(** Induction along the encoder's groups of three bytes. *)
Lemma list_ind3 : forall l, P l.
Proof.
  assert (H : forall l, P l /\ (forall a, P (a :: l)) /\ (forall a b, P (a :: b :: l))).
  { induction l as [|x l [IH0 [IH1 IH2]]].
    - repeat split; auto.
    - repeat split; auto. }
  intro l. apply H.
Qed.
End ThreeAtATime.

Lemma land63_lt (x : N) : (N.land x 63 < 64)%N.
Proof.
  change 63%N with (N.ones 6). rewrite N.land_ones.
  apply N.mod_lt. discriminate.
Qed.

Lemma encode_urlsafe (i : N) : (i < 64)%N -> base64.urlsafe (base64.encode i) = true.
Proof.
  intros Hi.
  assert (Hall : forallb (fun k => base64.urlsafe (base64.encode (N.of_nat k)))
                         (seq 0 64) = true) by (vm_compute; reflexivity).
  rewrite forallb_forall in Hall.
  specialize (Hall (N.to_nat i)).
  rewrite N2Nat.id in Hall. apply Hall.
  apply in_seq. lia.
Qed.

Lemma EncodeToString_urlsafe (src : list byte) :
  base64.all_urlsafe (base64.EncodeToString src) = true.
Proof.
  induction src as [| a | a b | a b c l IH] using list_ind3;
    cbn [base64.EncodeToString base64.all_urlsafe];
    rewrite ?encode_urlsafe by apply land63_lt; auto.
Qed.

Lemma EncodedLen_step (n : nat) :
  base64.EncodedLen (S (S (S n))) = (4 + base64.EncodedLen n)%nat.
Proof.
  unfold base64.EncodedLen.
  change (S (S (S n))) with (3 + n)%nat.
  replace (3 + n)%nat with (n + 1 * 3)%nat by lia.
  rewrite Nat.div_add by discriminate.
  rewrite Nat.Div0.mod_add. lia.
Qed.

Lemma EncodeToString_length (src : list byte) :
  String.length (base64.EncodeToString src) = base64.EncodedLen (List.length src).
Proof.
  induction src as [| a | a b | a b c l IH] using list_ind3; try reflexivity.
  cbn [base64.EncodeToString String.length List.length].
  rewrite IH, EncodedLen_step. lia.
Qed.

(** The encoding of [n] bytes carries all of their [8n] bits. *)
Lemma EncodedLen_bits (n : nat) : (8 * n <= 6 * base64.EncodedLen n)%nat.
Proof.
  unfold base64.EncodedLen.
  pose proof (Nat.div_mod_eq n 3) as Hn.
  pose proof (Nat.mod_upper_bound n 3 ltac:(discriminate)) as Hr.
  set (q := (n / 3)%nat) in *. set (r := (n mod 3)%nat) in *.
  assert (Hc : r = 0%nat \/ r = 1%nat \/ r = 2%nat) by lia.
  destruct Hc as [-> | [-> | ->]].
  - change ((0 * 8 + 5) / 6)%nat with 0%nat. lia.
  - change ((1 * 8 + 5) / 6)%nat with 2%nat. lia.
  - change ((2 * 8 + 5) / 6)%nat with 3%nat. lia.
Qed.

(** ** Strings *)

Lemma substring0_length (s : string) (n : nat) :
  (n <= String.length s)%nat -> String.length (substring 0 n s) = n.
Proof.
  revert s. induction n as [|n IH]; intros s Hn.
  - destruct s; reflexivity.
  - destruct s as [|c s]; cbn in *; [lia|]. rewrite IH; lia.
Qed.

Lemma substring0_over (s : string) (n : nat) :
  (String.length s <= n)%nat -> substring 0 n s = s.
Proof.
  revert s. induction n as [|n IH]; intros s Hn.
  - destruct s; [reflexivity | cbn in Hn; lia].
  - destruct s as [|c s]; cbn in *; [reflexivity|]. rewrite IH; [reflexivity | lia].
Qed.

Lemma substring0_urlsafe (s : string) (n : nat) :
  base64.all_urlsafe s = true -> base64.all_urlsafe (substring 0 n s) = true.
Proof.
  revert s. induction n as [|n IH]; intros s Hs.
  - destruct s; reflexivity.
  - destruct s as [|c s]; cbn in *; [reflexivity|].
    apply andb_true_iff in Hs. destruct Hs as [Hc Hs].
    rewrite Hc, IH; auto.
Qed.

(** ** The code generator *)

Lemma make_bytes_ok (n : Z) :
  0 <= n <= maxAlloc -> make_bytes n = Returns (Z.to_nat n).
Proof.
  intros Hn. unfold make_bytes.
  destruct (Z.ltb_spec n 0); [lia|].
  destruct (Z.ltb_spec maxAlloc n); [lia|]. reflexivity.
Qed.

Lemma rand_Read_ok (n : nat) (src : rand.Source) :
  (n <= List.length src)%nat -> rand.Read n src = (inl (firstn n src), skipn n src).
Proof.
  intros Hn. unfold rand.Read.
  destruct (Nat.ltb_spec (List.length src) n); [lia|]. reflexivity.
Qed.

Lemma rand_Read_fails (n : nat) (src : rand.Source) :
  (List.length src < n)%nat -> rand.Read n src = (inr randErr, src).
Proof.
  intros Hn. unfold rand.Read.
  destruct (Nat.ltb_spec (List.length src) n); [reflexivity|lia].
Qed.

(** While nothing wraps and the allocation is accepted, the generator reads
    [length*6/8 + 1] bytes (integer division) and returns the first [length]
    symbols of their encoding, which is always longer than [length]. *)
Lemma GenerateRandomString_returns (length : Z) (src : rand.Source) :
  0 <= length ->
  length * 6 / 8 + 1 <= maxAlloc ->
  (Z.to_nat (length * 6 / 8 + 1) <= List.length src)%nat ->
  utils.GenerateRandomString length src =
    (Returns (substring 0 (Z.to_nat length)
                (base64.EncodeToString
                   (firstn (Z.to_nat (length * 6 / 8 + 1)) src)), None),
     skipn (Z.to_nat (length * 6 / 8 + 1)) src).
Proof.
  intros Hl Ha Hsrc. unfold maxAlloc in Ha.
  pose proof (Z.div_mod (length * 6) 8 ltac:(lia)) as Hdm.
  pose proof (Z.mod_pos_bound (length * 6) 8 ltac:(lia)) as Hm.
  assert (Hq : 0 <= length * 6 / 8) by (apply Z.div_pos; lia).
  unfold utils.GenerateRandomString.
  rewrite numBytes_small by lia.
  rewrite make_bytes_ok by (unfold maxAlloc; lia).
  rewrite rand_Read_ok by assumption.
  set (n := Z.to_nat (length * 6 / 8 + 1)) in *.
  set (b := firstn n src).
  assert (Hb : List.length b = n) by (apply firstn_length_le; assumption).
  pose proof (EncodeToString_length b) as Hlen. rewrite Hb in Hlen.
  pose proof (EncodedLen_bits n) as Hbits.
  assert (Hgt : length < Z.of_nat (String.length (base64.EncodeToString b))).
  { rewrite Hlen. subst n. lia. }
  destruct (Z.gtb_spec (Z.of_nat (String.length (base64.EncodeToString b))) length);
    [|lia].
  unfold slice_to.
  destruct (Z.ltb_spec length 0); [lia|].
  destruct (Z.ltb_spec (Z.of_nat (String.length (base64.EncodeToString b))) length);
    [lia|].
  reflexivity.
Qed.

(** A code of the service's length: six bytes read, seven symbols kept. *)
Lemma GenerateRandomString_7 (src : rand.Source) :
  (6 <= List.length src)%nat ->
  utils.GenerateRandomString 7 src =
    (Returns (substring 0 7 (base64.EncodeToString (firstn 6 src)), None),
     skipn 6 src).
Proof.
  intros Hsrc.
  apply (GenerateRandomString_returns 7 src); [lia | vm_compute; discriminate | exact Hsrc].
Qed.

Lemma GenerateRandomString_7_fails (src : rand.Source) :
  (List.length src < 6)%nat ->
  utils.GenerateRandomString 7 src = (Returns ("", Some randErr), src).
Proof.
  intros Hsrc. unfold utils.GenerateRandomString.
  change (GoInt.add (GoInt.quo (GoInt.mul 7 6) 8) 1) with 6.
  change (make_bytes 6) with (@Returns nat 6%nat).
  cbv iota beta. rewrite rand_Read_fails by assumption. reflexivity.
Qed.

(** Whatever the entropy source delivers, a generated code has seven
    symbols of the URL-safe alphabet, and the call does not panic. *)
Lemma GenerateRandomString_7_cases (src : rand.Source) :
  (exists code src',
      utils.GenerateRandomString 7 src = (Returns (code, None), src') /\
      String.length code = 7%nat /\ base64.all_urlsafe code = true /\
      (List.length src' + 6 = List.length src)%nat) \/
  utils.GenerateRandomString 7 src = (Returns ("", Some randErr), src).
Proof.
  destruct (Nat.le_gt_cases 6 (List.length src)) as [Hle | Hgt].
  - left. eexists _, _. split; [apply GenerateRandomString_7; exact Hle|].
    assert (Hb : List.length (firstn 6 src) = 6%nat)
      by (apply firstn_length_le; exact Hle).
    split; [|split].
    + apply substring0_length. rewrite EncodeToString_length, Hb. vm_compute. lia.
    + apply substring0_urlsafe, EncodeToString_urlsafe.
    + rewrite length_skipn. lia.
  - right. apply GenerateRandomString_7_fails. exact Hgt.
Qed.

(** C5 (as amended).  For a positive length whose byte count
    [length*6/8 + 1] (integer division, so the floor and not the ceiling of
    [length*6/8]) is an allocation the runtime accepts, the generator draws
    exactly that many bytes from the entropy source, encodes them with the
    unpadded URL-safe alphabet and returns the first [length] symbols of the
    encoding: a string of exactly [length] URL-safe characters. *)
Theorem GenerateRandomString_draws_and_truncates (length : Z) (src : rand.Source) :
  0 < length ->
  length * 6 / 8 + 1 <= maxAlloc ->
  (Z.to_nat (length * 6 / 8 + 1) <= List.length src)%nat ->
  exists code src',
    utils.GenerateRandomString length src = (Returns (code, None), src') /\
    code = substring 0 (Z.to_nat length)
             (base64.EncodeToString (firstn (Z.to_nat (length * 6 / 8 + 1)) src)) /\
    src = (firstn (Z.to_nat (length * 6 / 8 + 1)) src ++ src')%list /\
    Z.of_nat (List.length src) - Z.of_nat (List.length src') = length * 6 / 8 + 1 /\
    Z.of_nat (String.length code) = length /\
    base64.all_urlsafe code = true.
Proof.
  intros Hpos Ha Hsrc.
  pose proof (Z.div_mod (length * 6) 8 ltac:(lia)) as Hdm.
  pose proof (Z.mod_pos_bound (length * 6) 8 ltac:(lia)) as Hm.
  set (n := Z.to_nat (length * 6 / 8 + 1)) in *.
  exists (substring 0 (Z.to_nat length) (base64.EncodeToString (firstn n src))),
         (skipn n src).
  split; [apply GenerateRandomString_returns; auto; lia|].
  split; [reflexivity|].
  split; [symmetry; apply firstn_skipn|].
  split; [rewrite length_skipn; subst n; lia|].
  split.
  - rewrite substring0_length; [lia|].
    rewrite EncodeToString_length, firstn_length_le by assumption.
    pose proof (EncodedLen_bits n). subst n. lia.
  - apply substring0_urlsafe, EncodeToString_urlsafe.
Qed.

Lemma GenerateRandomString_draws_and_truncates_witness :
  exists code src',
    utils.GenerateRandomString 7 samples.six_bytes = (Returns (code, None), src') /\
    code = substring 0 (Z.to_nat 7)
             (base64.EncodeToString
                (firstn (Z.to_nat (7 * 6 / 8 + 1)) samples.six_bytes)) /\
    samples.six_bytes = (firstn (Z.to_nat (7 * 6 / 8 + 1)) samples.six_bytes ++ src')%list /\
    Z.of_nat (List.length samples.six_bytes) - Z.of_nat (List.length src')
      = 7 * 6 / 8 + 1 /\
    Z.of_nat (String.length code) = 7 /\
    base64.all_urlsafe code = true.
Proof.
  apply (GenerateRandomString_draws_and_truncates 7 samples.six_bytes).
  - lia.
  - vm_compute. discriminate.
  - vm_compute. lia.
Defined.

(** C5 (as stated) fails.  For length 7 the specification's count
    [ceil(7*6/8)+1] is 7, but the code reads 6 bytes: a source holding six
    bytes is enough and is left empty.  And for a length whose product with
    6 wraps around, one byte is read and two symbols are returned. *)
Lemma GenerateRandomString_ceil_counterexample :
  utils.spec_numBytes 7 = 7 /\
  utils.GenerateRandomString 7 samples.six_bytes = (Returns ("AAEC__7", None), []) /\
  Z.of_nat (List.length samples.six_bytes)
    - Z.of_nat (List.length (snd (utils.GenerateRandomString 7 samples.six_bytes))) = 6 /\
  Z.of_nat (List.length samples.six_bytes)
    - Z.of_nat (List.length (snd (utils.GenerateRandomString 7 samples.six_bytes)))
    <> utils.spec_numBytes 7 /\
  utils.GenerateRandomString samples.wrapping_length samples.six_bytes
    = (Returns ("AA", None), tl samples.six_bytes).
Proof. vm_compute. repeat split. discriminate. Qed.

(** For a negative length the call never gets past the slice expression:
    either [make] has already panicked, or the entropy read failed, or the
    slice expression panics. *)
Lemma GenerateRandomString_negative (length : Z) (src : rand.Source) :
  length < 0 ->
  fst (utils.GenerateRandomString length src) = Panics PanicMakeSliceLen \/
  fst (utils.GenerateRandomString length src) = Panics PanicSliceBounds \/
  fst (utils.GenerateRandomString length src) = Returns ("", Some randErr).
Proof.
  intros Hneg. unfold utils.GenerateRandomString.
  set (numBytes := GoInt.add (GoInt.quo (GoInt.mul length 6) 8) 1).
  unfold make_bytes.
  destruct ((numBytes <? 0) || (maxAlloc <? numBytes)); [left; reflexivity|].
  unfold rand.Read.
  destruct (List.length src <? Z.to_nat numBytes)%nat; [right; right; reflexivity|].
  cbv iota beta.
  set (randomString := base64.EncodeToString (firstn (Z.to_nat numBytes) src)).
  destruct (Z.gtb_spec (Z.of_nat (String.length randomString)) length); [|lia].
  unfold slice_to.
  destruct (Z.ltb_spec length 0); [|lia].
  right; left; reflexivity.
Qed.

(** The four ways a call can end, for every length: the panic of [make], the
    error of the entropy source, the panic of the slice expression, or the
    first [length] symbols of the encoding (all of it when it is shorter). *)
Lemma GenerateRandomString_outcome (length : Z) (src : rand.Source) :
  let numBytes := GoInt.add (GoInt.quo (GoInt.mul length 6) 8) 1 in
  utils.GenerateRandomString length src =
    if (numBytes <? 0) || (maxAlloc <? numBytes) then (Panics PanicMakeSliceLen, src)
    else if (List.length src <? Z.to_nat numBytes)%nat then
      (Returns ("", Some randErr), src)
    else if length <? 0 then (Panics PanicSliceBounds, skipn (Z.to_nat numBytes) src)
    else (Returns (substring 0 (Z.to_nat length)
                     (base64.EncodeToString (firstn (Z.to_nat numBytes) src)), None),
          skipn (Z.to_nat numBytes) src).
Proof.
  intros numBytes. unfold utils.GenerateRandomString. fold numBytes.
  unfold make_bytes.
  destruct ((numBytes <? 0) || (maxAlloc <? numBytes)); [reflexivity|].
  unfold rand.Read.
  destruct (List.length src <? Z.to_nat numBytes)%nat; [reflexivity|].
  cbv iota beta.
  set (randomString := base64.EncodeToString (firstn (Z.to_nat numBytes) src)).
  unfold slice_to.
  destruct (Z.ltb_spec length 0) as [Hneg | Hpos].
  - destruct (Z.gtb_spec (Z.of_nat (String.length randomString)) length); [|lia].
    reflexivity.
  - destruct (Z.gtb_spec (Z.of_nat (String.length randomString)) length) as [Hgt | Hle].
    + destruct (Z.ltb_spec (Z.of_nat (String.length randomString)) length); [lia|].
      reflexivity.
    + rewrite substring0_over by lia. reflexivity.
Qed.

(** [(length*6)/8 + 1] while the product [length*6] stays a machine integer:
    the lengths from [-1537228672809129301] to [1537228672809129301]. *)
Lemma numBytes_negative (length : Z) :
  -1537228672809129301 <= length <= -3 ->
  GoInt.add (GoInt.quo (GoInt.mul length 6) 8) 1 < 0.
Proof.
  intros Hl. unfold GoInt.add, GoInt.quo, GoInt.mul.
  rewrite (wrap_in_range (length * 6)) by int_range.
  replace (length * 6) with (- (- length * 6)) by lia.
  rewrite Z.quot_opp_l by lia.
  rewrite Z.quot_div_nonneg by lia.
  pose proof (Z.div_mod (- length * 6) 8 ltac:(lia)) as Hdm.
  pose proof (Z.mod_pos_bound (- length * 6) 8 ltac:(lia)) as Hm.
  rewrite (wrap_in_range (- (- length * 6 / 8))) by int_range.
  rewrite wrap_in_range by int_range.
  lia.
Qed.

Lemma numBytes_nowrap (length : Z) :
  0 <= length <= 1537228672809129301 ->
  GoInt.add (GoInt.quo (GoInt.mul length 6) 8) 1 = length * 6 / 8 + 1.
Proof.
  intros Hl. unfold GoInt.add, GoInt.quo, GoInt.mul.
  assert (H6 : GoInt.in_range (length * 6)) by int_range.
  rewrite (wrap_in_range _ H6).
  rewrite Z.quot_div_nonneg by lia.
  assert (Hq : 0 <= length * 6 / 8 <= length * 6)
    by (split; [apply Z.div_pos; lia | apply Z.div_le_upper_bound; lia]).
  rewrite (wrap_in_range (length * 6 / 8)) by int_range.
  apply wrap_in_range. int_range.
Qed.

(** The allocation limit is passed from length [375299968947542] on. *)
Lemma numBytes_limit (length : Z) :
  (0 <= length <= 375299968947541 -> 0 < length * 6 / 8 + 1 <= maxAlloc) /\
  (375299968947542 <= length -> maxAlloc < length * 6 / 8 + 1).
Proof.
  unfold maxAlloc. change (2 ^ 48) with 281474976710656.
  split; intros Hl.
  - pose proof (Z.div_mod (length * 6) 8 ltac:(lia)) as Hdm.
    pose proof (Z.mod_pos_bound (length * 6) 8 ltac:(lia)) as Hm. lia.
  - pose proof (Z.div_mod (length * 6) 8 ltac:(lia)) as Hdm.
    pose proof (Z.mod_pos_bound (length * 6) 8 ltac:(lia)) as Hm. lia.
Qed.

Lemma make_panics (length : Z) (src : rand.Source) :
  GoInt.add (GoInt.quo (GoInt.mul length 6) 8) 1 < 0 \/
  maxAlloc < GoInt.add (GoInt.quo (GoInt.mul length 6) 8) 1 ->
  fst (utils.GenerateRandomString length src) = Panics PanicMakeSliceLen.
Proof.
  intros Hn. rewrite GenerateRandomString_outcome. cbv zeta.
  destruct (Z.ltb_spec (GoInt.add (GoInt.quo (GoInt.mul length 6) 8) 1) 0);
    [reflexivity|].
  destruct (Z.ltb_spec maxAlloc (GoInt.add (GoInt.quo (GoInt.mul length 6) 8) 1));
    [reflexivity | lia].
Qed.

(** C10 (as amended).  The generator does not check its argument, and what
    happens is decided by the byte count [numBytes = (length*6)/8 + 1] of
    Go's wrapping 64-bit arithmetic.  For every length the call ends in one
    of four ways: [make([]byte, numBytes)] panics when [numBytes] is
    negative or above the allocation limit; otherwise a failed entropy read
    returns its error; otherwise, at a negative length, the slice expression
    [randomString[:length]] panics; otherwise the first [length] symbols of
    the encoding are returned without error.

    So at length 0 one byte is read and the empty string is returned without
    error, and at a negative length no string is ever returned: at -1 and -2
    the slice expression panics once the read has succeeded; from -3 down to
    [-1537228672809129301], where [length*6] does not wrap, [make] panics;
    below that the product wraps and either panic occurs (the slice
    expression at [-3074457345618258603], [make] at [-2^61]).  Nor are all
    positive lengths safe: up to [375299968947541] the call does not panic,
    and from [375299968947542] up to [1537228672809129301] [make] panics. *)
Theorem GenerateRandomString_unchecked_length
  (length : Z) (b : byte) (src : rand.Source) :
  let numBytes := GoInt.add (GoInt.quo (GoInt.mul length 6) 8) 1 in
  utils.GenerateRandomString 0 (b :: src) = (Returns ("", None), src) /\
  utils.GenerateRandomString length src =
    (if (numBytes <? 0) || (maxAlloc <? numBytes) then (Panics PanicMakeSliceLen, src)
     else if (List.length src <? Z.to_nat numBytes)%nat then
       (Returns ("", Some randErr), src)
     else if length <? 0 then (Panics PanicSliceBounds, skipn (Z.to_nat numBytes) src)
     else (Returns (substring 0 (Z.to_nat length)
                      (base64.EncodeToString (firstn (Z.to_nat numBytes) src)), None),
           skipn (Z.to_nat numBytes) src)) /\
  (length < 0 ->
   fst (utils.GenerateRandomString length src) = Panics PanicMakeSliceLen \/
   fst (utils.GenerateRandomString length src) = Panics PanicSliceBounds \/
   fst (utils.GenerateRandomString length src) = Returns ("", Some randErr)) /\
  (-2 <= length < 0 ->
   fst (utils.GenerateRandomString length (b :: src)) = Panics PanicSliceBounds) /\
  (-1537228672809129301 <= length <= -3 ->
   numBytes < 0 /\
   fst (utils.GenerateRandomString length src) = Panics PanicMakeSliceLen) /\
  fst (utils.GenerateRandomString (-3074457345618258603) (b :: src))
    = Panics PanicSliceBounds /\
  fst (utils.GenerateRandomString (- 2 ^ 61) src) = Panics PanicMakeSliceLen /\
  (0 <= length <= 375299968947541 ->
   numBytes = length * 6 / 8 + 1 /\ 0 < numBytes <= maxAlloc /\
   exists res, fst (utils.GenerateRandomString length src) = Returns res) /\
  (375299968947542 <= length <= 1537228672809129301 ->
   numBytes = length * 6 / 8 + 1 /\ maxAlloc < numBytes /\
   fst (utils.GenerateRandomString length src) = Panics PanicMakeSliceLen).
Proof.
  intros numBytes.
  split; [|split; [|split; [|split; [|split; [|split; [|split; [|split]]]]]]].
  - rewrite (GenerateRandomString_returns 0 (b :: src));
      [reflexivity | lia | vm_compute; discriminate | cbn; lia].
  - apply GenerateRandomString_outcome.
  - apply GenerateRandomString_negative.
  - intros Hge.
    assert (Hc : length = -1 \/ length = -2) by lia.
    destruct Hc as [-> | ->]; reflexivity.
  - intros Hrange. pose proof (numBytes_negative length Hrange) as Hn.
    split; [exact Hn|]. apply make_panics. left. exact Hn.
  - reflexivity.
  - apply make_panics. right. vm_compute. reflexivity.
  - intros Hrange. subst numBytes.
    rewrite numBytes_nowrap by lia.
    destruct (numBytes_limit length) as [Hlow _]. specialize (Hlow Hrange).
    split; [reflexivity|]. split; [exact Hlow|].
    rewrite GenerateRandomString_outcome. cbv zeta.
    rewrite numBytes_nowrap by lia.
    destruct (Z.ltb_spec (length * 6 / 8 + 1) 0); [lia|].
    destruct (Z.ltb_spec maxAlloc (length * 6 / 8 + 1)); [lia|]. cbn [orb].
    destruct (List.length src <? Z.to_nat (length * 6 / 8 + 1))%nat;
      [eexists; reflexivity|].
    destruct (Z.ltb_spec length 0); [lia|]. eexists; reflexivity.
  - intros Hrange. subst numBytes.
    rewrite numBytes_nowrap by lia.
    destruct (numBytes_limit length) as [_ Hhigh].
    assert (Hbig : maxAlloc < length * 6 / 8 + 1) by (apply Hhigh; lia).
    split; [reflexivity|]. split; [exact Hbig|].
    apply make_panics. right. rewrite numBytes_nowrap by lia. exact Hbig.
Qed.

Lemma GenerateRandomString_unchecked_length_witness :
  fst (utils.GenerateRandomString (-1) samples.six_bytes) = Panics PanicSliceBounds /\
  fst (utils.GenerateRandomString (-3) (tl samples.six_bytes)) = Panics PanicMakeSliceLen /\
  (exists res,
      fst (utils.GenerateRandomString 7 (tl samples.six_bytes)) = Returns res) /\
  fst (utils.GenerateRandomString 375299968947542 (tl samples.six_bytes))
    = Panics PanicMakeSliceLen.
Proof.
  split; [|split; [|split]].
  - destruct (GenerateRandomString_unchecked_length (-1) x00 (tl samples.six_bytes))
      as (_ & _ & _ & Hslice & _).
    apply Hslice. lia.
  - destruct (GenerateRandomString_unchecked_length (-3) x00 (tl samples.six_bytes))
      as (_ & _ & _ & _ & Hmake & _).
    apply Hmake. lia.
  - destruct (GenerateRandomString_unchecked_length 7 x00 (tl samples.six_bytes))
      as (_ & _ & _ & _ & _ & _ & _ & Hreturns & _).
    apply Hreturns. lia.
  - destruct (GenerateRandomString_unchecked_length 375299968947542 x00
                (tl samples.six_bytes))
      as (_ & _ & _ & _ & _ & _ & _ & _ & Hlimit).
    apply Hlimit. lia.
Defined.

(** C10 (as stated) fails.  At length -3 the byte count is -1 and it is
    [make] that panics; the slice expression is never reached.  At lengths
    -1 and -2 the slice expression does panic. *)
Lemma GenerateRandomString_negative_counterexample :
  fst (utils.GenerateRandomString (-3) samples.six_bytes) = Panics PanicMakeSliceLen /\
  fst (utils.GenerateRandomString (-3) samples.six_bytes) <> Panics PanicSliceBounds /\
  fst (utils.GenerateRandomString (-1) samples.six_bytes) = Panics PanicSliceBounds /\
  fst (utils.GenerateRandomString (-2) samples.six_bytes) = Panics PanicSliceBounds.
Proof. vm_compute. repeat split. discriminate. Qed.

(** ** The service, over any repository *)

Import repositories services.


Section AnyRepository.

Context {R : Type} `{ShortenerRepository R}.

Lemma post_ret {A : Type} (a : A) (w : World R) Q :
  Q (Returns a) w -> post (ret a) w Q.
Proof. exact (fun q => q). Qed.

Lemma post_bind {A B : Type} (m : M R A) (k : A -> M R B) (w : World R) Q :
  post m w (fun r w1 =>
              match r with
              | Returns a => post (k a) w1 Q
              | Panics p => Q (Panics p) w1
              end) ->
  post (bind m k) w Q.
Proof.
  unfold post, bind. destruct (m w) as [[a | p] w1]; cbn; auto.
Qed.

Lemma post_run {A : Type} (m : M R A) (w : World R) Q res w' :
  post m w Q -> m w = (res, w') -> Q res w'.
Proof. unfold post. intros HQ E. rewrite E in HQ. exact HQ. Qed.

Lemma post_weaken {A : Type} (m : M R A) (w : World R) (P Q : outcome A -> World R -> Prop) :
  post m w P -> (forall r w', P r w' -> Q r w') -> post m w Q.
Proof. unfold post. auto. Qed.

(** The generator call of the service: it returns a well-formed code or the
    entropy error, and touches neither the repository nor older trace. *)
Lemma post_callGenerateRandomString (w : World R) Q :
  (forall code src',
      String.length code = 7%nat -> base64.all_urlsafe code = true ->
      utils.GenerateRandomString 7 (entropy w) = (Returns (code, None), src') ->
      Q (Returns (code, None))
        (mkWorld (repo w) src'
           (CallGenerateRandomString 7 (Returns (code, None)) :: trace w))) ->
  (utils.GenerateRandomString 7 (entropy w) = (Returns ("", Some randErr), entropy w) ->
   Q (Returns ("", Some randErr))
     (mkWorld (repo w) (entropy w)
        (CallGenerateRandomString 7 (Returns ("", Some randErr)) :: trace w))) ->
  post (callGenerateRandomString shortCodeLength) w Q.
Proof.
  intros Hok Hfail. unfold post, callGenerateRandomString, shortCodeLength.
  destruct (GenerateRandomString_7_cases (entropy w))
    as [(code & src' & Hg & Hlen & Hsafe & _) | Hg]; rewrite Hg; cbn.
  - apply Hok; assumption.
  - apply Hfail; assumption.
Qed.


(** The retry loop: a returned code is a generated one, and a rejected
    persist is the newest call and decides the result. *)
Lemma generationLoop_post (remaining : nat) (longURL : string) (w : World R) :
  post (generationLoop remaining longURL) w
    (fun res w' =>
       exists new, extends w w' new /\
       (forall c, res = Returns (c, None) ->
                  String.length c = 7%nat /\ base64.all_urlsafe c = true) /\
       (forall c u id e, In (CallSaveMapping c u (id, Some e)) new ->
                         res = Returns ("", Some (SaveStorageError e)) /\
                         exists older, new = CallSaveMapping c u (id, Some e) :: older) /\
       (generations new <= remaining)%nat).
Proof.
  revert w. induction remaining as [|n IH]; intro w; cbn [generationLoop].
  - apply post_ret. exists []. repeat split; try discriminate; try (intros; contradiction).
    cbn; lia.
  - apply post_bind, post_callGenerateRandomString.
    + intros code src' Hlen Hsafe _. cbv beta iota.
      apply post_bind. unfold post at 1, callFindByShortCode. cbn [repo entropy trace].
      destruct (FindByShortCode code (repo w)) as [[found repoErr] r1]. cbn [fst snd].
      destruct repoErr as [re|].
      * destruct (errors_Is_ErrNotFound re).
        -- apply post_bind. unfold post at 1, callSaveMapping. cbn [repo entropy trace].
           destruct (SaveMapping code longURL r1) as [[id saveErr] r2]. cbn [fst snd].
           destruct saveErr as [se|]; apply post_ret; eexists; (split; [unfold extends; cbn [trace];
             instantiate (1 := [_; _; _]); reflexivity|]).
           ++ split; [intros c E; discriminate|]. split.
              ** intros c u i e [E | [E | [E | []]]]; try discriminate.
                 injection E as -> -> -> ->. split; [reflexivity | eexists; reflexivity].
              ** cbn. lia.
           ++ split; [intros c E; injection E as <-; auto|]. split.
              ** intros c u i e [E | [E | [E | []]]]; discriminate.
              ** cbn. lia.
        -- apply post_ret. eexists. split; [unfold extends; cbn [trace];
             instantiate (1 := [_; _]); reflexivity|].
           split; [intros c E; discriminate|]. split.
           ++ intros c u i e [E | [E | []]]; discriminate.
           ++ cbn. lia.
      * eapply post_weaken; [apply IH|]. cbv beta.
        intros res w' (new & Hext & Hcode & Hsave & Hgen).
        exists (new ++ [CallFindByShortCode code (found, None);
                        CallGenerateRandomString 7 (Returns (code, None))])%list.
        split; [unfold extends in *; rewrite Hext; cbn [trace]; rewrite <- app_assoc; reflexivity|].
        split; [exact Hcode|]. split.
        -- intros c u' i e Hin. apply in_app_or in Hin.
           destruct Hin as [Hin | [E | [E | []]]]; try discriminate.
           destruct (Hsave _ _ _ _ Hin) as [Hres [older ->]].
           split; [exact Hres | eexists; reflexivity].
        -- unfold generations in *. rewrite filter_app, length_app. cbn. lia.
    + intros _. cbv beta iota. apply post_ret. eexists. split;
        [unfold extends; cbn [trace]; instantiate (1 := [_]); reflexivity|].
      split; [intros c E; discriminate|]. split.
      * intros c u i e [E | []]; discriminate.
      * cbn. lia.
Qed.

End AnyRepository.

(** ** Claims about the service over any repository *)

Section AnyRepositoryClaims.

Context {R : Type} `{ShortenerRepository R}.

Lemma CreateShortURL_rejects (longURL : string) (w : World R) :
  ValidateURL longURL = false ->
  CreateShortURL longURL w = (Returns ("", Some InvalidURLError), w).
Proof.
  intros Hinvalid. unfold CreateShortURL. rewrite Hinvalid. reflexivity.
Qed.

(** C7.  For a string that [ValidateURL] rejects, [CreateShortURL] fails with
    [InvalidURLError] and leaves the world as it found it: no call to the
    store (no read, no write) and none to the generator is made. *)
Theorem CreateShortURL_invalid (longURL : string) (w : World R) :
  ValidateURL longURL = false ->
  CreateShortURL longURL w = (Returns ("", Some InvalidURLError), w) /\
  trace (snd (CreateShortURL longURL w)) = trace w /\
  repo (snd (CreateShortURL longURL w)) = repo w.
Proof.
  intros Hinvalid. rewrite (CreateShortURL_rejects longURL w Hinvalid).
  repeat split.
Qed.


(** The reverse lookup of [CreateShortURL], then the loop. *)
Lemma CreateShortURL_post (longURL : string) (w : World R) :
  ValidateURL longURL = true ->
  post (CreateShortURL longURL) w
    (create_post longURL w
       (fst (fst (FindByLongURL longURL (repo w))))
       (snd (fst (FindByLongURL longURL (repo w))))).
Proof.
  intros Hvalid. unfold CreateShortURL. rewrite Hvalid. cbn [negb].
  apply post_bind. unfold post at 1, callFindByLongURL.
  destruct (FindByLongURL longURL (repo w)) as [[existing err] r1]. cbn [fst snd].
  set (w1 := mkWorld r1 (entropy w)
               (CallFindByLongURL longURL (existing, err) :: trace w)).
  assert (Hstop : forall a : string * option error,
             (forall c, a <> (c, None) \/ existing <> "") ->
             post (ret a) w1 (create_post longURL w existing err)).
  { intros a Ha. apply post_ret. exists []. split; [reflexivity|].
    split; [|split; [intros; contradiction | cbn; lia]].
    intros He c Hc. injection Hc as ->. destruct (Ha c); contradiction. }
  assert (Hloop : post (generationLoop maxGenerationRetries longURL) w1
                    (create_post longURL w existing err)).
  { eapply post_weaken; [apply generationLoop_post|]. cbv beta.
    intros res w' (new & Hext & Hcode & Hsave & Hgen).
    exists new. split.
    - unfold extends in *. rewrite Hext. unfold w1. cbn [trace].
      rewrite <- app_assoc. reflexivity.
    - split; [intros _; exact Hcode|]. split; [exact Hsave | exact Hgen]. }
  destruct err as [e|].
  - destruct (errors_Is_ErrNotFound e); cbn [negb].
    + destruct (String.eqb_spec existing ""); cbn [negb].
      * exact Hloop.
      * apply Hstop. intros c. right. assumption.
    + apply Hstop. intros c. left. discriminate.
  - destruct (String.eqb_spec existing ""); cbn [negb].
    + exact Hloop.
    + apply Hstop. intros c. right. assumption.
Qed.

(** C3.  For a valid URL with no prior mapping (the reverse lookup reports
    no code), a code that [CreateShortURL] returns has exactly seven
    characters, each of the URL-safe base64 alphabet [A-Z a-z 0-9 - _]. *)
Theorem CreateShortURL_code_format
  (longURL : string) (w w' : World R) (code : string) :
  ValidateURL longURL = true ->
  fst (fst (FindByLongURL longURL (repo w))) = "" ->
  CreateShortURL longURL w = (Returns (code, None), w') ->
  String.length code = 7%nat /\ base64.all_urlsafe code = true.
Proof.
  intros Hvalid Hnone Hrun.
  pose proof (post_run _ _ _ _ _ (CreateShortURL_post longURL w Hvalid) Hrun) as Hpost.
  destruct Hpost as (new & _ & Hcode & _).
  apply Hcode; [exact Hnone | reflexivity].
Qed.

(** C4 (as amended).  A persist step that the store rejects, with a
    uniqueness violation or with any other error, ends the request: the
    rejected [SaveMapping] is the last call [CreateShortURL] makes, and the
    result is the storage error that wraps the store's error.  No further
    attempt is made, whatever is left of the retry budget. *)
Theorem CreateShortURL_save_error_is_fatal
  (longURL : string) (w w' : World R) (res : outcome (string * option error))
  (shortCode url : string) (id : Z) (e : error) :
  trace w = [] ->
  CreateShortURL longURL w = (res, w') ->
  In (CallSaveMapping shortCode url (id, Some e)) (trace w') ->
  res = Returns ("", Some (SaveStorageError e)) /\
  exists older, trace w' = CallSaveMapping shortCode url (id, Some e) :: older.
Proof.
  intros Hfresh Hrun Hin.
  destruct (ValidateURL longURL) eqn:Hvalid.
  - pose proof (post_run _ _ _ _ _ (CreateShortURL_post longURL w Hvalid) Hrun) as Hpost.
    destruct Hpost as (new & Hext & _ & Hsave & _).
    unfold extends in Hext. rewrite Hfresh, app_nil_r in Hext.
    rewrite Hext in Hin. apply in_app_or in Hin.
    destruct Hin as [Hin | [E | []]]; [|discriminate].
    destruct (Hsave _ _ _ _ Hin) as [Hres [older Hnew]].
    split; [exact Hres|]. rewrite Hext, Hnew. eexists. reflexivity.
  - rewrite (CreateShortURL_rejects longURL w Hvalid) in Hrun.
    injection Hrun as <- <-.
    rewrite Hfresh in Hin. contradiction.
Qed.

End AnyRepositoryClaims.

Lemma CreateShortURL_invalid_witness :
  CreateShortURL "not a url" samples.fresh_world
    = (Returns ("", Some InvalidURLError), samples.fresh_world) /\
  trace (snd (CreateShortURL "not a url" samples.fresh_world))
    = trace samples.fresh_world /\
  repo (snd (CreateShortURL "not a url" samples.fresh_world))
    = repo samples.fresh_world.
Proof.
  apply (CreateShortURL_invalid "not a url" samples.fresh_world).
  vm_compute. reflexivity.
Defined.

Lemma CreateShortURL_code_format_witness :
  fst (CreateShortURL samples.url_a samples.fresh_world)
    = Returns (samples.code_1, None) /\
  String.length samples.code_1 = 7%nat /\
  base64.all_urlsafe samples.code_1 = true.
Proof.
  split; [vm_compute; reflexivity|].
  apply (CreateShortURL_code_format samples.url_a samples.fresh_world
           (snd (CreateShortURL samples.url_a samples.fresh_world))).
  - vm_compute. reflexivity.
  - vm_compute. reflexivity.
  - vm_compute. reflexivity.
Defined.

Lemma CreateShortURL_save_error_is_fatal_witness :
  fst (CreateShortURL samples.url_a samples.raced_world)
    = Returns ("", Some (SaveStorageError sqliteErrConstraintUnique)) /\
  exists older,
    trace (snd (CreateShortURL samples.url_a samples.raced_world))
      = CallSaveMapping samples.code_1 samples.url_a
          (0, Some sqliteErrConstraintUnique) :: older.
Proof.
  apply (CreateShortURL_save_error_is_fatal samples.url_a samples.raced_world
           (snd (CreateShortURL samples.url_a samples.raced_world))).
  - reflexivity.
  - vm_compute. reflexivity.
  - vm_compute. left. reflexivity.
Defined.

(** C4 (as stated) fails.  Another request inserts the code between this
    request's probe and its insert; the store rejects the insert with the
    uniqueness violation, and [CreateShortURL] returns the storage error
    after a single generation, with four attempts of its budget and the
    entropy for them unused. *)
Lemma CreateShortURL_duplicate_insert_counterexample :
  trace (snd (CreateShortURL samples.url_a samples.raced_world))
    = [CallSaveMapping samples.code_1 samples.url_a
         (0, Some sqliteErrConstraintUnique);
       CallFindByShortCode samples.code_1 ("", Some ErrNotFound);
       CallGenerateRandomString 7 (Returns (samples.code_1, None));
       CallFindByLongURL samples.url_a ("", None)] /\
  fst (CreateShortURL samples.url_a samples.raced_world)
    = Returns ("", Some (SaveStorageError sqliteErrConstraintUnique)) /\
  generations (trace (snd (CreateShortURL samples.url_a samples.raced_world))) = 1%nat /\
  maxGenerationRetries = 5%nat /\
  List.length (entropy (snd (CreateShortURL samples.url_a samples.raced_world))) = 24%nat.
Proof. vm_compute. repeat split. Qed.

(** ** Lists of rows *)

Section Rows.

Variable A : Type.
Variable p : A -> bool.

Lemma find_app_none (l l' : list A) :
  find p l = None -> find p (l ++ l') = find p l'.
Proof.
  induction l as [|x l IH]; cbn; [reflexivity|].
  destruct (p x); [discriminate | exact IH].
Qed.

Lemma find_none_filter (l : list A) : find p l = None <-> filter p l = [].
Proof.
  induction l as [|x l IH]; cbn; [tauto|].
  destruct (p x); [split; discriminate | exact IH].
Qed.

Lemma find_none_existsb (l : list A) : find p l = None <-> existsb p l = false.
Proof.
  induction l as [|x l IH]; cbn; [tauto|].
  destruct (p x); cbn; [split; discriminate | exact IH].
Qed.

End Rows.

Lemma find_code_absent (shortCode : string) (rows : list URLMapping) :
  find (has_code shortCode) rows = None -> ~ In shortCode (map ShortCode rows).
Proof.
  intros Hnone Hin. apply in_map_iff in Hin. destruct Hin as (m & Hm & Hin).
  pose proof (find_none _ _ Hnone m Hin) as Hf.
  unfold has_code in Hf. rewrite Hm, String.eqb_refl in Hf. discriminate.
Qed.

(** Under the UNIQUE constraint the row found for a code is the only one. *)
Lemma find_code_unique (rows : list URLMapping) (m : URLMapping) :
  NoDup (map ShortCode rows) -> In m rows ->
  find (has_code (ShortCode m)) rows = Some m.
Proof.
  induction rows as [|x rows IH]; intros Hnd Hin; [contradiction|].
  cbn in Hnd. inversion Hnd as [|? ? Hnotin Hnd']; subst.
  cbn. unfold has_code at 1. destruct Hin as [-> | Hin].
  - rewrite String.eqb_refl. reflexivity.
  - destruct (String.eqb_spec (ShortCode x) (ShortCode m)) as [E | _].
    + exfalso. apply Hnotin. rewrite E. apply in_map. exact Hin.
    + apply IH; assumption.
Qed.

Lemma NoDup_codes_filter (q : URLMapping -> bool) (rows : list URLMapping) :
  NoDup (map ShortCode rows) -> NoDup (map ShortCode (filter q rows)).
Proof.
  induction rows as [|x rows IH]; intros Hnd; cbn; [constructor|].
  cbn in Hnd. inversion Hnd as [|? ? Hnotin Hnd']; subst.
  destruct (q x); cbn; [constructor|]; auto.
  intros Hin. apply Hnotin. apply in_map_iff in Hin.
  destruct Hin as (m & Hm & Hin). apply filter_In in Hin.
  rewrite <- Hm. apply in_map. tauto.
Qed.

Lemma codes_after_update (shortCode newLongURL : string) (rows : list URLMapping) :
  map ShortCode
    (map (fun m => if has_code shortCode m
                   then mkURLMapping (ID m) (ShortCode m) newLongURL (CreatedAt m)
                   else m) rows)
  = map ShortCode rows.
Proof.
  rewrite map_map. apply map_ext. intros m. destruct (has_code shortCode m); reflexivity.
Qed.

(** ** The SQLite repository *)

Lemma SQLite_FindByShortCode_eq (shortCode : string) (r : SQLiteShortenerRepo) :
  FindByShortCode shortCode r =
    (match find (has_code shortCode) (urls (db r)) with
     | Some m => (LongURL m, None)
     | None => ("", Some ErrNotFound)
     end, r).
Proof.
  cbn. unfold SQLite_FindByShortCode, query_long_url.
  destruct (find (has_code shortCode) (urls (db r))); reflexivity.
Qed.

Lemma SQLite_FindByLongURL_eq (longURL : string) (r : SQLiteShortenerRepo) :
  FindByLongURL longURL r =
    (match find (has_url longURL) (urls (db r)) with
     | Some m => (ShortCode m, None)
     | None => ("", None)
     end, r).
Proof.
  cbn. unfold SQLite_FindByLongURL, query_short_code.
  destruct (find (has_url longURL) (urls (db r))); reflexivity.
Qed.


Lemma SQLite_SaveMapping_fresh (shortCode longURL : string) (r : SQLiteShortenerRepo) :
  largest_rowid (db r) < MAX_ROWID ->
  find (has_code shortCode) (urls (db r)) = None ->
  SaveMapping shortCode longURL r =
    ((sqlite_sequence (inserted shortCode longURL (db r)), None),
     NewSQLiteShortenerRepo (inserted shortCode longURL (db r))).
Proof.
  intros Hroom Hnone. cbn. unfold SQLite_SaveMapping, exec_insert.
  destruct (Z.leb_spec MAX_ROWID (largest_rowid (db r))); [lia|].
  apply find_none_existsb in Hnone. rewrite Hnone. reflexivity.
Qed.

Lemma SQLite_SaveMapping_full (shortCode longURL : string) (r : SQLiteShortenerRepo) :
  MAX_ROWID <= largest_rowid (db r) ->
  SaveMapping shortCode longURL r = ((0, Some sqliteErrFull), r).
Proof.
  intros Hfull. cbn. unfold SQLite_SaveMapping, exec_insert.
  destruct (Z.leb_spec MAX_ROWID (largest_rowid (db r))); [|lia].
  destruct r. reflexivity.
Qed.

(** ** The service over the SQLite repository, one request at a time *)


Lemma generationLoop_sqlite (remaining : nat) (longURL : string)
  (w : World SQLiteShortenerRepo) :
  post (generationLoop remaining longURL) w
    (fun res w' => exists new, extends w w' new /\ loop_outcome longURL w res w' new).
Proof.
  revert w. induction remaining as [|n IH]; intro w; cbn [generationLoop].
  - apply post_ret. exists []. split; [reflexivity|].
    cbn. repeat split; auto.
  - apply post_bind, post_callGenerateRandomString.
    + intros code src' Hlen _ _. cbv beta iota.
      apply post_bind. unfold post at 1, callFindByShortCode. cbn [repo entropy trace].
      rewrite SQLite_FindByShortCode_eq.
      destruct (find (has_code code) (urls (db (repo w)))) as [m|] eqn:Hfind; cbn [fst snd].
      * eapply post_weaken; [apply IH|]. cbv beta.
        intros res w' (new & Hext & Hout).
        exists (new ++ [CallFindByShortCode code (LongURL m, None);
                        CallGenerateRandomString 7 (Returns (code, None))])%list.
        split; [unfold extends in *; rewrite Hext; cbn [trace];
                rewrite <- app_assoc; reflexivity|].
        unfold loop_outcome in *. cbn [repo] in Hout.
        assert (Hs : saves (new ++ [CallFindByShortCode code (LongURL m, None);
                                    CallGenerateRandomString 7 (Returns (code, None))])
                     = saves new).
        { unfold saves. rewrite filter_app, length_app. cbn. lia. }
        rewrite Hs. exact Hout.
      * cbn [errors_Is_ErrNotFound].
        apply post_bind. unfold post at 1, callSaveMapping. cbn [repo entropy trace].
        destruct (Z.le_gt_cases MAX_ROWID (largest_rowid (db (repo w))))
          as [Hfull | Hroom].
        -- rewrite (SQLite_SaveMapping_full code longURL (repo w) Hfull).
           cbn [fst snd].
           apply post_ret. eexists. split;
             [unfold extends; cbn [trace]; instantiate (1 := [_; _; _]); reflexivity|].
           cbn. split; [reflexivity|]. split; [reflexivity|]. right. auto.
        -- rewrite (SQLite_SaveMapping_fresh code longURL (repo w) Hroom Hfind).
           cbn [fst snd].
           apply post_ret. eexists. split;
             [unfold extends; cbn [trace]; instantiate (1 := [_; _; _]); reflexivity|].
           cbn. repeat split; auto.
    + intros _. cbv beta iota. apply post_ret. eexists. split;
        [unfold extends; cbn [trace]; instantiate (1 := [_]); reflexivity|].
      cbn. repeat split; auto.
Qed.


Lemma CreateShortURL_sqlite (longURL : string) (w : World SQLiteShortenerRepo) :
  post (CreateShortURL longURL) w (create_outcome longURL w).
Proof.
  unfold CreateShortURL.
  destruct (ValidateURL longURL); cbn [negb]; [|apply post_ret; cbn; auto].
  apply post_bind. unfold post at 1, callFindByLongURL.
  rewrite SQLite_FindByLongURL_eq.
  assert (Hloop : forall tr,
             fst (fst (FindByLongURL longURL (repo w))) = "" ->
             post (generationLoop maxGenerationRetries longURL)
               (mkWorld (repo w) (entropy w) tr) (create_outcome longURL w)).
  { intros tr Hnone. eapply post_weaken; [apply generationLoop_sqlite|]. cbv beta.
    intros res w' (new & _ & Hout). unfold loop_outcome in Hout.
    unfold create_outcome. cbn [repo] in Hout.
    destruct res as [[c [e|]] | p]; [tauto | | exact Hout].
    destruct Hout as (Hlen & Hfind & Hrepo & _).
    split; [intros ->; discriminate|]. right. auto. }
  destruct (find (has_url longURL) (urls (db (repo w)))) as [m|] eqn:Hfind; cbn [fst snd].
  - destruct (String.eqb_spec (ShortCode m) ""); cbn [negb].
    + apply Hloop. rewrite SQLite_FindByLongURL_eq, Hfind. assumption.
    + apply post_ret. cbn. split; [assumption|]. left. exists m. auto.
  - cbn [String.eqb negb]. apply Hloop.
    rewrite SQLite_FindByLongURL_eq, Hfind. reflexivity.
Qed.

(** C1.  Round trip: from any state of the SQLite store (which holds at
    most one row per short code, as its UNIQUE constraint demands), if
    [CreateShortURL(U)] returns the code [C], found by the reverse lookup or
    freshly inserted, then [FindByShortCode(C)] right after returns [U]. *)
Theorem CreateShortURL_round_trip
  (longURL : string) (w w' : World SQLiteShortenerRepo) (code : string) :
  unique_codes (db (repo w)) ->
  CreateShortURL longURL w = (Returns (code, None), w') ->
  FindByShortCode code (repo w') = ((longURL, None), repo w').
Proof.
  intros Huniq Hrun.
  pose proof (post_run _ _ _ _ _ (CreateShortURL_sqlite longURL w) Hrun) as Hout.
  cbn in Hout. destruct Hout as [_ [(m & Hfind & Hcode & Hrepo & _) | (_ & Hfind & Hrepo)]].
  - rewrite Hrepo, SQLite_FindByShortCode_eq.
    apply find_some in Hfind. destruct Hfind as [Hin Hurl].
    apply String.eqb_eq in Hurl.
    rewrite <- Hcode, (find_code_unique _ _ Huniq Hin), Hurl. reflexivity.
  - rewrite Hrepo, SQLite_FindByShortCode_eq. cbn [db inserted urls].
    rewrite (find_app_none _ _ _ _ Hfind). cbn [find]. unfold has_code.
    cbn [ShortCode]. rewrite String.eqb_refl. reflexivity.
Qed.

Lemma CreateShortURL_round_trip_witness :
  fst (CreateShortURL samples.url_a samples.fresh_world)
    = Returns (samples.code_1, None) /\
  FindByShortCode samples.code_1
    (repo (snd (CreateShortURL samples.url_a samples.fresh_world)))
  = ((samples.url_a, None),
     repo (snd (CreateShortURL samples.url_a samples.fresh_world))).
Proof.
  split; [vm_compute; reflexivity|].
  apply (CreateShortURL_round_trip samples.url_a samples.fresh_world).
  - constructor.
  - vm_compute. reflexivity.
Defined.

(** ** The invariant of the store *)

Lemma inserted_unique (shortCode longURL : string) (d : DB) :
  unique_codes d ->
  find (has_code shortCode) (urls d) = None ->
  unique_codes (inserted shortCode longURL d).
Proof.
  unfold unique_codes, inserted. cbn [urls]. intros Huniq Hfind.
  rewrite map_app. apply NoDup_app; [exact Huniq | |].
  - cbn. constructor; [intros [] | constructor].
  - intros a Hin [<- | []]. exact (find_code_absent _ _ Hfind Hin).
Qed.

Lemma CreateShortURL_unique (longURL : string) (w : World SQLiteShortenerRepo) :
  unique_codes (db (repo w)) ->
  unique_codes (db (repo (snd (CreateShortURL longURL w)))).
Proof.
  intros Huniq.
  destruct (CreateShortURL longURL w) as [res w'] eqn:Hrun.
  pose proof (post_run _ _ _ _ _ (CreateShortURL_sqlite longURL w) Hrun) as Hout.
  cbn [snd]. unfold create_outcome in Hout.
  destruct res as [[c [e|]] | p];
    [destruct Hout as (_ & -> & _); exact Huniq | | contradiction].
  destruct Hout as [_ [(m & _ & _ & Hrepo & _) | (_ & Hfind & Hrepo)]];
    rewrite Hrepo; [exact Huniq|].
  cbn [db]. apply inserted_unique; assumption.
Qed.

Lemma UpdateLongURL_repo (shortCode newLongURL : string) (w : World SQLiteShortenerRepo) :
  repo (snd (services.UpdateLongURL shortCode newLongURL w)) = repo w \/
  repo (snd (services.UpdateLongURL shortCode newLongURL w))
    = NewSQLiteShortenerRepo (snd (exec_update newLongURL shortCode (db (repo w)))).
Proof.
  unfold services.UpdateLongURL.
  destruct (ValidateURL newLongURL); cbn [negb]; [|left; reflexivity].
  right. unfold bind, callUpdateLongURL. cbn.
  unfold SQLite_UpdateLongURL. cbn.
  destruct (Z.of_nat (List.length (filter (has_code shortCode) (urls (db (repo w))))) =? 0);
    reflexivity.
Qed.

Lemma DeleteMapping_repo (shortCode : string) (w : World SQLiteShortenerRepo) :
  repo (snd (services.DeleteMapping shortCode w))
    = NewSQLiteShortenerRepo (snd (exec_delete shortCode (db (repo w)))).
Proof.
  unfold services.DeleteMapping, bind, callDeleteMapping. cbn.
  unfold SQLite_DeleteMapping. cbn.
  destruct (Z.of_nat (List.length (filter (has_code shortCode) (urls (db (repo w))))) =? 0);
    reflexivity.
Qed.

Lemma serve_unique (op : Operation) (w : World SQLiteShortenerRepo) :
  unique_codes (db (repo w)) -> unique_codes (db (repo (serve op w))).
Proof.
  intros Huniq. destruct op as [longURL | shortCode newLongURL | shortCode]; cbn [serve].
  - apply CreateShortURL_unique. exact Huniq.
  - destruct (UpdateLongURL_repo shortCode newLongURL w) as [-> | ->]; [exact Huniq|].
    unfold unique_codes, exec_update. cbn [snd db urls].
    rewrite codes_after_update. exact Huniq.
  - rewrite DeleteMapping_repo.
    unfold unique_codes, exec_delete. cbn [snd db urls].
    apply NoDup_codes_filter. exact Huniq.
Qed.

(** Creation adds at most one code, and only one the store did not hold;
    update and delete add none. *)
Lemma serve_codes (op : Operation) (w : World SQLiteShortenerRepo) :
  match op with
  | OpCreateShortURL _ =>
      codes (serve op w) = codes w \/
      exists c, ~ In c (codes w) /\ codes (serve op w) = (codes w ++ [c])%list
  | _ => incl (codes (serve op w)) (codes w)
  end.
Proof.
  unfold codes. destruct op as [longURL | shortCode newLongURL | shortCode]; cbn [serve].
  - destruct (CreateShortURL longURL w) as [res w'] eqn:Hrun.
    pose proof (post_run _ _ _ _ _ (CreateShortURL_sqlite longURL w) Hrun) as Hout.
    cbn [snd]. unfold create_outcome in Hout.
    destruct res as [[c [e|]] | p];
      [left; destruct Hout as (_ & -> & _); reflexivity | | contradiction].
    destruct Hout as [_ [(m & _ & _ & Hrepo & _) | (_ & Hfind & Hrepo)]]; rewrite Hrepo.
    + left. reflexivity.
    + right. exists c. split; [exact (find_code_absent _ _ Hfind)|].
      cbn [db inserted urls]. rewrite map_app. reflexivity.
  - destruct (UpdateLongURL_repo shortCode newLongURL w) as [-> | ->]; [apply incl_refl|].
    unfold exec_update. cbn [snd db urls]. rewrite codes_after_update. apply incl_refl.
  - rewrite DeleteMapping_repo. unfold exec_delete. cbn [snd db urls].
    intros c Hin. apply in_map_iff in Hin. destruct Hin as (m & <- & Hin).
    apply filter_In in Hin. apply in_map. tauto.
Qed.

(** C9.  At most one live mapping per short code: from a store with unique
    short codes, every sequential execution of [CreateShortURL],
    [UpdateLongURL] and [DeleteMapping] leaves a store with unique short
    codes, in which a short code therefore determines its long URL.  Each
    further operation keeps it so because creation inserts at most one code,
    one that the store did not hold, and update and delete introduce none. *)
Theorem serve_all_unique (ops : list Operation) (w : World SQLiteShortenerRepo) :
  unique_codes (db (repo w)) ->
  unique_codes (db (repo (serve_all ops w))) /\
  (forall m1 m2,
      In m1 (urls (db (repo (serve_all ops w)))) ->
      In m2 (urls (db (repo (serve_all ops w)))) ->
      ShortCode m1 = ShortCode m2 -> LongURL m1 = LongURL m2) /\
  (forall op,
      match op with
      | OpCreateShortURL _ =>
          codes (serve op (serve_all ops w)) = codes (serve_all ops w) \/
          exists c, ~ In c (codes (serve_all ops w)) /\
                    codes (serve op (serve_all ops w))
                    = (codes (serve_all ops w) ++ [c])%list
      | _ => incl (codes (serve op (serve_all ops w))) (codes (serve_all ops w))
      end).
Proof.
  intros Huniq.
  assert (Hall : unique_codes (db (repo (serve_all ops w)))).
  { revert w Huniq. unfold serve_all.
    induction ops as [|op ops IH]; intros w Huniq; cbn [fold_left]; [exact Huniq|].
    apply IH, serve_unique, Huniq. }
  split; [exact Hall|]. split.
  - intros m1 m2 H1 H2 Hcode.
    pose proof (find_code_unique _ _ Hall H1) as F1.
    pose proof (find_code_unique _ _ Hall H2) as F2.
    rewrite Hcode, F2 in F1. injection F1 as ->. reflexivity.
  - intros op. apply serve_codes.
Qed.

Lemma serve_all_unique_witness :
  unique_codes (db (repo samples.two_codes_world)) /\
  (forall m1 m2,
      In m1 (urls (db (repo samples.two_codes_world))) ->
      In m2 (urls (db (repo samples.two_codes_world))) ->
      ShortCode m1 = ShortCode m2 -> LongURL m1 = LongURL m2) /\
  (forall op,
      match op with
      | OpCreateShortURL _ =>
          codes (serve op samples.two_codes_world) = codes samples.two_codes_world \/
          exists c, ~ In c (codes samples.two_codes_world) /\
                    codes (serve op samples.two_codes_world)
                    = (codes samples.two_codes_world ++ [c])%list
      | _ => incl (codes (serve op samples.two_codes_world))
                  (codes samples.two_codes_world)
      end).
Proof.
  apply (serve_all_unique
           [OpCreateShortURL samples.url_a;
            OpCreateShortURL samples.url_b;
            OpUpdateLongURL samples.code_2 samples.url_a]
           samples.fresh_world).
  constructor.
Defined.

(** ** Idempotent creation *)

Lemma find_some_filter_length {A : Type} (p : A -> bool) (l : list A) (x : A) :
  find p l = Some x -> (1 <= List.length (filter p l))%nat.
Proof.
  induction l as [|y l IH]; cbn; [discriminate|].
  destruct (p y); cbn; [lia | exact IH].
Qed.

(** C2 (as amended).  In a store whose short codes are non-empty, if
    [CreateShortURL(U)] returns the code [C], a second [CreateShortURL(U)]
    returns [C] again through the reverse lookup alone: its only call is
    [FindByLongURL], nothing is generated or inserted, the store is
    unchanged.  The two calls together insert at most one row, and leave
    exactly one mapping for [U] when [U] had at most one before; mappings
    that [U] already had are all kept. *)
Theorem CreateShortURL_idempotent
  (longURL : string) (w w1 : World SQLiteShortenerRepo) (code : string) :
  (forall m, In m (urls (db (repo w))) -> ShortCode m <> "") ->
  CreateShortURL longURL w = (Returns (code, None), w1) ->
  CreateShortURL longURL w1
    = (Returns (code, None),
       mkWorld (repo w1) (entropy w1)
         (CallFindByLongURL longURL (code, None) :: trace w1)) /\
  mappings_of longURL (db (repo w1)) = Nat.max 1 (mappings_of longURL (db (repo w))) /\
  (List.length (urls (db (repo w1))) <= S (List.length (urls (db (repo w)))))%nat.
Proof.
  intros Hnonempty Hrun.
  assert (Hvalid : ValidateURL longURL = true).
  { destruct (ValidateURL longURL) eqn:E; [reflexivity|].
    unfold CreateShortURL in Hrun. rewrite E in Hrun. discriminate. }
  pose proof (post_run _ _ _ _ _ (CreateShortURL_sqlite longURL w) Hrun) as Hout.
  cbn in Hout. destruct Hout as [Hne Hcases].
  assert (Hsecond : forall m,
             find (has_url longURL) (urls (db (repo w1))) = Some m ->
             ShortCode m = code ->
             CreateShortURL longURL w1
             = (Returns (code, None),
                mkWorld (repo w1) (entropy w1)
                  (CallFindByLongURL longURL (code, None) :: trace w1))).
  { intros m Hfind Hcode. unfold CreateShortURL. rewrite Hvalid. cbn [negb].
    unfold bind, callFindByLongURL.
    rewrite SQLite_FindByLongURL_eq, Hfind, Hcode.
    destruct (String.eqb_spec code ""); [contradiction|]. reflexivity. }
  destruct Hcases as [(m & Hfind & Hcode & Hrepo & _) | (Hlookup & Hfresh & Hrepo)].
  - rewrite Hrepo in *. split; [exact (Hsecond m Hfind Hcode)|]. split; [|lia].
    pose proof (find_some_filter_length _ _ _ Hfind) as Hpos.
    unfold mappings_of. lia.
  - assert (Hnone : find (has_url longURL) (urls (db (repo w))) = None).
    { rewrite SQLite_FindByLongURL_eq in Hlookup.
      destruct (find (has_url longURL) (urls (db (repo w)))) as [m|] eqn:E; [|reflexivity].
      exfalso. apply find_some in E. exact (Hnonempty m (proj1 E) Hlookup). }
    assert (Hurl : has_url longURL
                     (mkURLMapping
                        (Z.max (sqlite_sequence (db (repo w)))
                               (max_rowid (urls (db (repo w)))) + 1)
                        code longURL (now (db (repo w)))) = true)
      by (unfold has_url; cbn [LongURL]; apply String.eqb_refl).
    split; [|split].
    + eapply Hsecond;
        [rewrite Hrepo; cbn [db inserted urls];
         rewrite (find_app_none _ _ _ _ Hnone); cbn [find]; rewrite Hurl; reflexivity
        |reflexivity].
    + rewrite Hrepo. unfold mappings_of. cbn [db inserted urls].
      rewrite filter_app. cbn [filter]. rewrite Hurl.
      apply find_none_filter in Hnone. rewrite Hnone. reflexivity.
    + rewrite Hrepo. cbn [db inserted urls]. rewrite length_app. cbn. lia.
Qed.

Lemma CreateShortURL_idempotent_witness :
  CreateShortURL samples.url_a
    (snd (CreateShortURL samples.url_a samples.fresh_world))
    = (Returns (samples.code_1, None),
       mkWorld (repo (snd (CreateShortURL samples.url_a samples.fresh_world)))
         (entropy (snd (CreateShortURL samples.url_a samples.fresh_world)))
         (CallFindByLongURL samples.url_a (samples.code_1, None)
            :: trace (snd (CreateShortURL samples.url_a samples.fresh_world)))) /\
  mappings_of samples.url_a
    (db (repo (snd (CreateShortURL samples.url_a samples.fresh_world))))
    = Nat.max 1 (mappings_of samples.url_a (db (repo samples.fresh_world))) /\
  (List.length (urls (db (repo (snd (CreateShortURL samples.url_a samples.fresh_world)))))
   <= S (List.length (urls (db (repo samples.fresh_world)))))%nat.
Proof.
  apply (CreateShortURL_idempotent samples.url_a samples.fresh_world).
  - intros m [].
  - vm_compute. reflexivity.
Defined.

(** C2 (as stated) fails.  [UpdateLongURL] makes no dedup check, so after
    [url_a] and [url_b] were shortened and the code of [url_b] was updated
    to [url_a], two codes map to [url_a].  Creating [url_a] twice returns
    the same code both times, yet the store holds two mappings for it. *)
Lemma CreateShortURL_one_mapping_counterexample :
  fst (CreateShortURL samples.url_a samples.two_codes_world)
    = Returns (samples.code_1, None) /\
  fst (CreateShortURL samples.url_a
         (snd (CreateShortURL samples.url_a samples.two_codes_world)))
    = Returns (samples.code_1, None) /\
  mappings_of samples.url_a
    (db (repo (snd (CreateShortURL samples.url_a
                      (snd (CreateShortURL samples.url_a samples.two_codes_world))))))
    = 2%nat.
Proof. vm_compute. repeat split. Qed.

(** ** Exhausting the retry budget *)

Lemma generationLoop_saturated (n : nat) (longURL : string)
  (w : World SQLiteShortenerRepo) :
  List.length (candidates n (entropy w)) = n ->
  (forall c, In c (candidates n (entropy w)) ->
             existsb (has_code c) (urls (db (repo w))) = true) ->
  post (generationLoop n longURL) w
    (fun res w' =>
       res = Returns ("", Some ExhaustedRetriesError) /\
       repo w' = repo w /\
       exists new, extends w w' new /\ saves new = 0%nat /\
                   generations new = n /\ store_calls new = n).
Proof.
  revert w. induction n as [|n IH]; intros w Hlen Hall.
  - apply post_ret. repeat split. exists []. repeat split.
  - cbn [generationLoop candidates] in *.
    apply post_bind. unfold post at 1, callGenerateRandomString.
    destruct (utils.GenerateRandomString shortCodeLength (entropy w))
      as [[[code [e|]] | p] src'] eqn:Hg; try discriminate.
    cbn [fst snd]. cbv beta iota.
    apply post_bind. unfold post at 1, callFindByShortCode. cbn [repo entropy trace].
    rewrite SQLite_FindByShortCode_eq.
    destruct (find (has_code code) (urls (db (repo w)))) as [m|] eqn:Hfind.
    + cbn [fst snd].
      eapply post_weaken; [apply IH|].
      * cbn [entropy]. cbn in Hlen. lia.
      * cbn [entropy repo]. intros c Hc. apply Hall. right. exact Hc.
      * cbv beta. cbn [repo].
        intros res w' (Hres & Hrepo & new & Hext & Hs & Hg' & Hc).
        split; [exact Hres|]. split; [exact Hrepo|].
        exists (new ++ [CallFindByShortCode code (LongURL m, None);
                        CallGenerateRandomString shortCodeLength (Returns (code, None))])%list.
        split; [unfold extends in *; rewrite Hext; cbn [trace];
                rewrite <- app_assoc; reflexivity|].
        unfold saves, generations, store_calls in *.
        rewrite !filter_app, !length_app. cbn. lia.
    + exfalso. apply find_none_existsb in Hfind.
      rewrite (Hall code (or_introl eq_refl)) in Hfind. discriminate.
Qed.

(** C6.  If the long URL is valid and has no mapping, and each of the five
    codes the generator yields is already in the store, [CreateShortURL]
    fails with [ExhaustedRetriesError]; it has generated exactly five times,
    made no [SaveMapping] call (its store calls are the reverse lookup and
    the five probes), and left the store as it was. *)
Theorem CreateShortURL_exhausts_retries
  (longURL : string) (w : World SQLiteShortenerRepo) :
  ValidateURL longURL = true ->
  mappings_of longURL (db (repo w)) = 0%nat ->
  List.length (candidates maxGenerationRetries (entropy w)) = maxGenerationRetries ->
  (forall c, In c (candidates maxGenerationRetries (entropy w)) ->
             existsb (has_code c) (urls (db (repo w))) = true) ->
  fst (CreateShortURL longURL w) = Returns ("", Some ExhaustedRetriesError) /\
  repo (snd (CreateShortURL longURL w)) = repo w /\
  exists new,
    extends w (snd (CreateShortURL longURL w)) new /\
    saves new = 0%nat /\ generations new = 5%nat /\ store_calls new = 6%nat.
Proof.
  intros Hvalid Hnone Hlen Hall.
  assert (Hfind : find (has_url longURL) (urls (db (repo w))) = None).
  { apply find_none_filter. unfold mappings_of in Hnone.
    apply length_zero_iff_nil. exact Hnone. }
  change (post (CreateShortURL longURL) w
            (fun res w' =>
               res = Returns ("", Some ExhaustedRetriesError) /\
               repo w' = repo w /\
               exists new, extends w w' new /\ saves new = 0%nat /\
                           generations new = 5%nat /\ store_calls new = 6%nat)).
  unfold CreateShortURL. rewrite Hvalid. cbn [negb].
  apply post_bind. unfold post at 1, callFindByLongURL.
  rewrite SQLite_FindByLongURL_eq, Hfind. cbn [fst snd String.eqb negb].
  eapply post_weaken; [apply generationLoop_saturated; cbn [entropy repo]; assumption|].
  cbv beta. cbn [repo].
  intros res w' (Hres & Hrepo & new & Hext & Hs & Hg & Hc).
  split; [exact Hres|]. split; [exact Hrepo|].
  exists (new ++ [CallFindByLongURL longURL ("", None)])%list.
  split; [unfold extends in *; rewrite Hext; cbn [trace];
          rewrite <- app_assoc; reflexivity|].
  unfold saves, generations, store_calls, maxGenerationRetries in *.
  rewrite !filter_app, !length_app. cbn. lia.
Qed.

Lemma CreateShortURL_exhausts_retries_witness :
  fst (CreateShortURL samples.url_a samples.saturated_world)
    = Returns ("", Some ExhaustedRetriesError) /\
  repo (snd (CreateShortURL samples.url_a samples.saturated_world))
    = repo samples.saturated_world /\
  exists new,
    extends samples.saturated_world
      (snd (CreateShortURL samples.url_a samples.saturated_world)) new /\
    saves new = 0%nat /\ generations new = 5%nat /\ store_calls new = 6%nat.
Proof.
  apply (CreateShortURL_exhausts_retries samples.url_a samples.saturated_world).
  - vm_compute. reflexivity.
  - vm_compute. reflexivity.
  - vm_compute. reflexivity.
  - intros c Hc. vm_compute in Hc.
    repeat (destruct Hc as [<- | Hc]; [vm_compute; reflexivity|]). contradiction.
Defined.

(** ** URL validation *)

Lemma prefix_split (p s : string) :
  String.prefix p s = true -> exists t, s = p ++ t.
Proof.
  revert s. induction p as [|a p IH]; intros s Hp; cbn in *.
  - exists s. reflexivity.
  - destruct s as [|b s]; cbn in Hp; [discriminate|].
    destruct (ascii_dec a b) as [-> | _]; [|discriminate].
    destruct (IH s Hp) as [t ->]. exists t. reflexivity.
Qed.




Lemma upto_append (pre s : string) : strings.upto (pre ++ s) (String.length pre) = pre.
Proof.
  unfold strings.upto. induction pre as [|a pre IH]; cbn.
  - destruct s; reflexivity.
  - rewrite IH. reflexivity.
Qed.






(** *** The scheme is matched without regard to case *)



















(** ** Update and delete on the SQLite repository *)

Lemma find_code_after_update (shortCode newLongURL : string) (rows : list URLMapping) :
  find (has_code shortCode)
    (map (fun m => if has_code shortCode m
                   then mkURLMapping (ID m) (ShortCode m) newLongURL (CreatedAt m)
                   else m) rows)
  = option_map
      (fun m => mkURLMapping (ID m) (ShortCode m) newLongURL (CreatedAt m))
      (find (has_code shortCode) rows).
Proof.
  induction rows as [|x rows IH]; cbn [map find option_map]; [reflexivity|].
  destruct (has_code shortCode x) eqn:Hx.
  - unfold has_code at 1. cbn [ShortCode]. unfold has_code in Hx. rewrite Hx. reflexivity.
  - rewrite Hx. exact IH.
Qed.

Lemma update_no_match (shortCode newLongURL : string) (rows : list URLMapping) :
  find (has_code shortCode) rows = None ->
  map (fun m => if has_code shortCode m
                then mkURLMapping (ID m) (ShortCode m) newLongURL (CreatedAt m)
                else m) rows = rows.
Proof.
  induction rows as [|x rows IH]; cbn [map find]; [reflexivity|].
  destruct (has_code shortCode x); [discriminate|].
  intros Hnone. rewrite (IH Hnone). reflexivity.
Qed.

Lemma delete_no_match (shortCode : string) (rows : list URLMapping) :
  find (has_code shortCode) rows = None ->
  filter (fun m => negb (has_code shortCode m)) rows = rows.
Proof.
  induction rows as [|x rows IH]; cbn [filter find]; [reflexivity|].
  destruct (has_code shortCode x); [discriminate|].
  intros Hnone. cbn [negb]. rewrite (IH Hnone). reflexivity.
Qed.

Lemma find_code_after_delete (shortCode : string) (rows : list URLMapping) :
  find (has_code shortCode) (filter (fun m => negb (has_code shortCode m)) rows) = None.
Proof.
  induction rows as [|x rows IH]; cbn [filter find]; [reflexivity|].
  destruct (has_code shortCode x) eqn:Hx; cbn [negb]; [exact IH|].
  cbn [find]. rewrite Hx. exact IH.
Qed.

Lemma rows_affected_zero (shortCode : string) (rows : list URLMapping) :
  (Z.of_nat (List.length (filter (has_code shortCode) rows)) =? 0)
  = match find (has_code shortCode) rows with Some _ => false | None => true end.
Proof.
  destruct (find (has_code shortCode) rows) as [m|] eqn:Hfind.
  - pose proof (find_some_filter_length _ _ _ Hfind).
    destruct (Z.eqb_spec (Z.of_nat (List.length (filter (has_code shortCode) rows))) 0);
      [lia | reflexivity].
  - apply find_none_filter in Hfind. rewrite Hfind. reflexivity.
Qed.

(** X1.  [UpdateLongURL] rejects an invalid new URL without touching the
    store; for a valid one it fails with [ErrNotFound] when no row has the
    code, leaving the rows as they were, and otherwise succeeds, and
    [FindByShortCode] then returns the new URL. *)
Theorem UpdateLongURL_reflects
  (shortCode newLongURL : string) (w : World SQLiteShortenerRepo) :
  if ValidateURL newLongURL then
    match find (has_code shortCode) (urls (db (repo w))) with
    | None =>
        fst (services.UpdateLongURL shortCode newLongURL w) = Returns (Some ErrNotFound) /\
        urls (db (repo (snd (services.UpdateLongURL shortCode newLongURL w))))
        = urls (db (repo w))
    | Some _ =>
        fst (services.UpdateLongURL shortCode newLongURL w) = Returns None /\
        fst (FindByShortCode shortCode
               (repo (snd (services.UpdateLongURL shortCode newLongURL w))))
        = (newLongURL, None)
    end
  else
    services.UpdateLongURL shortCode newLongURL w
    = (Returns (Some (errorsNew "invalid new URL format provided")), w).
Proof.
  unfold services.UpdateLongURL.
  destruct (ValidateURL newLongURL); cbn [negb]; [|reflexivity].
  unfold bind, callUpdateLongURL. cbn [repositories.UpdateLongURL
    SQLiteShortenerRepo_is_repository].
  unfold SQLite_UpdateLongURL, exec_update. rewrite rows_affected_zero.
  destruct (find (has_code shortCode) (urls (db (repo w)))) as [m|] eqn:Hfind.
  - cbn. split; [reflexivity|].
    unfold SQLite_FindByShortCode, query_long_url. cbn [db urls].
    rewrite find_code_after_update, Hfind. reflexivity.
  - cbn. split; [reflexivity|]. apply update_no_match. exact Hfind.
Qed.

(** X2.  [DeleteMapping] fails with [ErrNotFound] when no row has the code,
    leaving the rows as they were; otherwise it succeeds, and
    [FindByShortCode] on that code then fails with [ErrNotFound]. *)
Theorem DeleteMapping_removes (shortCode : string) (w : World SQLiteShortenerRepo) :
  match find (has_code shortCode) (urls (db (repo w))) with
  | None =>
      fst (services.DeleteMapping shortCode w) = Returns (Some ErrNotFound) /\
      urls (db (repo (snd (services.DeleteMapping shortCode w)))) = urls (db (repo w))
  | Some _ =>
      fst (services.DeleteMapping shortCode w) = Returns None /\
      fst (FindByShortCode shortCode (repo (snd (services.DeleteMapping shortCode w))))
      = ("", Some ErrNotFound)
  end.
Proof.
  unfold services.DeleteMapping, bind, callDeleteMapping.
  cbn [repositories.DeleteMapping SQLiteShortenerRepo_is_repository].
  unfold SQLite_DeleteMapping, exec_delete. rewrite rows_affected_zero.
  destruct (find (has_code shortCode) (urls (db (repo w)))) as [m|] eqn:Hfind.
  - cbn. split; [reflexivity|].
    unfold SQLite_FindByShortCode, query_long_url. cbn [db urls].
    rewrite find_code_after_delete. reflexivity.
  - cbn. split; [reflexivity|]. apply delete_no_match. exact Hfind.
Qed.

(** X3.  Run alone against the SQLite store, [CreateShortURL] does not panic
    and the UNIQUE constraint never fires: the insert follows a probe that
    found the code absent.  The request returns a non-empty code, or fails
    and leaves the store as it was, with [InvalidURLError],
    [ExhaustedRetriesError], the generation error, or the save error of an
    insert that SQLite refused because AUTOINCREMENT has used the largest
    rowid (SQLITE_FULL); while rowids are left, the last does not occur.
    Failures of the driver are outside the model of the store. *)
Theorem CreateShortURL_sequential_results
  (longURL : string) (w : World SQLiteShortenerRepo) :
  match fst (CreateShortURL longURL w) with
  | Returns (c, None) => c <> ""
  | Returns (c, Some e) =>
      c = "" /\ repo (snd (CreateShortURL longURL w)) = repo w /\
      (e = InvalidURLError \/ e = ExhaustedRetriesError \/
       e = GenerationError randErr \/
       (e = SaveStorageError sqliteErrFull /\
        MAX_ROWID <= largest_rowid (db (repo w))))
  | Panics _ => False
  end /\
  (forall c,
      fst (CreateShortURL longURL w)
      <> Returns (c, Some (SaveStorageError sqliteErrConstraintUnique))) /\
  (largest_rowid (db (repo w)) < MAX_ROWID ->
   forall c e,
     fst (CreateShortURL longURL w) = Returns (c, Some e) ->
     e = InvalidURLError \/ e = ExhaustedRetriesError \/ e = GenerationError randErr).
Proof.
  pose proof (CreateShortURL_sqlite longURL w) as Hout.
  unfold post, create_outcome in Hout.
  destruct (fst (CreateShortURL longURL w)) as [[c [e|]] | p].
  - destruct Hout as (Hc & Hrepo & He).
    split; [auto|]. split.
    + intros c' E. injection E as _ ->.
      destruct He as [He | [He | [He | [He _]]]]; discriminate He.
    + intros Hroom c' e' E. injection E as _ <-.
      destruct He as [He | [He | [He | [_ Hfull]]]]; auto. lia.
  - destruct Hout as [Hc _].
    split; [exact Hc|]. split; [discriminate | intros _ c' e' E; discriminate E].
  - contradiction.
Qed.

Lemma CreateShortURL_sequential_results_witness :
  largest_rowid (db (repo samples.fresh_world)) < MAX_ROWID /\
  forall c e,
    fst (CreateShortURL samples.url_a samples.fresh_world) = Returns (c, Some e) ->
    e = InvalidURLError \/ e = ExhaustedRetriesError \/ e = GenerationError randErr.
Proof.
  assert (Hroom : largest_rowid (db (repo samples.fresh_world)) < MAX_ROWID)
    by (vm_compute; reflexivity).
  split; [exact Hroom|].
  destruct (CreateShortURL_sequential_results samples.url_a samples.fresh_world)
    as (_ & _ & Hleft).
  exact (Hleft Hroom).
Defined.

(** When AUTOINCREMENT has used the largest rowid, the insert is refused and
    the request fails with the save error; the store is as it was. *)
Lemma CreateShortURL_rowid_exhausted_example :
  fst (CreateShortURL samples.url_a samples.full_world)
  = Returns ("", Some (SaveStorageError sqliteErrFull)) /\
  repo (snd (CreateShortURL samples.url_a samples.full_world))
  = repo samples.full_world.
Proof. vm_compute. split; reflexivity. Qed.

(** ** The calls of a creation request, over any repository *)


(** Closes the bounds and the insert discipline for calls that hold no
    insert. *)
Ltac no_insert :=
  split; [cbn; lia|]; split; [cbn; lia|]; split; [cbn; lia|];
  let Hin := fresh "Hin" in
  intros ? ? ? Hin; cbn in Hin; intuition discriminate.

Section CallDiscipline.

Context {R : Type} `{ShortenerRepository R}.

Lemma generationLoop_calls (remaining : nat) (longURL : string) (w : World R) :
  post (generationLoop remaining longURL) w
    (fun _ w' =>
       exists new, extends w w' new /\
                   (generations new <= remaining)%nat /\
                   (store_calls new <= 2 * generations new)%nat /\
                   (saves new <= 1)%nat /\
                   insert_follows_probe longURL new).
Proof.
  revert w. induction remaining as [|n IH]; intro w; cbn [generationLoop].
  - apply post_ret. exists []. split; [reflexivity|]. no_insert.
  - apply post_bind, post_callGenerateRandomString.
    + intros code src' Hlen Hsafe _. cbv beta iota.
      apply post_bind. unfold post at 1, callFindByShortCode. cbn [repo entropy trace].
      destruct (FindByShortCode code (repo w)) as [[found repoErr] r1]. cbn [fst snd].
      destruct repoErr as [re|].
      * destruct (errors_Is_ErrNotFound re) eqn:Hnf.
        -- apply post_bind. unfold post at 1, callSaveMapping. cbn [repo entropy trace].
           destruct (SaveMapping code longURL r1) as [[id saveErr] r2]. cbn [fst snd].
           assert (Hshape : insert_follows_probe longURL
                     [CallSaveMapping code longURL (id, saveErr);
                      CallFindByShortCode code (found, Some re);
                      CallGenerateRandomString shortCodeLength (Returns (code, None))]).
           { intros c u res [E | [E | [E | []]]]; try discriminate.
             injection E as <- <- <-. split; [reflexivity|].
             split; [split; assumption|].
             exists found, re, []. repeat split. exact Hnf. }
           destruct saveErr as [se|]; apply post_ret; eexists;
             (split; [unfold extends; cbn [trace]; instantiate (1 := [_; _; _]);
                      reflexivity|]);
             (split; [cbn; lia|]); (split; [cbn; lia|]); (split; [cbn; lia|]);
             exact Hshape.
        -- apply post_ret. eexists. split;
             [unfold extends; cbn [trace]; instantiate (1 := [_; _]); reflexivity|].
           no_insert.
      * eapply post_weaken; [apply IH|]. cbv beta.
        intros _ w' (new & Hext & Hgen & Hst & Hsv & Hshape).
        exists (new ++ [CallFindByShortCode code (found, None);
                        CallGenerateRandomString 7 (Returns (code, None))])%list.
        split; [unfold extends in *; rewrite Hext; cbn [trace];
                rewrite <- app_assoc; reflexivity|].
        unfold generations, store_calls, saves in *.
        rewrite !filter_app, !length_app. cbn.
        split; [lia|]. split; [lia|]. split; [lia|].
        intros c u res Hin. apply in_app_or in Hin.
        destruct Hin as [Hin | [E | [E | []]]]; try discriminate.
        destruct (Hshape c u res Hin) as (Hu & Hwf & f & e & older & Hnf & Hnew & Hold).
        split; [exact Hu|]. split; [exact Hwf|].
        exists f, e,
          (older ++ [CallFindByShortCode code (found, None);
                     CallGenerateRandomString 7 (Returns (code, None))])%list.
        split; [exact Hnf|]. split; [rewrite Hnew; reflexivity|].
        unfold saves in *. rewrite filter_app, length_app. cbn. lia.
    + intros _. cbv beta iota. apply post_ret. eexists. split;
        [unfold extends; cbn [trace]; instantiate (1 := [_]); reflexivity|].
      no_insert.
Qed.

(** The calls of [CreateShortURL]: none for a rejected URL; else the
    reverse lookup and then the loop's. *)
Lemma CreateShortURL_calls (longURL : string) (w : World R) :
  post (CreateShortURL longURL) w
    (fun _ w' =>
       exists new, extends w w' new /\ bounded_calls longURL new /\
                   (new <> [] -> ValidateURL longURL = true)).
Proof.
  assert (Hstop : forall (a : string * option error) tr0 r1 existing err,
             (tr0 = [] \/
              tr0 = [CallFindByLongURL longURL (existing, err)] /\
              ValidateURL longURL = true) ->
             post (ret a) (mkWorld r1 (entropy w) (tr0 ++ trace w)%list)
               (fun _ w' =>
                  exists new, extends w w' new /\ bounded_calls longURL new /\
                              (new <> [] -> ValidateURL longURL = true))).
  { intros a tr0 r1 existing err Htr. apply post_ret. exists tr0.
    split; [reflexivity|].
    destruct Htr as [-> | [-> Hv]]; (split; [no_insert|]).
    - intros Hne. contradiction Hne. reflexivity.
    - intros _. exact Hv. }
  unfold CreateShortURL.
  destruct (ValidateURL longURL) eqn:Hvalid; cbn [negb].
  2:{ destruct w as [r0 e0 t0]. apply (Hstop _ [] r0 "" None). left. reflexivity. }
  apply post_bind. unfold post at 1, callFindByLongURL.
  destruct (FindByLongURL longURL (repo w)) as [[existing err] r1]. cbn [fst snd].
  assert (Hloop : post (generationLoop maxGenerationRetries longURL)
                    (mkWorld r1 (entropy w)
                       (CallFindByLongURL longURL (existing, err) :: trace w))
                    (fun _ w' =>
                       exists new, extends w w' new /\ bounded_calls longURL new /\
                                   (new <> [] -> true = true))).
  { eapply post_weaken; [apply generationLoop_calls|]. cbv beta.
    intros _ w' (new & Hext & Hgen & Hst & Hsv & Hshape).
    exists (new ++ [CallFindByLongURL longURL (existing, err)])%list.
    split; [unfold extends in *; rewrite Hext; cbn [trace];
            rewrite <- app_assoc; reflexivity|].
    split; [|reflexivity].
    unfold bounded_calls, generations, store_calls, saves, maxGenerationRetries in *.
    rewrite !filter_app, !length_app. cbn.
    split; [lia|]. split; [lia|]. split; [lia|].
    intros c u res Hin. apply in_app_or in Hin.
    destruct Hin as [Hin | [E | []]]; [|discriminate].
    destruct (Hshape c u res Hin) as (Hu & Hwf & f & e & older & Hnf & Hnew & Hold).
    split; [exact Hu|]. split; [exact Hwf|].
    exists f, e, (older ++ [CallFindByLongURL longURL (existing, err)])%list.
    split; [exact Hnf|]. split; [rewrite Hnew; reflexivity|].
    unfold saves in *. rewrite filter_app, length_app. cbn. lia. }
  assert (Hret : forall a : string * option error,
             post (ret a)
               (mkWorld r1 (entropy w)
                  (CallFindByLongURL longURL (existing, err) :: trace w))
               (fun _ w' =>
                  exists new, extends w w' new /\ bounded_calls longURL new /\
                              (new <> [] -> true = true))).
  { intros a.
    pose proof (Hstop a [CallFindByLongURL longURL (existing, err)] r1 existing err)
      as Hs.
    apply Hs. right. split; reflexivity. }
  destruct err as [e|].
  - destruct (errors_Is_ErrNotFound e); cbn [negb]; [|apply Hret].
    destruct (String.eqb existing ""); cbn [negb]; [exact Hloop | apply Hret].
  - destruct (String.eqb existing ""); cbn [negb]; [exact Hloop | apply Hret].
Qed.

(** X4.  Whatever the repository does, one [CreateShortURL] request calls
    the generator at most five times and the store at most eleven times
    (the reverse lookup, at most five probes, an insert), inserts at most
    once, and any insert is its last store call: it is for the requested
    URL and for the code just generated, seven URL-safe characters, whose
    probe reported not-found. *)
Theorem CreateShortURL_call_discipline (longURL : string) (w : World R) :
  exists new,
    extends w (snd (CreateShortURL longURL w)) new /\
    (generations new <= 5)%nat /\
    (store_calls new <= 11)%nat /\
    (saves new <= 1)%nat /\
    forall c u res,
      In (CallSaveMapping c u res) new ->
      u = longURL /\ wellformed_code c /\
      exists found e older,
        errors_Is_ErrNotFound e = true /\
        new = CallSaveMapping c longURL res
                :: CallFindByShortCode c (found, Some e)
                :: CallGenerateRandomString shortCodeLength (Returns (c, None))
                :: older /\
        saves older = 0%nat.
Proof.
  destruct (CreateShortURL_calls longURL w) as (new & Hext & Hb & _).
  exists new. split; [exact Hext | exact Hb].
Qed.

End CallDiscipline.

(** ** The format of the stored codes *)

Lemma CreateShortURL_valid
  (longURL : string) (w w' : World SQLiteShortenerRepo) (code : string) :
  CreateShortURL longURL w = (Returns (code, None), w') ->
  ValidateURL longURL = true.
Proof.
  intros Hrun. destruct (ValidateURL longURL) eqn:E; [reflexivity|].
  rewrite (CreateShortURL_rejects longURL w E) in Hrun. discriminate.
Qed.

(** From a store of well-formed codes, the code that [CreateShortURL]
    returns is well-formed and is, afterwards, the code of a row for the
    URL; the store gains that row or is unchanged. *)
Lemma CreateShortURL_sqlite_code
  (longURL : string) (w w' : World SQLiteShortenerRepo) (code : string) :
  Forall wellformed_code (codes w) ->
  CreateShortURL longURL w = (Returns (code, None), w') ->
  wellformed_code code /\
  (codes w' = codes w \/ codes w' = (codes w ++ [code])%list).
Proof.
  intros Hwf Hrun.
  pose proof (CreateShortURL_valid _ _ _ _ Hrun) as Hvalid.
  pose proof (post_run _ _ _ _ _ (CreateShortURL_sqlite longURL w) Hrun) as Hout.
  pose proof (post_run _ _ _ _ _ (CreateShortURL_post longURL w Hvalid) Hrun) as Hpost.
  cbn in Hout. destruct Hout as [_ [(m & Hfind & Hcode & Hrepo & _) | (Hnone & _ & Hrepo)]].
  - split; [|left; unfold codes; rewrite Hrepo; reflexivity].
    apply find_some in Hfind. destruct Hfind as [Hin _].
    rewrite Forall_forall in Hwf. apply Hwf. unfold codes.
    rewrite <- Hcode. apply in_map. exact Hin.
  - destruct Hpost as (new & _ & Hfmt & _).
    split; [exact (Hfmt Hnone code eq_refl)|].
    right. unfold codes. rewrite Hrepo. cbn [db inserted urls].
    rewrite map_app. reflexivity.
Qed.

Lemma serve_wellformed (op : Operation) (w : World SQLiteShortenerRepo) :
  Forall wellformed_code (codes w) -> Forall wellformed_code (codes (serve op w)).
Proof.
  intros Hwf. pose proof (serve_codes op w) as Hcodes.
  destruct op as [longURL | shortCode newLongURL | shortCode].
  - cbn [serve] in *.
    destruct (CreateShortURL longURL w) as [[[c [e|]] | p] w'] eqn:Hrun; cbn [snd] in *.
    + pose proof (post_run _ _ _ _ _ (CreateShortURL_sqlite longURL w) Hrun) as Hout.
      cbn in Hout. destruct Hout as (_ & Hrepo & _).
      unfold codes in *. rewrite Hrepo. exact Hwf.
    + destruct (CreateShortURL_sqlite_code _ _ _ _ Hwf Hrun) as [Hc [-> | ->]];
        [exact Hwf|].
      apply Forall_app. split; [exact Hwf | constructor; [exact Hc | constructor]].
    + pose proof (post_run _ _ _ _ _ (CreateShortURL_sqlite longURL w) Hrun) as Hout.
      contradiction.
  - rewrite Forall_forall in *. intros c Hc. apply Hwf, Hcodes, Hc.
  - rewrite Forall_forall in *. intros c Hc. apply Hwf, Hcodes, Hc.
Qed.

(** X5.  The store only ever holds codes of the generator's format: if every
    short code in the store has seven URL-safe characters, so has every
    short code after any sequence of [CreateShortURL], [UpdateLongURL] and
    [DeleteMapping] requests. *)
Theorem serve_all_wellformed (ops : list Operation) (w : World SQLiteShortenerRepo) :
  Forall wellformed_code (codes w) ->
  Forall wellformed_code (codes (serve_all ops w)).
Proof.
  revert w. unfold serve_all.
  induction ops as [|op ops IH]; intros w Hwf; cbn [fold_left]; [exact Hwf|].
  apply IH, serve_wellformed, Hwf.
Qed.

Lemma serve_all_wellformed_witness :
  Forall wellformed_code (codes samples.two_codes_world).
Proof.
  apply (serve_all_wellformed
           [OpCreateShortURL samples.url_a;
            OpCreateShortURL samples.url_b;
            OpUpdateLongURL samples.code_2 samples.url_a]
           samples.fresh_world).
  constructor.
Defined.

(** ** Paths and code segments *)

Lemma substring0_all (s : string) : substring 0 (String.length s) s = s.
Proof. induction s as [|a s IH]; cbn; [reflexivity | rewrite IH; reflexivity]. Qed.

Lemma from_app (p s : string) : strings.from (p ++ s) (String.length p) = s.
Proof.
  unfold strings.from. induction p as [|a p IH]; cbn.
  - rewrite Nat.sub_0_r. apply substring0_all.
  - exact IH.
Qed.

Lemma HasPrefix_app (p s : string) : strings.HasPrefix (p ++ s) p = true.
Proof.
  unfold strings.HasPrefix. induction p as [|a p IH]; cbn.
  - destruct s; reflexivity.
  - destruct (ascii_dec a a) as [_ | Hne]; [exact IH | contradiction Hne; reflexivity].
Qed.

Lemma TrimPrefix_app (p s : string) : strings.TrimPrefix (p ++ s) p = s.
Proof. unfold strings.TrimPrefix. rewrite HasPrefix_app. apply from_app. Qed.

Lemma Contains_app_l (p s : string) (c : ascii) :
  strings.Contains p c = true -> strings.Contains (p ++ s) c = true.
Proof.
  unfold strings.Contains. induction p as [|a p IH]; cbn; [discriminate|].
  destruct (Ascii.eqb a c); [reflexivity|].
  destruct (strings.IndexByte p c); [|discriminate].
  intros _. specialize (IH eq_refl).
  destruct (strings.IndexByte (p ++ s) c); [reflexivity | discriminate].
Qed.

(** A segment without a slash does not start with a prefix that has one. *)
Lemma slash_free_prefix (code p : string) :
  strings.Contains p "/" = true -> strings.Contains code "/" = false ->
  strings.HasPrefix code p = false.
Proof.
  intros Hp Hcode. destruct (strings.HasPrefix code p) eqn:E; [|reflexivity].
  destruct (prefix_split _ _ E) as [t ->].
  rewrite (Contains_app_l _ t _ Hp) in Hcode. discriminate.
Qed.

Lemma urlsafe_slash_free (c : string) :
  base64.all_urlsafe c = true -> strings.Contains c "/" = false.
Proof.
  unfold strings.Contains. induction c as [|a c IH]; cbn; [reflexivity|].
  intros Hs. apply andb_true_iff in Hs. destruct Hs as [Ha Hc].
  destruct (Ascii.eqb_spec a "/") as [-> | _]; [vm_compute in Ha; discriminate|].
  specialize (IH Hc). destruct (strings.IndexByte c "/"); [discriminate | reflexivity].
Qed.

Lemma wellformed_segment (c : string) :
  wellformed_code c -> c <> "" /\ strings.Contains c "/" = false.
Proof.
  intros [Hlen Hsafe]. split; [intros ->; discriminate|].
  apply urlsafe_slash_free, Hsafe.
Qed.

(** ** The routes of [RegisterRoutes] *)

Lemma append_assoc (a b c : string) : (a ++ b) ++ c = a ++ b ++ c.
Proof. induction a as [|x a IH]; cbn; [reflexivity | rewrite IH; reflexivity]. Qed.

Lemma from_slash (s : string) : strings.from ("/" ++ s) 1 = s.
Proof. exact (from_app "/" s). Qed.

Lemma slash_free_cons (c : ascii) (s : string) :
  strings.Contains (String c s) "/" = false ->
  Ascii.eqb c "/" = false /\ strings.Contains s "/" = false.
Proof.
  unfold strings.Contains. cbn [strings.IndexByte].
  destruct (Ascii.eqb c "/"); [discriminate|].
  destruct (strings.IndexByte s "/"); [discriminate|]. auto.
Qed.

Lemma IndexByte_slash_free (code : string) :
  strings.Contains code "/" = false -> strings.IndexByte code "/" = None.
Proof.
  unfold strings.Contains. destruct (strings.IndexByte code "/"); [discriminate | reflexivity].
Qed.

Lemma IndexByte_first_slash (code rest : string) :
  strings.Contains code "/" = false ->
  strings.IndexByte (code ++ String "/" rest) "/" = Some (String.length code).
Proof.
  induction code as [|c code IH]; intros Hfree; [reflexivity|].
  destruct (slash_free_cons c code Hfree) as [Hc Hcode].
  cbn [append strings.IndexByte String.length]. rewrite Hc, (IH Hcode). reflexivity.
Qed.

Lemma Split_slash_free (code : string) :
  strings.Contains code "/" = false -> nethttp.Split code = [code].
Proof.
  induction code as [|c code IH]; intros Hfree; [reflexivity|].
  destruct (slash_free_cons c code Hfree) as [Hc Hcode].
  cbn [nethttp.Split]. rewrite Hc, (IH Hcode). reflexivity.
Qed.

Lemma Split_first_slash (code rest : string) :
  strings.Contains code "/" = false ->
  nethttp.Split (code ++ String "/" rest) = code :: nethttp.Split rest.
Proof.
  induction code as [|c code IH]; intros Hfree; [reflexivity|].
  destruct (slash_free_cons c code Hfree) as [Hc Hcode].
  cbn [append nethttp.Split]. rewrite Hc, (IH Hcode). reflexivity.
Qed.

Lemma CountByte_app (a b : string) (c : ascii) :
  strings.CountByte (a ++ b) c = (strings.CountByte a c + strings.CountByte b c)%nat.
Proof.
  induction a as [|x a IH]; cbn [append strings.CountByte]; [reflexivity|].
  rewrite IH. lia.
Qed.

Lemma CountByte_slash_free (code : string) :
  strings.Contains code "/" = false -> strings.CountByte code "/" = 0%nat.
Proof.
  induction code as [|c code IH]; intros Hfree; [reflexivity|].
  destruct (slash_free_cons c code Hfree) as [Hc Hcode].
  cbn [strings.CountByte]. rewrite Hc, (IH Hcode). reflexivity.
Qed.

Lemma HasSuffixByte_cons (a : ascii) (s : string) (c : ascii) :
  s <> "" -> strings.HasSuffixByte (String a s) c = strings.HasSuffixByte s c.
Proof.
  intros Hne. destruct s as [|b s]; [contradiction Hne; reflexivity|]. reflexivity.
Qed.

Lemma HasSuffixByte_app (p s : string) (c : ascii) :
  s <> "" -> strings.HasSuffixByte (p ++ s) c = strings.HasSuffixByte s c.
Proof.
  intros Hne. induction p as [|a p IH]; [reflexivity|].
  cbn [append]. rewrite HasSuffixByte_cons; [exact IH|].
  destruct p; [exact Hne | discriminate].
Qed.

Lemma HasSuffixByte_slash_free (code : string) :
  strings.Contains code "/" = false -> strings.HasSuffixByte code "/" = false.
Proof.
  induction code as [|c code IH]; intros Hfree; [reflexivity|].
  destruct (slash_free_cons c code Hfree) as [Hc Hcode].
  destruct code as [|b code]; [cbn; exact Hc|].
  rewrite HasSuffixByte_cons by discriminate. apply IH, Hcode.
Qed.

Lemma HasSuffixByte_subtree (dir code : string) :
  code <> "" -> strings.Contains code "/" = false ->
  strings.HasSuffixByte ("/" ++ dir ++ String "/" code) "/" = false.
Proof.
  intros Hne Hfree.
  rewrite (HasSuffixByte_app "/" (dir ++ String "/" code) "/")
    by (destruct dir; discriminate).
  rewrite (HasSuffixByte_app dir (String "/" code) "/") by discriminate.
  rewrite (HasSuffixByte_cons "/" code "/" Hne).
  apply HasSuffixByte_slash_free, Hfree.
Qed.

(** A path element that is a name stays as it is when the path is cleaned. *)
Lemma Clean_element_name (out : list string) (elem : string) :
  elem <> "" -> elem <> "." -> elem <> ".." ->
  nethttp.Clean_element out elem = elem :: out.
Proof.
  intros H0 H1 H2. unfold nethttp.Clean_element.
  destruct (String.eqb_spec elem ""); [contradiction|].
  destruct (String.eqb_spec elem "."); [contradiction|].
  destruct (String.eqb_spec elem ".."); [contradiction|]. reflexivity.
Qed.

Lemma cleanPath_segment (code : string) :
  code <> "" -> strings.Contains code "/" = false -> code <> "." -> code <> ".." ->
  nethttp.cleanPath ("/" ++ code) = "/" ++ code.
Proof.
  intros Hne Hfree Hdot Hdots. unfold nethttp.cleanPath.
  change (String.eqb ("/" ++ code) "") with false. cbv iota.
  rewrite (HasPrefix_app "/" code). cbv zeta.
  unfold nethttp.Clean. rewrite (from_slash code), (Split_slash_free code Hfree).
  cbn [fold_left]. rewrite Clean_element_name by assumption.
  cbn [rev app nethttp.Join].
  rewrite (HasSuffixByte_app "/" code "/" Hne), (HasSuffixByte_slash_free code Hfree).
  reflexivity.
Qed.

Lemma cleanPath_subtree (dir code : string) :
  dir <> "" -> strings.Contains dir "/" = false -> dir <> "." -> dir <> ".." ->
  code <> "" -> strings.Contains code "/" = false -> code <> "." -> code <> ".." ->
  nethttp.cleanPath ("/" ++ dir ++ "/" ++ code) = "/" ++ dir ++ "/" ++ code.
Proof.
  intros Hd0 Hdfree Hd1 Hd2 Hne Hfree Hdot Hdots. unfold nethttp.cleanPath.
  change (String.eqb ("/" ++ dir ++ "/" ++ code) "") with false. cbv iota.
  rewrite (HasPrefix_app "/" (dir ++ "/" ++ code)). cbv zeta.
  unfold nethttp.Clean. rewrite (from_slash (dir ++ "/" ++ code)).
  change (dir ++ "/" ++ code) with (dir ++ String "/" code).
  rewrite (Split_first_slash dir code Hdfree), (Split_slash_free code Hfree).
  cbn [fold_left]. rewrite !Clean_element_name by assumption.
  cbn [rev app nethttp.Join].
  rewrite (HasSuffixByte_subtree dir code Hne Hfree). reflexivity.
Qed.

Lemma firstSegment_last (code : string) :
  code <> "" -> strings.Contains code "/" = false ->
  nethttp.firstSegment ("/" ++ code) = (code, "").
Proof.
  intros Hne Hfree. unfold nethttp.firstSegment.
  replace (String.eqb ("/" ++ code) "/") with false
    by (destruct code; [contradiction Hne; reflexivity | reflexivity]).
  rewrite (from_slash code), (IndexByte_slash_free code Hfree). reflexivity.
Qed.

Lemma firstSegment_inner (code rest : string) :
  strings.Contains code "/" = false ->
  nethttp.firstSegment ("/" ++ code ++ String "/" rest) = (code, String "/" rest).
Proof.
  intros Hfree. unfold nethttp.firstSegment.
  replace (String.eqb ("/" ++ code ++ String "/" rest) "/") with false
    by (destruct code; reflexivity).
  rewrite (from_slash (code ++ String "/" rest)).
  rewrite (IndexByte_first_slash code rest Hfree).
  rewrite upto_append, from_app. reflexivity.
Qed.

Section Matching.

Variable H : Type.

Lemma matchPath_step (fuel : nat) (n : nethttp.routingNode H) (path : string) :
  path <> "" ->
  nethttp.matchPath H (S fuel) n path =
    match nethttp.matchPath H fuel
            (nethttp.findChild H (fst (nethttp.firstSegment path)) n)
            (snd (nethttp.firstSegment path)) with
    | Some r => Some r
    | None => nethttp.multiChild H n
    end.
Proof.
  intros Hne. cbn [nethttp.matchPath].
  destruct (String.eqb_spec path ""); [contradiction|].
  destruct (nethttp.firstSegment path). reflexivity.
Qed.

Lemma matchPath_nil (fuel : nat) (path : string) :
  nethttp.matchPath H fuel [] path = None.
Proof.
  revert path. induction fuel as [|fuel IH]; intros path; [reflexivity|].
  cbn [nethttp.matchPath]. destruct (String.eqb path ""); [reflexivity|].
  destruct (nethttp.firstSegment path) as [seg rest].
  cbn [nethttp.findChild flat_map]. rewrite IH. reflexivity.
Qed.

End Matching.

Section Routes.

Import deliveries.

Context {R : Type} `{ShortenerRepository R}.

Variable baseURL : string.
Variable entropyErrorText : string.

(** The routes with their patterns parsed. *)
Lemma RegisterRoutes_parsed :
  RegisterRoutes baseURL entropyErrorText =
  [ ([nethttp.literal "shorten"], handleShorten baseURL entropyErrorText);
    ([nethttp.literal "update"; nethttp.multi], handleUpdate entropyErrorText);
    ([nethttp.literal "delete"; nethttp.multi], handleDelete);
    ([nethttp.multi], handleRedirectOrRoot) ].
Proof. reflexivity. Qed.

(** No route goes on with a name other than the three registered ones. *)
Lemma findChild_other (code : string) :
  code <> "shorten" -> code <> "update" -> code <> "delete" ->
  nethttp.findChild _ code
    (map (fun r => (fst r, r)) (RegisterRoutes baseURL entropyErrorText)) = [].
Proof.
  intros H1 H2 H3. rewrite RegisterRoutes_parsed.
  cbn [map nethttp.findChild flat_map fst snd app].
  destruct (String.eqb_spec "shorten" code) as [E|_]; [contradiction H1; auto|].
  destruct (String.eqb_spec "update" code) as [E|_]; [contradiction H2; auto|].
  destruct (String.eqb_spec "delete" code) as [E|_]; [contradiction H3; auto|].
  reflexivity.
Qed.

(** A one-element path that names none of the routes is left to [/]. *)
Lemma tree_match_segment (code : string) :
  code <> "" -> strings.Contains code "/" = false ->
  code <> "shorten" -> code <> "update" -> code <> "delete" ->
  nethttp.tree_match _ (RegisterRoutes baseURL entropyErrorText) ("/" ++ code)
  = Some ([nethttp.multi], handleRedirectOrRoot) /\
  nethttp.tree_match _ (RegisterRoutes baseURL entropyErrorText) (("/" ++ code) ++ "/")
  = Some ([nethttp.multi], handleRedirectOrRoot).
Proof.
  intros Hne Hfree H1 H2 H3. unfold nethttp.tree_match. split.
  - rewrite matchPath_step by discriminate.
    rewrite (firstSegment_last code Hne Hfree). cbn [fst snd].
    rewrite (findChild_other code H1 H2 H3), matchPath_nil. reflexivity.
  - rewrite append_assoc. change ("/" ++ code ++ "/") with ("/" ++ code ++ String "/" "").
    rewrite matchPath_step by discriminate.
    rewrite (firstSegment_inner code "" Hfree). cbn [fst snd].
    rewrite (findChild_other code H1 H2 H3), matchPath_nil. reflexivity.
Qed.

(** [GET /<code>] goes to [handleRedirectOrRoot], unless the code is the
    name of a route: [/shorten] belongs to [handleShorten], and [/update]
    and [/delete] are redirected to their subtrees. *)
Lemma findHandler_segment (code : string) :
  code <> "" -> strings.Contains code "/" = false -> code <> "." -> code <> ".." ->
  nethttp.findHandler _ (RegisterRoutes baseURL entropyErrorText) "GET" ("/" ++ code)
  = if String.eqb code "shorten" then
      nethttp.Handler (handleShorten baseURL entropyErrorText)
    else if String.eqb code "update" || String.eqb code "delete" then
      nethttp.RedirectHandler ("/" ++ code ++ "/")
    else nethttp.Handler handleRedirectOrRoot.
Proof.
  intros Hne Hfree Hdot Hdots.
  destruct (String.eqb_spec code "shorten") as [-> | H1]; [reflexivity|].
  destruct (String.eqb_spec code "update") as [-> | H2]; [reflexivity|].
  destruct (String.eqb_spec code "delete") as [-> | H3]; [reflexivity|].
  cbn [orb]. unfold nethttp.findHandler.
  change (String.eqb "GET" "CONNECT") with false. cbv iota zeta.
  rewrite (cleanPath_segment code Hne Hfree Hdot Hdots).
  unfold nethttp.matchOrRedirect.
  destruct (tree_match_segment code Hne Hfree H1 H2 H3) as [-> ->].
  unfold nethttp.exactMatch. cbn [fst last].
  rewrite (HasSuffixByte_app ("/" ++ code) "/" "/") by discriminate.
  rewrite !(HasSuffixByte_app "/" code "/" Hne), !(HasSuffixByte_slash_free code Hfree).
  change (strings.HasSuffixByte "/" "/") with true.
  replace (String.eqb ("/" ++ code) "") with false by reflexivity.
  replace (String.eqb (("/" ++ code) ++ "/") "") with false by reflexivity.
  cbn [negb andb].
  rewrite (CountByte_app ("/" ++ code) "/"), (CountByte_app "/" code),
          (CountByte_slash_free code Hfree).
  change (strings.CountByte "/" "/") with 1%nat.
  cbn [Nat.add List.length Nat.eqb andb].
  rewrite String.eqb_refl. reflexivity.
Qed.

(** A request for [/update/<code>] or [/delete/<code>] goes to the handler
    of the subtree. *)
Lemma tree_match_subtree (dir code : string) (h : Request -> M R Response) :
  code <> "" -> strings.Contains code "/" = false ->
  strings.Contains dir "/" = false ->
  nethttp.findChild _ dir
    (map (fun r => (fst r, r)) (RegisterRoutes baseURL entropyErrorText))
  = [([nethttp.multi], ([nethttp.literal dir; nethttp.multi], h))] ->
  nethttp.tree_match _ (RegisterRoutes baseURL entropyErrorText)
    ("/" ++ dir ++ "/" ++ code)
  = Some ([nethttp.literal dir; nethttp.multi], h) /\
  nethttp.tree_match _ (RegisterRoutes baseURL entropyErrorText)
    (("/" ++ dir ++ "/" ++ code) ++ "/")
  = Some ([nethttp.literal dir; nethttp.multi], h).
Proof.
  intros Hne Hfree Hdir Hchild. unfold nethttp.tree_match. split.
  - change ("/" ++ dir ++ "/" ++ code) with ("/" ++ dir ++ String "/" code).
    rewrite matchPath_step by discriminate.
    rewrite (firstSegment_inner dir code Hdir). cbn [fst snd]. rewrite Hchild.
    cbn [String.length append].
    rewrite matchPath_step by discriminate.
    change (String "/" code) with ("/" ++ code).
    rewrite (firstSegment_last code Hne Hfree). cbn [fst snd].
    cbn [nethttp.findChild flat_map fst app]. rewrite matchPath_nil. reflexivity.
  - rewrite !append_assoc.
    change ("/" ++ dir ++ "/" ++ code ++ "/")
      with ("/" ++ dir ++ String "/" (code ++ String "/" "")).
    rewrite matchPath_step by discriminate.
    rewrite (firstSegment_inner dir (code ++ String "/" "") Hdir). cbn [fst snd].
    rewrite Hchild. cbn [String.length append].
    rewrite matchPath_step by discriminate.
    change (String "/" (code ++ String "/" ""))
      with ("/" ++ code ++ String "/" "").
    rewrite (firstSegment_inner code "" Hfree). cbn [fst snd].
    cbn [nethttp.findChild flat_map fst app]. rewrite matchPath_nil. reflexivity.
Qed.

Lemma findHandler_subtree (method dir code : string) (h : Request -> M R Response) :
  String.eqb method "CONNECT" = false ->
  dir <> "" -> strings.Contains dir "/" = false -> dir <> "." -> dir <> ".." ->
  code <> "" -> strings.Contains code "/" = false -> code <> "." -> code <> ".." ->
  nethttp.findChild _ dir
    (map (fun r => (fst r, r)) (RegisterRoutes baseURL entropyErrorText))
  = [([nethttp.multi], ([nethttp.literal dir; nethttp.multi], h))] ->
  nethttp.findHandler _ (RegisterRoutes baseURL entropyErrorText) method
    ("/" ++ dir ++ "/" ++ code)
  = nethttp.Handler h.
Proof.
  intros Hm Hd0 Hdir Hd1 Hd2 Hne Hfree Hdot Hdots Hchild.
  unfold nethttp.findHandler. rewrite Hm. cbv iota zeta.
  rewrite (cleanPath_subtree dir code) by assumption.
  unfold nethttp.matchOrRedirect.
  destruct (tree_match_subtree dir code h Hne Hfree Hdir Hchild) as [-> ->].
  change ("/" ++ dir ++ "/" ++ code) with ("/" ++ dir ++ String "/" code).
  rewrite (HasSuffixByte_subtree dir code Hne Hfree).
  unfold nethttp.exactMatch. cbn [fst last].
  rewrite !(HasSuffixByte_subtree dir code Hne Hfree).
  rewrite (HasSuffixByte_app ("/" ++ dir ++ String "/" code) "/" "/") by discriminate.
  change (strings.HasSuffixByte "/" "/") with true.
  replace (String.eqb ("/" ++ dir ++ String "/" code) "") with false by reflexivity.
  replace (String.eqb (("/" ++ dir ++ String "/" code) ++ "/") "") with false
    by reflexivity.
  cbn [negb andb].
  rewrite (CountByte_app ("/" ++ dir ++ String "/" code) "/"),
          (CountByte_app "/" (dir ++ String "/" code)),
          (CountByte_app dir (String "/" code)),
          (CountByte_slash_free dir Hdir).
  change (strings.CountByte (String "/" code) "/")
    with (S (strings.CountByte code "/")).
  rewrite (CountByte_slash_free code Hfree).
  change (strings.CountByte "/" "/") with 1%nat.
  cbn [Nat.add List.length Nat.eqb andb].
  rewrite String.eqb_refl. reflexivity.
Qed.

(** What the mux does with the requests of the service's API. *)
Lemma ServeHTTP_shorten (method : string) (decoded : option string) (w : World R) :
  String.eqb method "CONNECT" = false ->
  ServeHTTP baseURL entropyErrorText (mkRequest method "/shorten" decoded) w
  = handleShorten baseURL entropyErrorText (mkRequest method "/shorten" decoded) w.
Proof.
  intros Hm. unfold ServeHTTP, nethttp.findHandler. cbn [Path Method]. rewrite Hm.
  reflexivity.
Qed.

Lemma ServeHTTP_update (code : string) (decoded : option string) (w : World R) :
  code <> "" -> strings.Contains code "/" = false -> code <> "." -> code <> ".." ->
  ServeHTTP baseURL entropyErrorText (mkRequest "PUT" ("/update/" ++ code) decoded) w
  = handleUpdate entropyErrorText (mkRequest "PUT" ("/update/" ++ code) decoded) w.
Proof.
  intros Hne Hfree Hdot Hdots. unfold ServeHTTP. cbn [Path Method].
  change (String.eqb ("/update/" ++ code) "*") with false. cbv iota.
  change ("/update/" ++ code) with ("/" ++ "update" ++ "/" ++ code).
  rewrite (findHandler_subtree "PUT" "update" code (handleUpdate entropyErrorText));
    try assumption; try reflexivity; discriminate.
Qed.

Lemma ServeHTTP_delete (code : string) (decoded : option string) (w : World R) :
  code <> "" -> strings.Contains code "/" = false -> code <> "." -> code <> ".." ->
  ServeHTTP baseURL entropyErrorText (mkRequest "DELETE" ("/delete/" ++ code) decoded) w
  = handleDelete (mkRequest "DELETE" ("/delete/" ++ code) decoded) w.
Proof.
  intros Hne Hfree Hdot Hdots. unfold ServeHTTP. cbn [Path Method].
  change (String.eqb ("/delete/" ++ code) "*") with false. cbv iota.
  change ("/delete/" ++ code) with ("/" ++ "delete" ++ "/" ++ code).
  rewrite (findHandler_subtree "DELETE" "delete" code handleDelete);
    try assumption; try reflexivity; discriminate.
Qed.

(** [GET /<code>] through the mux: the lookup of [handleRedirectOrRoot],
    unless the code is the name of a route. *)
Lemma ServeHTTP_get (code : string) (decoded : option string) (w : World R) :
  code <> "" -> strings.Contains code "/" = false -> code <> "." -> code <> ".." ->
  ServeHTTP baseURL entropyErrorText (mkRequest "GET" ("/" ++ code) decoded) w
  = if String.eqb code "shorten" then
      (Returns (respondWithError StatusMethodNotAllowed "Method Not Allowed"), w)
    else if String.eqb code "update" || String.eqb code "delete" then
      (Returns (mkResponse StatusMovedPermanently (RedirectTo ("/" ++ code ++ "/"))), w)
    else handleRedirectOrRoot (mkRequest "GET" ("/" ++ code) decoded) w.
Proof.
  intros Hne Hfree Hdot Hdots. unfold ServeHTTP. cbn [Path Method].
  replace (String.eqb ("/" ++ code) "*") with false by reflexivity.
  rewrite (findHandler_segment code Hne Hfree Hdot Hdots).
  destruct (String.eqb code "shorten"); [reflexivity|].
  destruct (String.eqb code "update" || String.eqb code "delete"); reflexivity.
Qed.

End Routes.

(** ** The handlers on the SQLite repository *)

Section SQLiteHandlers.

Variable baseURL : string.
Variable entropyErrorText : string.

(** [GET /<code>] for a non-empty code without a slash: a redirect to the
    long URL of the code's row, or 404; the world is left as it was. *)
Lemma redirect_run (code : string) (decoded : option string)
  (w : World SQLiteShortenerRepo) :
  code <> "" -> strings.Contains code "/" = false ->
  deliveries.handleRedirectOrRoot (deliveries.mkRequest "GET" ("/" ++ code) decoded) w
  = (Returns
       match find (has_code code) (urls (db (repo w))) with
       | Some m => deliveries.mkResponse deliveries.StatusFound
                     (deliveries.RedirectTo (LongURL m))
       | None => deliveries.respondWithError deliveries.StatusNotFound
                   "Short code not found"
       end, w).
Proof.
  intros Hne Hslash. unfold deliveries.handleRedirectOrRoot.
  cbn [deliveries.Method deliveries.Path].
  change (String.eqb "GET" "GET") with true. cbn [negb].
  rewrite (TrimPrefix_app "/" code).
  replace (String.eqb ("/" ++ code) "/") with false
    by (destruct code; [contradiction Hne; reflexivity | reflexivity]).
  destruct (String.eqb_spec code ""); [contradiction|].
  change ("/" ++ code) with (String "/" code).
  assert (Hres : forall p, strings.Contains p "/" = true ->
                           strings.HasPrefix (String "/" code) (String "/" p) = false).
  { intros p Hp. unfold strings.HasPrefix. cbn.
    apply (slash_free_prefix code p Hp Hslash). }
  rewrite (Hres "update/" eq_refl), (Hres "delete/" eq_refl). cbn [orb].
  unfold bind, deliveries.repoFindByShortCode.
  rewrite SQLite_FindByShortCode_eq.
  destruct w as [r e t]. cbn [repo entropy trace].
  destruct (find (has_code code) (urls (db r))); reflexivity.
Qed.

End SQLiteHandlers.

(** ** What reaches the store through the handlers, over any repository *)

Lemma TrimPrefix_cases (s p : string) :
  s = p ++ strings.TrimPrefix s p \/ strings.TrimPrefix s p = s.
Proof.
  unfold strings.TrimPrefix. destruct (strings.HasPrefix s p) eqn:E; [|right; reflexivity].
  left. destruct (prefix_split _ _ E) as [t ->]. rewrite from_app. reflexivity.
Qed.

Section GuardedStore.

Context {R : Type} `{ShortenerRepository R}.

Variable baseURL : string.
Variable entropyErrorText : string.

(** The trace after [UpdateLongURL]: one store call, made only for a URL
    that passed validation. *)
Lemma UpdateLongURL_trace (shortCode newLongURL : string) (w : World R) :
  (ValidateURL newLongURL = false /\
   services.UpdateLongURL shortCode newLongURL w
   = (Returns (Some (errorsNew "invalid new URL format provided")), w)) \/
  (ValidateURL newLongURL = true /\
   exists res,
     trace (snd (services.UpdateLongURL shortCode newLongURL w))
     = CallUpdateLongURL shortCode newLongURL res :: trace w).
Proof.
  unfold services.UpdateLongURL.
  destruct (ValidateURL newLongURL); cbn [negb]; [right | left; split; reflexivity].
  split; [reflexivity|]. unfold bind, callUpdateLongURL.
  destruct (repositories.UpdateLongURL shortCode newLongURL (repo w)) as [res r1].
  exists res. destruct res as [e|]; [destruct (errors_Is_ErrNotFound e)|]; reflexivity.
Qed.

Lemma DeleteMapping_trace (shortCode : string) (w : World R) :
  exists res,
    trace (snd (services.DeleteMapping shortCode w))
    = CallDeleteMapping shortCode res :: trace w.
Proof.
  unfold services.DeleteMapping, bind, callDeleteMapping.
  destruct (repositories.DeleteMapping shortCode (repo w)) as [res r1].
  exists res. destruct res as [e|]; [destruct (errors_Is_ErrNotFound e)|]; reflexivity.
Qed.

Lemma handleShorten_world (r : deliveries.Request) (w : World R) :
  snd (deliveries.handleShorten baseURL entropyErrorText r w) = w \/
  deliveries.Method r = "POST" /\
  exists u, deliveries.Decoded r = Some u /\
            snd (deliveries.handleShorten baseURL entropyErrorText r w)
            = snd (CreateShortURL u w).
Proof.
  unfold deliveries.handleShorten.
  destruct (String.eqb_spec (deliveries.Method r) "POST") as [Hm | _]; cbn [negb];
    [|left; reflexivity].
  destruct (deliveries.Decoded r) as [u|]; [|left; reflexivity].
  right. split; [exact Hm|]. exists u. split; [reflexivity|].
  unfold bind. destruct (CreateShortURL u w) as [[[c [e|]] | p] w1]; cbn [snd];
    [|reflexivity|reflexivity].
  destruct (strings.ContainsStr (deliveries.Error entropyErrorText e) "invalid URL format");
    reflexivity.
Qed.

Lemma handleUpdate_world (r : deliveries.Request) (w : World R) :
  snd (deliveries.handleUpdate entropyErrorText r w) = w \/
  deliveries.Method r = "PUT" /\
  strings.TrimPrefix (deliveries.Path r) "/update/" <> "" /\
  strings.Contains (strings.TrimPrefix (deliveries.Path r) "/update/") "/" = false /\
  exists u, deliveries.Decoded r = Some u /\ u <> "" /\
            snd (deliveries.handleUpdate entropyErrorText r w)
            = snd (services.UpdateLongURL
                     (strings.TrimPrefix (deliveries.Path r) "/update/") u w).
Proof.
  unfold deliveries.handleUpdate.
  destruct (String.eqb_spec (deliveries.Method r) "PUT") as [Hm | _]; cbn [negb];
    [|left; reflexivity].
  destruct (String.eqb_spec (strings.TrimPrefix (deliveries.Path r) "/update/") "")
    as [_ | Hne]; cbn [orb]; [left; reflexivity|].
  destruct (strings.Contains (strings.TrimPrefix (deliveries.Path r) "/update/") "/")
    eqn:Hslash; [left; reflexivity|].
  destruct (deliveries.Decoded r) as [u|]; [|left; reflexivity].
  destruct (String.eqb_spec u "") as [_ | Hu]; [left; reflexivity|].
  right. split; [exact Hm|]. split; [exact Hne|]. split; [reflexivity|].
  exists u. split; [reflexivity|]. split; [exact Hu|].
  unfold bind.
  destruct (services.UpdateLongURL (strings.TrimPrefix (deliveries.Path r) "/update/") u w)
    as [[[e|] | p] w1]; cbn [snd]; [|reflexivity|reflexivity].
  destruct (errors_Is_ErrNotFound e); [reflexivity|].
  destruct (strings.ContainsStr (deliveries.Error entropyErrorText e)
              "invalid new URL format"); reflexivity.
Qed.

Lemma handleDelete_world (r : deliveries.Request) (w : World R) :
  snd (deliveries.handleDelete r w) = w \/
  deliveries.Method r = "DELETE" /\
  strings.TrimPrefix (deliveries.Path r) "/delete/" <> "" /\
  strings.Contains (strings.TrimPrefix (deliveries.Path r) "/delete/") "/" = false /\
  snd (deliveries.handleDelete r w)
  = snd (services.DeleteMapping (strings.TrimPrefix (deliveries.Path r) "/delete/") w).
Proof.
  unfold deliveries.handleDelete.
  destruct (String.eqb_spec (deliveries.Method r) "DELETE") as [Hm | _]; cbn [negb];
    [|left; reflexivity].
  destruct (String.eqb_spec (strings.TrimPrefix (deliveries.Path r) "/delete/") "")
    as [_ | Hne]; cbn [orb]; [left; reflexivity|].
  destruct (strings.Contains (strings.TrimPrefix (deliveries.Path r) "/delete/") "/")
    eqn:Hslash; [left; reflexivity|].
  right. split; [exact Hm|]. split; [exact Hne|]. split; [reflexivity|].
  unfold bind.
  destruct (services.DeleteMapping (strings.TrimPrefix (deliveries.Path r) "/delete/") w)
    as [[[e|] | p] w1]; cbn [snd]; [|reflexivity|reflexivity].
  destruct (errors_Is_ErrNotFound e); reflexivity.
Qed.

(** X6.  Whatever the repository does, the handlers guard what reaches it.
    An insert made while serving [handleShorten] is for the decoded URL of
    a POST request, which passed [ValidateURL], and for a code of seven
    URL-safe characters.  An update made while serving [handleUpdate] is
    for the decoded URL of a PUT request, which passed [ValidateURL], and
    for the path's code segment, non-empty and without a slash; a delete
    made while serving [handleDelete] is for such a segment of a DELETE
    request. *)
Theorem handlers_guard_the_store (r : deliveries.Request) (w : World R) :
  trace w = [] ->
  (forall c u res,
      In (CallSaveMapping c u res)
         (trace (snd (deliveries.handleShorten baseURL entropyErrorText r w))) ->
      deliveries.Method r = "POST" /\ deliveries.Decoded r = Some u /\
      ValidateURL u = true /\ wellformed_code c) /\
  (forall c u res,
      In (CallUpdateLongURL c u res)
         (trace (snd (deliveries.handleUpdate entropyErrorText r w))) ->
      deliveries.Method r = "PUT" /\ deliveries.Decoded r = Some u /\
      ValidateURL u = true /\ c <> "" /\ strings.Contains c "/" = false /\
      (deliveries.Path r = "/update/" ++ c \/ deliveries.Path r = c)) /\
  (forall c res,
      In (CallDeleteMapping c res) (trace (snd (deliveries.handleDelete r w))) ->
      deliveries.Method r = "DELETE" /\ c <> "" /\ strings.Contains c "/" = false /\
      (deliveries.Path r = "/delete/" ++ c \/ deliveries.Path r = c)).
Proof.
  intros Hfresh. split; [|split].
  - intros c u res Hin.
    destruct (handleShorten_world r w) as [E | (Hm & u0 & Hd & E)]; rewrite E in Hin.
    + rewrite Hfresh in Hin. contradiction.
    + destruct (CreateShortURL_calls u0 w) as (new & Hext & Hb & Hv).
      unfold extends in Hext. rewrite Hfresh, app_nil_r in Hext. rewrite Hext in Hin.
      destruct Hb as (_ & _ & _ & Hshape).
      destruct (Hshape c u res Hin) as (-> & Hwf & _).
      repeat split; auto; try apply Hwf.
      apply Hv. intros ->. contradiction.
  - intros c u res Hin.
    destruct (handleUpdate_world r w) as [E | (Hm & Hne & Hslash & u0 & Hd & _ & E)];
      rewrite E in Hin.
    + rewrite Hfresh in Hin. contradiction.
    + destruct (UpdateLongURL_trace
                  (strings.TrimPrefix (deliveries.Path r) "/update/") u0 w)
        as [[_ E'] | [Hv [res' E']]].
      * rewrite E' in Hin. cbn [snd] in Hin. rewrite Hfresh in Hin. contradiction.
      * rewrite E', Hfresh in Hin. destruct Hin as [Ec | []].
        injection Ec as <- <- _.
        repeat split; auto.
        destruct (TrimPrefix_cases (deliveries.Path r) "/update/") as [Hp | Hp];
          [left; exact Hp | right; symmetry; exact Hp].
  - intros c res Hin.
    destruct (handleDelete_world r w) as [E | (Hm & Hne & Hslash & E)]; rewrite E in Hin.
    + rewrite Hfresh in Hin. contradiction.
    + destruct (DeleteMapping_trace
                  (strings.TrimPrefix (deliveries.Path r) "/delete/") w) as [res' E'].
      rewrite E', Hfresh in Hin. destruct Hin as [Ec | []].
      injection Ec as <- _.
      repeat split; auto.
      destruct (TrimPrefix_cases (deliveries.Path r) "/delete/") as [Hp | Hp];
        [left; exact Hp | right; symmetry; exact Hp].
Qed.

End GuardedStore.

(** ** Requests served one after the other on the SQLite repository *)

(** The row that a successful creation leaves for its code. *)
Lemma CreateShortURL_row
  (longURL : string) (w w' : World SQLiteShortenerRepo) (code : string) :
  unique_codes (db (repo w)) ->
  CreateShortURL longURL w = (Returns (code, None), w') ->
  exists m, find (has_code code) (urls (db (repo w'))) = Some m /\ LongURL m = longURL.
Proof.
  intros Huniq Hrun.
  pose proof (post_run _ _ _ _ _ (CreateShortURL_sqlite longURL w) Hrun) as Hout.
  cbn in Hout. destruct Hout as [_ [(m & Hfind & Hcode & Hrepo & _) | (_ & Hfind & Hrepo)]].
  - rewrite Hrepo. apply find_some in Hfind. destruct Hfind as [Hin Hurl].
    apply String.eqb_eq in Hurl. exists m. split; [|exact Hurl].
    rewrite <- Hcode. apply find_code_unique; assumption.
  - rewrite Hrepo. cbn [db inserted urls].
    rewrite (find_app_none _ _ _ _ Hfind). cbn [find]. unfold has_code.
    cbn [ShortCode]. rewrite String.eqb_refl. eexists. split; reflexivity.
Qed.

Section SQLiteRequests.

Variable baseURL : string.
Variable entropyErrorText : string.

(** Shorten, then look the code up.  On a store with unique, well-formed
    codes, if [handleShorten] answers 201 with a short URL and an original
    URL, the request was a POST carrying that original URL, the short URL is
    the base URL (less a trailing slash), a slash and a code of seven
    URL-safe characters, and [handleRedirectOrRoot], given a GET for that
    code right after, answers 302 with a redirect to the original URL. *)
Lemma handleShorten_follow
  (r : deliveries.Request) (w w' : World SQLiteShortenerRepo)
  (shortURL originalURL : string) :
  unique_codes (db (repo w)) ->
  Forall wellformed_code (codes w) ->
  deliveries.handleShorten baseURL entropyErrorText r w
  = (Returns (deliveries.mkResponse deliveries.StatusCreated
                (deliveries.ShortenResponse shortURL originalURL)), w') ->
  deliveries.Method r = "POST" /\
  deliveries.Decoded r = Some originalURL /\
  exists code,
    wellformed_code code /\
    shortURL = strings.TrimSuffix baseURL "/" ++ "/" ++ code /\
    forall decoded,
      deliveries.handleRedirectOrRoot
        (deliveries.mkRequest "GET" ("/" ++ code) decoded) w'
      = (Returns (deliveries.mkResponse deliveries.StatusFound
                    (deliveries.RedirectTo originalURL)), w').
Proof.
  intros Huniq Hwf Hrun. unfold deliveries.handleShorten in Hrun.
  destruct (String.eqb_spec (deliveries.Method r) "POST") as [Hm | _]; cbn [negb] in Hrun;
    [|discriminate].
  destruct (deliveries.Decoded r) as [u|]; [|discriminate].
  unfold bind in Hrun.
  destruct (CreateShortURL u w) as [[[c [e|]] | p] w1] eqn:Hcreate.
  - destruct (strings.ContainsStr (deliveries.Error entropyErrorText e)
                "invalid URL format"); discriminate.
  - unfold ret, deliveries.respondWithJSON in Hrun. injection Hrun as <- <- <-.
    split; [exact Hm|]. split; [reflexivity|].
    destruct (CreateShortURL_sqlite_code _ _ _ _ Hwf Hcreate) as [Hc _].
    exists c. split; [exact Hc|]. split; [reflexivity|].
    intros decoded.
    destruct (wellformed_segment c Hc) as [Hne Hslash].
    rewrite (redirect_run c decoded w1 Hne Hslash).
    destruct (CreateShortURL_row _ _ _ _ Huniq Hcreate) as (m & -> & ->).
    reflexivity.
  - discriminate.
Qed.

End SQLiteRequests.

(** The errors of [CreateShortURL] on the SQLite store, by validity. *)
Lemma CreateShortURL_sqlite_errors (longURL : string) (w : World SQLiteShortenerRepo) :
  post (CreateShortURL longURL) w
    (fun res w' =>
       forall c e, res = Returns (c, Some e) ->
                   repo w' = repo w /\
                   if ValidateURL longURL
                   then e = ExhaustedRetriesError \/ e = GenerationError randErr \/
                        e = SaveStorageError sqliteErrFull
                   else e = InvalidURLError).
Proof.
  unfold CreateShortURL.
  destruct (ValidateURL longURL); cbn [negb].
  2:{ apply post_ret. intros c e E. injection E as <- <-. split; reflexivity. }
  apply post_bind. unfold post at 1, callFindByLongURL.
  rewrite SQLite_FindByLongURL_eq.
  assert (Hloop : forall tr,
             post (generationLoop maxGenerationRetries longURL)
               (mkWorld (repo w) (entropy w) tr)
               (fun res w' =>
                  forall c e, res = Returns (c, Some e) ->
                              repo w' = repo w /\
                              (e = ExhaustedRetriesError \/ e = GenerationError randErr \/
                               e = SaveStorageError sqliteErrFull))).
  { intros tr. eapply post_weaken; [apply generationLoop_sqlite|]. cbv beta.
    intros res w' (new & _ & Hout) c e ->. cbn in Hout. tauto. }
  destruct (find (has_url longURL) (urls (db (repo w)))) as [m|]; cbn [fst snd].
  - destruct (String.eqb (ShortCode m) ""); cbn [negb]; [apply Hloop|].
    apply post_ret. intros c e E. discriminate.
  - cbn [String.eqb negb]. apply Hloop.
Qed.

Lemma UpdateLongURL_sqlite_run
  (shortCode newLongURL : string) (w : World SQLiteShortenerRepo) :
  ValidateURL newLongURL = true ->
  fst (services.UpdateLongURL shortCode newLongURL w)
  = Returns (match find (has_code shortCode) (urls (db (repo w))) with
             | Some _ => None
             | None => Some ErrNotFound
             end) /\
  repo (snd (services.UpdateLongURL shortCode newLongURL w))
  = NewSQLiteShortenerRepo (snd (exec_update newLongURL shortCode (db (repo w)))).
Proof.
  intros Hvalid. unfold services.UpdateLongURL. rewrite Hvalid. cbn [negb].
  unfold bind, callUpdateLongURL.
  cbn [repositories.UpdateLongURL SQLiteShortenerRepo_is_repository].
  unfold SQLite_UpdateLongURL, exec_update. rewrite rows_affected_zero.
  destruct (find (has_code shortCode) (urls (db (repo w)))); split; reflexivity.
Qed.

Lemma DeleteMapping_sqlite_run (shortCode : string) (w : World SQLiteShortenerRepo) :
  fst (services.DeleteMapping shortCode w)
  = Returns (match find (has_code shortCode) (urls (db (repo w))) with
             | Some _ => None
             | None => Some ErrNotFound
             end) /\
  repo (snd (services.DeleteMapping shortCode w))
  = NewSQLiteShortenerRepo (snd (exec_delete shortCode (db (repo w)))).
Proof.
  unfold services.DeleteMapping, bind, callDeleteMapping.
  cbn [repositories.DeleteMapping SQLiteShortenerRepo_is_repository].
  unfold SQLite_DeleteMapping, exec_delete. rewrite rows_affected_zero.
  destruct (find (has_code shortCode) (urls (db (repo w)))); split; reflexivity.
Qed.

Section SQLiteUpdateDelete.

Variable entropyErrorText : string.

(** [handleUpdate], then [handleRedirectOrRoot].  For
    [PUT /update/<code>] with a non-empty code without a slash and a
    non-empty new URL: an invalid URL is answered 400 with the service's
    message and nothing is touched, whether or not the code exists; a valid
    URL for an unknown code is answered 404; a valid URL for a known code is
    answered 200, and the lookup of the code right after gives the new URL. *)
Lemma handleUpdate_follow
  (code newURL : string) (w : World SQLiteShortenerRepo) :
  code <> "" -> strings.Contains code "/" = false -> newURL <> "" ->
  if ValidateURL newURL then
    match find (has_code code) (urls (db (repo w))) with
    | None =>
        fst (deliveries.handleUpdate entropyErrorText
               (deliveries.mkRequest "PUT" ("/update/" ++ code) (Some newURL)) w)
        = Returns (deliveries.respondWithError deliveries.StatusNotFound
                     "Short code not found")
    | Some _ =>
        fst (deliveries.handleUpdate entropyErrorText
               (deliveries.mkRequest "PUT" ("/update/" ++ code) (Some newURL)) w)
        = Returns (deliveries.respondWithJSON deliveries.StatusOK
                     (deliveries.MessageResponse "URL updated successfully")) /\
        forall decoded,
          fst (deliveries.handleRedirectOrRoot
                 (deliveries.mkRequest "GET" ("/" ++ code) decoded)
                 (snd (deliveries.handleUpdate entropyErrorText
                         (deliveries.mkRequest "PUT" ("/update/" ++ code)
                            (Some newURL)) w)))
          = Returns (deliveries.mkResponse deliveries.StatusFound
                       (deliveries.RedirectTo newURL))
    end
  else
    deliveries.handleUpdate entropyErrorText
      (deliveries.mkRequest "PUT" ("/update/" ++ code) (Some newURL)) w
    = (Returns (deliveries.respondWithError deliveries.StatusBadRequest
                  "invalid new URL format provided"), w).
Proof.
  intros Hne Hslash Hurl. unfold deliveries.handleUpdate.
  cbn [deliveries.Method deliveries.Path deliveries.Decoded].
  change (String.eqb "PUT" "PUT") with true. cbn [negb].
  rewrite (TrimPrefix_app "/update/" code), Hslash.
  destruct (String.eqb_spec code ""); [contradiction|].
  destruct (String.eqb_spec newURL ""); [contradiction|]. cbn [orb].
  destruct (ValidateURL newURL) eqn:Hvalid.
  - destruct (UpdateLongURL_sqlite_run code newURL w Hvalid) as [Hres Hrepo].
    unfold bind.
    destruct (services.UpdateLongURL code newURL w) as [res w1]. cbn [fst snd] in *.
    rewrite Hres.
    destruct (find (has_code code) (urls (db (repo w)))) as [m|] eqn:Hfind;
      [|reflexivity].
    split; [reflexivity|]. intros decoded. cbn [snd ret].
    rewrite (redirect_run code decoded w1 Hne Hslash), Hrepo. cbn [fst db].
    unfold exec_update. cbn [snd urls].
    rewrite find_code_after_update, Hfind. reflexivity.
  - unfold services.UpdateLongURL. rewrite Hvalid. reflexivity.
Qed.

(** [handleDelete], then [handleRedirectOrRoot].  For
    [DELETE /delete/<code>] with a non-empty code without a slash: an
    unknown code is answered 404 and the rows stay as they were; a known
    code is answered 204 with no body, and the lookup of the code right
    after finds nothing. *)
Lemma handleDelete_follow (code : string) (w : World SQLiteShortenerRepo) :
  code <> "" -> strings.Contains code "/" = false ->
  match find (has_code code) (urls (db (repo w))) with
  | None =>
      fst (deliveries.handleDelete
             (deliveries.mkRequest "DELETE" ("/delete/" ++ code) None) w)
      = Returns (deliveries.respondWithError deliveries.StatusNotFound
                   "Short code not found") /\
      urls (db (repo (snd (deliveries.handleDelete
                             (deliveries.mkRequest "DELETE" ("/delete/" ++ code) None)
                             w))))
      = urls (db (repo w))
  | Some _ =>
      fst (deliveries.handleDelete
             (deliveries.mkRequest "DELETE" ("/delete/" ++ code) None) w)
      = Returns (deliveries.mkResponse deliveries.StatusNoContent deliveries.NoBody) /\
      forall decoded,
        fst (deliveries.handleRedirectOrRoot
               (deliveries.mkRequest "GET" ("/" ++ code) decoded)
               (snd (deliveries.handleDelete
                       (deliveries.mkRequest "DELETE" ("/delete/" ++ code) None) w)))
        = Returns (deliveries.respondWithError deliveries.StatusNotFound
                     "Short code not found")
  end.
Proof.
  intros Hne Hslash. unfold deliveries.handleDelete.
  cbn [deliveries.Method deliveries.Path deliveries.Decoded].
  change (String.eqb "DELETE" "DELETE") with true. cbn [negb].
  rewrite (TrimPrefix_app "/delete/" code), Hslash.
  destruct (String.eqb_spec code ""); [contradiction|]. cbn [orb].
  destruct (DeleteMapping_sqlite_run code w) as [Hres Hrepo].
  unfold bind.
  destruct (services.DeleteMapping code w) as [res w1]. cbn [fst snd] in *.
  rewrite Hres.
  destruct (find (has_code code) (urls (db (repo w)))) as [m|] eqn:Hfind.
  - split; [reflexivity|]. intros decoded. cbn [snd ret].
    rewrite (redirect_run code decoded w1 Hne Hslash), Hrepo. cbn [fst db].
    unfold exec_delete. cbn [snd urls].
    rewrite find_code_after_delete. reflexivity.
  - split; [reflexivity|]. cbn [snd ret errors_Is_ErrNotFound].
    rewrite Hrepo. unfold exec_delete. cbn [snd db urls].
    apply delete_no_match. exact Hfind.
Qed.

End SQLiteUpdateDelete.

(** ** The requests of the API, through the mux of [RegisterRoutes] *)

Lemma wellformed_not_dots (c : string) : wellformed_code c -> c <> "." /\ c <> "..".
Proof. intros [Hlen _]. split; intros ->; discriminate Hlen. Qed.

Lemma wellformed_not_subtree (c : string) :
  wellformed_code c -> String.eqb c "update" || String.eqb c "delete" = false.
Proof.
  intros [Hlen _].
  destruct (String.eqb_spec c "update") as [-> | _]; [discriminate Hlen|].
  destruct (String.eqb_spec c "delete") as [-> | _]; [discriminate Hlen|].
  reflexivity.
Qed.

(** X7.  Shorten, then follow the short URL, through the mux.  On a store
    with unique, well-formed codes, if [POST /shorten] with the URL [u] in
    its body is answered 201, the answer carries [u] and the short URL made
    of the base URL (less a trailing slash), a slash and a code of seven
    URL-safe characters; and [GET /<code>] right after is answered 302 with
    a redirect to [u], unless the code is [shorten]: that path is routed
    to [handleShorten], which answers a GET with 405. *)
Theorem ServeHTTP_shorten_then_redirect
  (baseURL entropyErrorText u : string) (w : World SQLiteShortenerRepo)
  (shortURL originalURL : string) :
  unique_codes (db (repo w)) ->
  Forall wellformed_code (codes w) ->
  fst (deliveries.ServeHTTP baseURL entropyErrorText
         (deliveries.mkRequest "POST" "/shorten" (Some u)) w)
  = Returns (deliveries.mkResponse deliveries.StatusCreated
               (deliveries.ShortenResponse shortURL originalURL)) ->
  originalURL = u /\
  exists code,
    wellformed_code code /\
    shortURL = strings.TrimSuffix baseURL "/" ++ "/" ++ code /\
    forall decoded,
      fst (deliveries.ServeHTTP baseURL entropyErrorText
             (deliveries.mkRequest "GET" ("/" ++ code) decoded)
             (snd (deliveries.ServeHTTP baseURL entropyErrorText
                     (deliveries.mkRequest "POST" "/shorten" (Some u)) w)))
      = Returns (if String.eqb code "shorten"
                 then deliveries.respondWithError deliveries.StatusMethodNotAllowed
                        "Method Not Allowed"
                 else deliveries.mkResponse deliveries.StatusFound
                        (deliveries.RedirectTo originalURL)).
Proof.
  intros Huniq Hwf Hrun.
  rewrite (ServeHTTP_shorten baseURL entropyErrorText "POST" (Some u) w eq_refl) in *.
  destruct (deliveries.handleShorten baseURL entropyErrorText
              (deliveries.mkRequest "POST" "/shorten" (Some u)) w) as [res w'] eqn:Hpost.
  cbn [fst snd] in *. subst res.
  destruct (handleShorten_follow baseURL entropyErrorText _ w w' shortURL originalURL
              Huniq Hwf Hpost) as (_ & Hdec & code & Hc & Hshort & Hget).
  cbn [deliveries.Decoded] in Hdec. injection Hdec as ->.
  split; [reflexivity|].
  exists code. split; [exact Hc|]. split; [exact Hshort|].
  intros decoded.
  destruct (wellformed_segment code Hc) as [Hne Hslash].
  destruct (wellformed_not_dots code Hc) as [Hdot Hdots].
  rewrite (ServeHTTP_get baseURL entropyErrorText code decoded w' Hne Hslash Hdot Hdots).
  destruct (String.eqb code "shorten"); [reflexivity|].
  rewrite (wellformed_not_subtree code Hc), (Hget decoded). reflexivity.
Qed.

Lemma ServeHTTP_shorten_then_redirect_witness :
  samples.url_a = samples.url_a /\
  exists code,
    wellformed_code code /\
    "http://localhost:8080/AAEC__7"
    = strings.TrimSuffix "http://localhost:8080/" "/" ++ "/" ++ code /\
    forall decoded,
      fst (deliveries.ServeHTTP "http://localhost:8080/" "getrandom failed"
             (deliveries.mkRequest "GET" ("/" ++ code) decoded)
             (snd (deliveries.ServeHTTP "http://localhost:8080/" "getrandom failed"
                     (deliveries.mkRequest "POST" "/shorten" (Some samples.url_a))
                     samples.fresh_world)))
      = Returns (if String.eqb code "shorten"
                 then deliveries.respondWithError deliveries.StatusMethodNotAllowed
                        "Method Not Allowed"
                 else deliveries.mkResponse deliveries.StatusFound
                        (deliveries.RedirectTo samples.url_a)).
Proof.
  apply (ServeHTTP_shorten_then_redirect "http://localhost:8080/" "getrandom failed"
           samples.url_a samples.fresh_world).
  - constructor.
  - constructor.
  - vm_compute. reflexivity.
Defined.

(** The code [shorten] is one the generator returns, and its short URL
    cannot be followed. *)
Lemma ServeHTTP_code_shorten_example :
  fst (deliveries.ServeHTTP "http://localhost:8080" "getrandom failed"
         (deliveries.mkRequest "POST" "/shorten" (Some samples.url_a))
         samples.shorten_world)
  = Returns (deliveries.mkResponse deliveries.StatusCreated
               (deliveries.ShortenResponse "http://localhost:8080/shorten"
                  samples.url_a)) /\
  forall decoded,
    fst (deliveries.ServeHTTP "http://localhost:8080" "getrandom failed"
           (deliveries.mkRequest "GET" "/shorten" decoded)
           (snd (deliveries.ServeHTTP "http://localhost:8080" "getrandom failed"
                   (deliveries.mkRequest "POST" "/shorten" (Some samples.url_a))
                   samples.shorten_world)))
    = Returns (deliveries.respondWithError deliveries.StatusMethodNotAllowed
                 "Method Not Allowed").
Proof. split; [|intros decoded]; vm_compute; reflexivity. Qed.

(** X9.  Update over HTTP, through the mux.  For [PUT /update/<code>] with
    a code that is a clean path element (not empty, no slash, neither [.]
    nor [..]) and a non-empty new URL: an invalid URL is answered 400 with
    the service's message and nothing is touched, whether or not the code
    exists; a valid URL for an unknown code is answered 404; a valid URL for
    a known code is answered 200, and [GET /<code>] right after is answered
    302 with a redirect to the new URL, unless the code is the name of a
    route: [GET /shorten] is answered 405 by [handleShorten], and
    [GET /update] and [GET /delete] are redirected (301) to their
    subtrees. *)
Theorem ServeHTTP_update_then_redirect
  (baseURL entropyErrorText code newURL : string) (w : World SQLiteShortenerRepo) :
  code <> "" -> strings.Contains code "/" = false -> code <> "." -> code <> ".." ->
  newURL <> "" ->
  if ValidateURL newURL then
    match find (has_code code) (urls (db (repo w))) with
    | None =>
        fst (deliveries.ServeHTTP baseURL entropyErrorText
               (deliveries.mkRequest "PUT" ("/update/" ++ code) (Some newURL)) w)
        = Returns (deliveries.respondWithError deliveries.StatusNotFound
                     "Short code not found")
    | Some _ =>
        fst (deliveries.ServeHTTP baseURL entropyErrorText
               (deliveries.mkRequest "PUT" ("/update/" ++ code) (Some newURL)) w)
        = Returns (deliveries.respondWithJSON deliveries.StatusOK
                     (deliveries.MessageResponse "URL updated successfully")) /\
        forall decoded,
          fst (deliveries.ServeHTTP baseURL entropyErrorText
                 (deliveries.mkRequest "GET" ("/" ++ code) decoded)
                 (snd (deliveries.ServeHTTP baseURL entropyErrorText
                         (deliveries.mkRequest "PUT" ("/update/" ++ code)
                            (Some newURL)) w)))
          = Returns
              (if String.eqb code "shorten" then
                 deliveries.respondWithError deliveries.StatusMethodNotAllowed
                   "Method Not Allowed"
               else if String.eqb code "update" || String.eqb code "delete" then
                 deliveries.mkResponse deliveries.StatusMovedPermanently
                   (deliveries.RedirectTo ("/" ++ code ++ "/"))
               else
                 deliveries.mkResponse deliveries.StatusFound
                   (deliveries.RedirectTo newURL))
    end
  else
    deliveries.ServeHTTP baseURL entropyErrorText
      (deliveries.mkRequest "PUT" ("/update/" ++ code) (Some newURL)) w
    = (Returns (deliveries.respondWithError deliveries.StatusBadRequest
                  "invalid new URL format provided"), w).
Proof.
  intros Hne Hslash Hdot Hdots Hurl.
  pose proof (handleUpdate_follow entropyErrorText code newURL w Hne Hslash Hurl) as Hold.
  rewrite (ServeHTTP_update baseURL entropyErrorText code (Some newURL) w
             Hne Hslash Hdot Hdots).
  destruct (ValidateURL newURL); [|exact Hold].
  destruct (find (has_code code) (urls (db (repo w)))); [|exact Hold].
  destruct Hold as [Hput Hget]. split; [exact Hput|].
  intros decoded.
  rewrite (ServeHTTP_get baseURL entropyErrorText code decoded _ Hne Hslash Hdot Hdots).
  destruct (String.eqb code "shorten"); [reflexivity|].
  destruct (String.eqb code "update" || String.eqb code "delete"); [reflexivity|].
  apply Hget.
Qed.

Lemma ServeHTTP_update_then_redirect_witness :
  fst (deliveries.ServeHTTP "http://localhost:8080" "getrandom failed"
         (deliveries.mkRequest "PUT" ("/update/" ++ samples.code_1)
            (Some samples.url_b))
         (snd (CreateShortURL samples.url_a samples.fresh_world)))
  = Returns (deliveries.respondWithJSON deliveries.StatusOK
               (deliveries.MessageResponse "URL updated successfully")) /\
  forall decoded,
    fst (deliveries.ServeHTTP "http://localhost:8080" "getrandom failed"
           (deliveries.mkRequest "GET" ("/" ++ samples.code_1) decoded)
           (snd (deliveries.ServeHTTP "http://localhost:8080" "getrandom failed"
                   (deliveries.mkRequest "PUT" ("/update/" ++ samples.code_1)
                      (Some samples.url_b))
                   (snd (CreateShortURL samples.url_a samples.fresh_world)))))
    = Returns (deliveries.mkResponse deliveries.StatusFound
                 (deliveries.RedirectTo samples.url_b)).
Proof.
  assert (Hvalid : ValidateURL samples.url_b = true) by (vm_compute; reflexivity).
  assert (Hfind : exists m,
             find (has_code samples.code_1)
               (urls (db (repo (snd (CreateShortURL samples.url_a
                                       samples.fresh_world)))))
             = Some m) by (vm_compute; eexists; reflexivity).
  destruct Hfind as [m Hfind].
  assert (Hslash : strings.Contains samples.code_1 "/" = false)
    by (vm_compute; reflexivity).
  pose proof (ServeHTTP_update_then_redirect "http://localhost:8080"
                "getrandom failed" samples.code_1 samples.url_b
                (snd (CreateShortURL samples.url_a samples.fresh_world))
                ltac:(discriminate) Hslash ltac:(discriminate) ltac:(discriminate)
                ltac:(discriminate)) as H.
  rewrite Hvalid, Hfind in H. exact H.
Defined.

(** X10.  Delete over HTTP, through the mux.  For [DELETE /delete/<code>]
    with a code that is a clean path element: an unknown code is answered
    404 and the rows stay as they were; a known code is answered 204 with no
    body, and [GET /<code>] right after is answered 404, unless the code is
    the name of a route ([GET /shorten] is answered 405, [GET /update] and
    [GET /delete] are redirected to their subtrees). *)
Theorem ServeHTTP_delete_then_redirect
  (baseURL entropyErrorText code : string) (w : World SQLiteShortenerRepo) :
  code <> "" -> strings.Contains code "/" = false -> code <> "." -> code <> ".." ->
  match find (has_code code) (urls (db (repo w))) with
  | None =>
      fst (deliveries.ServeHTTP baseURL entropyErrorText
             (deliveries.mkRequest "DELETE" ("/delete/" ++ code) None) w)
      = Returns (deliveries.respondWithError deliveries.StatusNotFound
                   "Short code not found") /\
      urls (db (repo (snd (deliveries.ServeHTTP baseURL entropyErrorText
                             (deliveries.mkRequest "DELETE" ("/delete/" ++ code) None)
                             w))))
      = urls (db (repo w))
  | Some _ =>
      fst (deliveries.ServeHTTP baseURL entropyErrorText
             (deliveries.mkRequest "DELETE" ("/delete/" ++ code) None) w)
      = Returns (deliveries.mkResponse deliveries.StatusNoContent deliveries.NoBody) /\
      forall decoded,
        fst (deliveries.ServeHTTP baseURL entropyErrorText
               (deliveries.mkRequest "GET" ("/" ++ code) decoded)
               (snd (deliveries.ServeHTTP baseURL entropyErrorText
                       (deliveries.mkRequest "DELETE" ("/delete/" ++ code) None) w)))
        = Returns
            (if String.eqb code "shorten" then
               deliveries.respondWithError deliveries.StatusMethodNotAllowed
                 "Method Not Allowed"
             else if String.eqb code "update" || String.eqb code "delete" then
               deliveries.mkResponse deliveries.StatusMovedPermanently
                 (deliveries.RedirectTo ("/" ++ code ++ "/"))
             else
               deliveries.respondWithError deliveries.StatusNotFound
                 "Short code not found")
  end.
Proof.
  intros Hne Hslash Hdot Hdots.
  pose proof (handleDelete_follow code w Hne Hslash) as Hold.
  rewrite (ServeHTTP_delete baseURL entropyErrorText code None w Hne Hslash Hdot Hdots).
  destruct (find (has_code code) (urls (db (repo w)))); [|exact Hold].
  destruct Hold as [Hdel Hget]. split; [exact Hdel|].
  intros decoded.
  rewrite (ServeHTTP_get baseURL entropyErrorText code decoded _ Hne Hslash Hdot Hdots).
  destruct (String.eqb code "shorten"); [reflexivity|].
  destruct (String.eqb code "update" || String.eqb code "delete"); [reflexivity|].
  apply Hget.
Qed.

Lemma ServeHTTP_delete_then_redirect_witness :
  fst (deliveries.ServeHTTP "http://localhost:8080" "getrandom failed"
         (deliveries.mkRequest "DELETE" ("/delete/" ++ samples.code_1) None)
         (snd (CreateShortURL samples.url_a samples.fresh_world)))
  = Returns (deliveries.mkResponse deliveries.StatusNoContent deliveries.NoBody) /\
  forall decoded,
    fst (deliveries.ServeHTTP "http://localhost:8080" "getrandom failed"
           (deliveries.mkRequest "GET" ("/" ++ samples.code_1) decoded)
           (snd (deliveries.ServeHTTP "http://localhost:8080" "getrandom failed"
                   (deliveries.mkRequest "DELETE" ("/delete/" ++ samples.code_1) None)
                   (snd (CreateShortURL samples.url_a samples.fresh_world)))))
    = Returns (deliveries.respondWithError deliveries.StatusNotFound
                 "Short code not found").
Proof.
  assert (Hfind : exists m,
             find (has_code samples.code_1)
               (urls (db (repo (snd (CreateShortURL samples.url_a
                                       samples.fresh_world)))))
             = Some m) by (vm_compute; eexists; reflexivity).
  destruct Hfind as [m Hfind].
  assert (Hslash : strings.Contains samples.code_1 "/" = false)
    by (vm_compute; reflexivity).
  pose proof (ServeHTTP_delete_then_redirect "http://localhost:8080"
                "getrandom failed" samples.code_1
                (snd (CreateShortURL samples.url_a samples.fresh_world))
                ltac:(discriminate) Hslash ltac:(discriminate) ltac:(discriminate))
    as H.
  rewrite Hfind in H. exact H.
Defined.

(** X8.  The answers of [handleShorten] on the SQLite store.  A POST whose
    body decodes is answered 201, 400 or 500 and nothing else: 400 exactly
    when the URL fails [ValidateURL], 201 exactly when [CreateShortURL]
    returned a code, and 500 (retry budget exhausted, rowids used up, or the
    entropy source failed with an error whose text does not itself read as
    an invalid-URL message) leaves the store as it was, as does 400. *)
Theorem handleShorten_status
  (baseURL entropyErrorText : string)
  (r : deliveries.Request) (u : string) (w : World SQLiteShortenerRepo) :
  deliveries.Method r = "POST" ->
  deliveries.Decoded r = Some u ->
  strings.ContainsStr (deliveries.Error entropyErrorText (GenerationError randErr))
    "invalid URL format" = false ->
  exists resp,
    fst (deliveries.handleShorten baseURL entropyErrorText r w) = Returns resp /\
    (deliveries.StatusCode resp = deliveries.StatusCreated \/
     deliveries.StatusCode resp = deliveries.StatusBadRequest \/
     deliveries.StatusCode resp = deliveries.StatusInternalServerError) /\
    (deliveries.StatusCode resp = deliveries.StatusBadRequest <->
     ValidateURL u = false) /\
    (deliveries.StatusCode resp = deliveries.StatusCreated <->
     exists c, fst (CreateShortURL u w) = Returns (c, None)) /\
    (deliveries.StatusCode resp <> deliveries.StatusCreated ->
     repo (snd (deliveries.handleShorten baseURL entropyErrorText r w)) = repo w).
Proof.
  intros Hm Hd Htxt. unfold deliveries.handleShorten. rewrite Hm, Hd.
  change (String.eqb "POST" "POST") with true. cbn [negb]. unfold bind.
  pose proof (CreateShortURL_sqlite u w) as Hout.
  pose proof (CreateShortURL_sqlite_errors u w) as Herr.
  unfold post in Hout, Herr.
  destruct (CreateShortURL u w) as [[[c [e|]] | p] w1] eqn:Hrun; cbn [fst snd] in *.
  - destruct (Herr c e eq_refl) as [Hrepo He].
    destruct (ValidateURL u) eqn:Hvalid.
    + assert (Hno : strings.ContainsStr (deliveries.Error entropyErrorText e)
                      "invalid URL format" = false)
        by (destruct He as [-> | [-> | ->]];
            [reflexivity | exact Htxt | reflexivity]).
      rewrite Hno. eexists. split; [reflexivity|]. cbn.
      split; [right; right; reflexivity|].
      split; [split; discriminate|].
      split; [split; [discriminate | intros [c' E]; discriminate]|].
      intros _. exact Hrepo.
    + subst e. cbn. eexists. split; [reflexivity|]. cbn.
      split; [right; left; reflexivity|].
      split; [split; reflexivity|].
      split; [split; [discriminate | intros [c' E]; discriminate]|].
      intros _. exact Hrepo.
  - pose proof (CreateShortURL_valid _ _ _ _ Hrun) as Hvalid. rewrite Hvalid.
    eexists. split; [reflexivity|]. cbn.
    split; [left; reflexivity|].
    split; [split; discriminate|].
    split; [split; [intros _; exists c; reflexivity | reflexivity]|].
    intros Hne. contradiction Hne. reflexivity.
  - contradiction.
Qed.

Lemma handleShorten_status_witness :
  exists resp,
    fst (deliveries.handleShorten "http://localhost:8080" "getrandom failed"
           (deliveries.mkRequest "POST" "/shorten" (Some "not a url"))
           samples.fresh_world) = Returns resp /\
    (deliveries.StatusCode resp = deliveries.StatusCreated \/
     deliveries.StatusCode resp = deliveries.StatusBadRequest \/
     deliveries.StatusCode resp = deliveries.StatusInternalServerError) /\
    (deliveries.StatusCode resp = deliveries.StatusBadRequest <->
     ValidateURL "not a url" = false) /\
    (deliveries.StatusCode resp = deliveries.StatusCreated <->
     exists c, fst (CreateShortURL "not a url" samples.fresh_world) = Returns (c, None)) /\
    (deliveries.StatusCode resp <> deliveries.StatusCreated ->
     repo (snd (deliveries.handleShorten "http://localhost:8080" "getrandom failed"
                  (deliveries.mkRequest "POST" "/shorten" (Some "not a url"))
                  samples.fresh_world))
     = repo samples.fresh_world).
Proof.
  apply (handleShorten_status "http://localhost:8080" "getrandom failed"
           (deliveries.mkRequest "POST" "/shorten" (Some "not a url")) "not a url"
           samples.fresh_world).
  - reflexivity.
  - reflexivity.
  - vm_compute. reflexivity.
Defined.

(** ** The generator reaches every code *)


Lemma index_of_encode (c : ascii) :
  base64.urlsafe c = true ->
  (index_of c < 64)%N /\ base64.encode (index_of c) = c.
Proof.
  assert (Hall : forallb
                   (fun k => let c := ascii_of_nat k in
                             negb (base64.urlsafe c)
                             || ((index_of c <? 64)%N
                                 && Ascii.eqb (base64.encode (index_of c)) c))
                   (seq 0 256) = true) by (vm_compute; reflexivity).
  rewrite forallb_forall in Hall. intros Hc.
  specialize (Hall (nat_of_ascii c)).
  rewrite ascii_nat_embedding in Hall. cbv zeta in Hall. rewrite Hc in Hall.
  cbn [negb orb] in Hall.
  assert (Hin : In (nat_of_ascii c) (seq 0 256))
    by (apply in_seq; pose proof (nat_ascii_bounded c); lia).
  specialize (Hall Hin). apply andb_true_iff in Hall. destruct Hall as [Hlt Heq].
  split; [apply N.ltb_lt, Hlt | apply Ascii.eqb_eq, Heq].
Qed.

Lemma to_N_byte_of_N (n : N) : (n < 256)%N -> Byte.to_N (byte_of_N n) = n.
Proof.
  intros Hn. unfold byte_of_N. destruct (Byte.of_N n) as [b|] eqn:E.
  - apply Byte.to_of_N, E.
  - apply Byte.of_N_None_iff in E. lia.
Qed.

Lemma lor_shiftl_add (a n x : N) :
  (x < 2 ^ n)%N -> N.lor (N.shiftl a n) x = (a * 2 ^ n + x)%N.
Proof.
  intros Hx.
  assert (Hdisj : N.land (N.shiftl a n) x = 0%N).
  { apply N.bits_inj. intros m. rewrite N.land_spec, N.bits_0.
    destruct (N.ltb_spec m n) as [Hlt | Hge].
    - rewrite N.shiftl_spec_low by exact Hlt. reflexivity.
    - destruct (N.eq_dec x 0) as [-> | Hx0].
      + rewrite N.bits_0. apply andb_false_r.
      + rewrite (N.bits_above_log2 x m); [apply andb_false_r|].
        apply N.lt_le_trans with n; [|exact Hge].
        apply N.log2_lt_pow2; [lia | exact Hx]. }
  rewrite <- N.lxor_lor, <- N.add_nocarry_lxor by exact Hdisj.
  rewrite N.shiftl_mul_pow2. reflexivity.
Qed.

(** The 24-bit group of three bytes, as a number. *)
Lemma group_value (b0 b1 b2 : N) :
  (b1 < 256)%N -> (b2 < 256)%N ->
  N.lor (N.lor (N.shiftl b0 16) (N.shiftl b1 8)) b2 = (b0 * 65536 + b1 * 256 + b2)%N.
Proof.
  intros H1 H2.
  rewrite <- N.lor_assoc.
  rewrite (lor_shiftl_add b1 8 b2) by exact H2.
  rewrite lor_shiftl_add by (change (2 ^ 16)%N with 65536%N; change (2 ^ 8)%N with 256%N; lia).
  change (2 ^ 16)%N with 65536%N. change (2 ^ 8)%N with 256%N. lia.
Qed.

Lemma symbol_of (val k : N) : N.land (N.shiftr val k) 63 = ((val / 2 ^ k) mod 64)%N.
Proof.
  change 63%N with (N.ones 6). rewrite N.land_ones, N.shiftr_div_pow2. reflexivity.
Qed.

(** Encoding the bytes made from four indices gives back their symbols. *)
Lemma encode_bytes_of_indices (i0 i1 i2 i3 : N) (rest : list byte) :
  (i0 < 64)%N -> (i1 < 64)%N -> (i2 < 64)%N -> (i3 < 64)%N ->
  base64.EncodeToString (bytes_of_indices i0 i1 i2 i3 ++ rest)%list
  = String (base64.encode i0) (String (base64.encode i1)
      (String (base64.encode i2) (String (base64.encode i3)
         (base64.EncodeToString rest)))).
Proof.
  intros H0 H1 H2 H3. unfold bytes_of_indices.
  cbn [app base64.EncodeToString].
  assert (B0 : (i0 * 4 + i1 / 16 < 256)%N)
    by (zify; Z.to_euclidean_division_equations; lia).
  assert (B1 : (i1 mod 16 * 16 + i2 / 4 < 256)%N)
    by (zify; Z.to_euclidean_division_equations; lia).
  assert (B2 : (i2 mod 4 * 64 + i3 < 256)%N)
    by (zify; Z.to_euclidean_division_equations; lia).
  rewrite !to_N_byte_of_N by assumption.
  cbv zeta. rewrite !symbol_of.
  match goal with
  | |- context [N.land ?v 63] =>
      change (N.land v 63) with (N.land (N.shiftr v 0) 63)
  end.
  rewrite symbol_of.
  rewrite group_value by assumption.
  change (2 ^ 18)%N with 262144%N. change (2 ^ 12)%N with 4096%N.
  change (2 ^ 6)%N with 64%N. change (2 ^ 0)%N with 1%N.
  set (val := (_ * 65536 + _ * 256 + _)%N).
  assert (Hval : val = (i0 * 262144 + i1 * 4096 + i2 * 64 + i3)%N)
    by (subst val; zify; Z.to_euclidean_division_equations; lia).
  clearbody val. subst val. clear B0 B1 B2.
  set (val := (_ + i3)%N).
  assert (E0 : ((val / 262144) mod 64 = i0)%N)
    by (subst val; zify; Z.to_euclidean_division_equations; lia).
  assert (E1 : ((val / 4096) mod 64 = i1)%N)
    by (subst val; zify; Z.to_euclidean_division_equations; lia).
  assert (E2 : ((val / 64) mod 64 = i2)%N)
    by (subst val; zify; Z.to_euclidean_division_equations; lia).
  assert (E3 : ((val / 1) mod 64 = i3)%N)
    by (subst val; zify; Z.to_euclidean_division_equations; lia).
  rewrite E0, E1, E2, E3. reflexivity.
Qed.

(** X11.  The generator reaches every code: each string of seven URL-safe
    characters is what [GenerateRandomString(7)] returns for some six bytes
    of entropy, so the service's codes range over the whole space of
    [64^7] strings. *)
Theorem GenerateRandomString_reaches_every_code (code : string) :
  wellformed_code code ->
  exists src,
    List.length src = 6%nat /\
    utils.GenerateRandomString 7 src = (Returns (code, None), []).
Proof.
  intros [Hlen Hsafe].
  destruct code as [|c0 [|c1 [|c2 [|c3 [|c4 [|c5 [|c6 [|c7 tl]]]]]]]];
    try discriminate Hlen.
  cbn [base64.all_urlsafe] in Hsafe.
  repeat (apply andb_true_iff in Hsafe; destruct Hsafe as [? Hsafe]).
  destruct (index_of_encode c0) as [L0 E0]; [assumption|].
  destruct (index_of_encode c1) as [L1 E1]; [assumption|].
  destruct (index_of_encode c2) as [L2 E2]; [assumption|].
  destruct (index_of_encode c3) as [L3 E3]; [assumption|].
  destruct (index_of_encode c4) as [L4 E4]; [assumption|].
  destruct (index_of_encode c5) as [L5 E5]; [assumption|].
  destruct (index_of_encode c6) as [L6 E6]; [assumption|].
  exists (bytes_of_indices (index_of c0) (index_of c1) (index_of c2) (index_of c3)
          ++ bytes_of_indices (index_of c4) (index_of c5) (index_of c6) 0 ++ [])%list.
  split; [reflexivity|].
  rewrite GenerateRandomString_7 by (cbn; lia).
  replace (firstn 6 _) with
    (bytes_of_indices (index_of c0) (index_of c1) (index_of c2) (index_of c3)
     ++ bytes_of_indices (index_of c4) (index_of c5) (index_of c6) 0 ++ [])%list
    by reflexivity.
  rewrite !encode_bytes_of_indices by (assumption || reflexivity).
  rewrite E0, E1, E2, E3, E4, E5, E6. reflexivity.
Qed.

Lemma GenerateRandomString_reaches_every_code_witness :
  exists src,
    List.length src = 6%nat /\
    utils.GenerateRandomString 7 src = (Returns ("Ab3xQ9z", None), []).
Proof.
  apply (GenerateRandomString_reaches_every_code "Ab3xQ9z").
  split; vm_compute; reflexivity.
Defined.

Lemma handlers_guard_the_store_witness :
  (forall c u res,
      In (CallSaveMapping c u res)
         (trace (snd (deliveries.handleShorten "http://localhost:8080" "getrandom failed"
                        (deliveries.mkRequest "POST" "/shorten" (Some samples.url_a))
                        samples.fresh_world))) ->
      deliveries.Method (deliveries.mkRequest "POST" "/shorten" (Some samples.url_a))
      = "POST" /\
      deliveries.Decoded (deliveries.mkRequest "POST" "/shorten" (Some samples.url_a))
      = Some u /\
      ValidateURL u = true /\ wellformed_code c) /\
  (forall c u res,
      In (CallUpdateLongURL c u res)
         (trace (snd (deliveries.handleUpdate "getrandom failed"
                        (deliveries.mkRequest "POST" "/shorten" (Some samples.url_a))
                        samples.fresh_world))) ->
      deliveries.Method (deliveries.mkRequest "POST" "/shorten" (Some samples.url_a))
      = "PUT" /\
      deliveries.Decoded (deliveries.mkRequest "POST" "/shorten" (Some samples.url_a))
      = Some u /\
      ValidateURL u = true /\ c <> "" /\ strings.Contains c "/" = false /\
      (deliveries.Path (deliveries.mkRequest "POST" "/shorten" (Some samples.url_a))
       = "/update/" ++ c \/
       deliveries.Path (deliveries.mkRequest "POST" "/shorten" (Some samples.url_a))
       = c)) /\
  (forall c res,
      In (CallDeleteMapping c res)
         (trace (snd (deliveries.handleDelete
                        (deliveries.mkRequest "POST" "/shorten" (Some samples.url_a))
                        samples.fresh_world))) ->
      deliveries.Method (deliveries.mkRequest "POST" "/shorten" (Some samples.url_a))
      = "DELETE" /\ c <> "" /\ strings.Contains c "/" = false /\
      (deliveries.Path (deliveries.mkRequest "POST" "/shorten" (Some samples.url_a))
       = "/delete/" ++ c \/
       deliveries.Path (deliveries.mkRequest "POST" "/shorten" (Some samples.url_a))
       = c)).
Proof.
  apply (handlers_guard_the_store "http://localhost:8080" "getrandom failed"
           (deliveries.mkRequest "POST" "/shorten" (Some samples.url_a))
           samples.fresh_world).
  reflexivity.
Defined.
